(** * ai-automl-app: the orchestrator decision loop, the insight generator,
    evaluation-time column alignment and dataset resolution.

  A shallow embedding of

  - [backend/app/agents/ai_insights_agent.py]
  - [backend/app/agents/orchestrator_agent.py]
  - [backend/app/agents/evaluation_agent.py]
  - [backend/app/api/feature_engineering_routes.py],
    [backend/app/api/evaluation_routes.py],
    [backend/app/api/model_training_routes.py]

  Python objects that the code only passes around (the text-generation
  backend, the EDA and training stages, scikit-learn estimators, the file
  system) are explicit oracles; everything the repository computes itself
  is a Rocq function that evaluates. *)

From Stdlib Require Import Ascii String QArith.
From stdpp Require Import gmap strings list fin_maps.

Local Open Scope string_scope.
Local Set Warnings "-register-all".

(* ===================================================================== *)
(** * Python primitives                                                   *)
(* ===================================================================== *)

Module Py.

(** ** Strings

    A Python [str] is a sequence of code points.  A [string] here holds one
    code point below 256 per character (the Latin-1 range), which is where
    every character class used by the source lives. *)

Definition nl : string := String "010"%char EmptyString.

Definition code (c : ascii) : nat := nat_of_ascii c.

Definition between (lo hi n : nat) : bool := (lo <=? n)%nat && (n <=? hi)%nat.

(** [str.isspace] on one character, which is also what [\s] matches in a
    [str] pattern: TAB..CR, FS..US, SPACE, NEL and NBSP. *)
Definition is_space (c : ascii) : bool :=
  let n := code c in
  between 9 13 n || between 28 32 n || (n =? 133)%nat || (n =? 160)%nat.

(** The character class [[A-Z_]]. *)
Definition is_upper_or_underscore (c : ascii) : bool :=
  let n := code c in between 65 90 n || (n =? 95)%nat.

(** [str.lower] on one character of the Latin-1 range. *)
Definition lower_char (c : ascii) : ascii :=
  let n := code c in
  if between 65 90 n || (between 192 222 n && negb (n =? 215)%nat)
  then ascii_of_nat (n + 32) else c.

Fixpoint lower (s : string) : string :=
  match s with
  | EmptyString => EmptyString
  | String c r => String (lower_char c) (lower r)
  end.

(** [sub in s] for two strings. *)
Fixpoint contains (sub s : string) : bool :=
  String.prefix sub s ||
  match s with
  | EmptyString => false
  | String _ r => contains sub r
  end.

Fixpoint lstrip (s : string) : string :=
  match s with
  | EmptyString => EmptyString
  | String c r => if is_space c then lstrip r else s
  end.

Fixpoint rstrip (s : string) : string :=
  match s with
  | EmptyString => EmptyString
  | String c r =>
      match rstrip r with
      | EmptyString => if is_space c then EmptyString else String c EmptyString
      | r' => String c r'
      end
  end.

(** [str.strip()] with no argument. *)
Definition strip (s : string) : string := rstrip (lstrip s).

(** No leading white space. *)
Definition starts_clean (s : string) : Prop :=
  match s with
  | EmptyString => True
  | String c _ => is_space c = false
  end.

Fixpoint take (n : nat) (s : string) : string :=
  match n, s with
  | S k, String c r => String c (take k r)
  | _, _ => EmptyString
  end.

(** [s[:n]] for any integer [n]; a negative [n] counts from the end. *)
Definition slice_to (s : string) (n : Z) : string :=
  if (0 <=? n)%Z then take (Z.to_nat n) s
  else take (Z.to_nat (Z.of_nat (String.length s) + n)) s.

(** Truthiness of a [str]. *)
Definition truthy (s : string) : bool :=
  match s with EmptyString => false | _ => true end.

(** ** [re.sub]

    The three patterns of the source never match the empty string and need
    no backtracking, so a pattern is given by the length of its match at
    the head of the text.  [re_sub] replaces the leftmost non-overlapping
    matches; [skip] counts the characters of the current match that are
    still to be consumed. *)

Fixpoint re_sub_from (pat : string -> option nat) (repl : string)
         (skip : nat) (s : string) : string :=
  match s with
  | EmptyString => EmptyString
  | String c r =>
      match skip with
      | S k => re_sub_from pat repl k r
      | O =>
          match pat s with
          | Some (S n) => repl +:+ re_sub_from pat repl n r
          | _ => String c (re_sub_from pat repl 0 r)
          end
      end
  end.

Definition re_sub (pat : string -> option nat) (repl s : string) : string :=
  re_sub_from pat repl 0 s.

Fixpoint span (p : ascii -> bool) (s : string) : nat :=
  match s with
  | String c r => if p c then S (span p r) else 0
  | EmptyString => 0
  end.

Fixpoint drop (n : nat) (s : string) : string :=
  match n, s with
  | S k, String _ r => drop k r
  | _, _ => s
  end.

(** [\[/?[A-Z_]+\]] *)
Definition pat_control_token (s : string) : option nat :=
  match s with
  | String "["%char r =>
      let '(slash, r1) :=
        match r with
        | String "/"%char r' => (1, r')
        | _ => (0, r)
        end in
      let k := span is_upper_or_underscore r1 in
      match k, drop k r1 with
      | S _, String "]"%char _ => Some (1 + slash + k + 1)
      | _, _ => None
      end
  | _ => None
  end.

(** [</s>] *)
Definition pat_eos (s : string) : option nat :=
  if String.prefix "</s>" s then Some 4 else None.

(** [\s+] *)
Definition pat_spaces (s : string) : option nat :=
  match span is_space s with
  | O => None
  | n => Some n
  end.

(** ** [repr] of a [str] and of a list of [str], as f-strings print them *)

Definition backslash : ascii := "092"%char.
Definition quote1 : ascii := "'"%char.
Definition quote2 : ascii := "034"%char.

Definition hex_digit (n : nat) : ascii :=
  match String.get n "0123456789abcdef" with
  | Some c => c
  | None => "0"%char
  end.

Definition repr_char (q c : ascii) : string :=
  let n := code c in
  let esc (x : string) := String backslash x in
  if Ascii.eqb c backslash then esc (String backslash EmptyString)
  else if Ascii.eqb c q then esc (String q EmptyString)
  else if (n =? 9)%nat then esc "t"
  else if (n =? 10)%nat then esc "n"
  else if (n =? 13)%nat then esc "r"
  else if (n <? 32)%nat || between 127 160 n || (n =? 173)%nat
  then esc (String "x" (String (hex_digit (n / 16)) (String (hex_digit (n mod 16)) EmptyString)))
  else String c EmptyString.

Fixpoint repr_body (q : ascii) (s : string) : string :=
  match s with
  | EmptyString => EmptyString
  | String c r => repr_char q c +:+ repr_body q r
  end.

Definition repr_str (s : string) : string :=
  let q := if contains (String quote1 EmptyString) s &&
              negb (contains (String quote2 EmptyString) s)
           then quote2 else quote1 in
  String q (repr_body q s +:+ String q EmptyString).

Fixpoint join (sep : string) (parts : list string) : string :=
  match parts with
  | [] => EmptyString
  | [p] => p
  | p :: rest => p +:+ sep +:+ join sep rest
  end.

Definition repr_list (l : list string) : string :=
  "[" +:+ join ", " (map repr_str l) +:+ "]".

(** ** Floats

    A Python [float]: a finite value, an infinity or NaN.  Finite values
    are rationals here: the comparisons of the source are modelled, the
    rounding of float arithmetic is not. *)
Inductive pyfloat : Type :=
| FNum (q : Q)
| FInf (negative : bool)
| FNaN.

(** [math.isnan] *)
Definition isnan (x : pyfloat) : bool :=
  match x with FNaN => true | _ => false end.

(** [x < y] on floats: false as soon as one side is NaN. *)
Definition float_lt (x y : pyfloat) : bool :=
  match x, y with
  | FNum a, FNum b => negb (Qle_bool b a)
  | FNum _, FInf negative => negb negative
  | FInf negative, FNum _ => negative
  | FInf negative_x, FInf negative_y => negative_x && negb negative_y
  | _, _ => false
  end.

(** [x <= y], which is also [y >= x]: false as soon as one side is NaN. *)
Definition float_le (x y : pyfloat) : bool :=
  negb (isnan x) && negb (isnan y) && negb (float_lt y x).

(** ** Exceptions and the state-and-exception monad *)

Record exn : Type := Exn { exn_type : string; exn_msg : string }.

(** [str(e)] *)
Definition str_of_exn (e : exn) : string := exn_msg e.

Definition ValueError (msg : string) : exn := Exn "ValueError" msg.
Definition TypeError (msg : string) : exn := Exn "TypeError" msg.
Definition AttributeError (msg : string) : exn := Exn "AttributeError" msg.
(** [HTTPException(status_code=..., detail=...)]; the status code is kept
    in the class name. *)
Definition HTTPException (status detail : string) : exn :=
  Exn ("HTTPException " +:+ status) detail.

(** A computation over a mutable world [S] that returns or raises. *)
Definition M (S A : Type) : Type := S -> (exn + A) * S.

Definition ret {S A} (a : A) : M S A := fun s => (inr a, s).

Definition raise {S A} (e : exn) : M S A := fun s => (inl e, s).

Definition bind {S A B} (m : M S A) (k : A -> M S B) : M S B :=
  fun s =>
    match m s with
    | (inr a, s') => k a s'
    | (inl e, s') => (inl e, s')
    end.

(** [try: m except Exception as e: h e]; the effects of [m] up to the
    raise are kept. *)
Definition try_except {S A} (m : M S A) (h : exn -> M S A) : M S A :=
  fun s =>
    match m s with
    | (inr a, s') => (inr a, s')
    | (inl e, s') => h e s'
    end.

Definition gets {S A} (f : S -> A) : M S A := fun s => (inr (f s), s).

Definition modify {S} (f : S -> S) : M S unit := fun s => (inr tt, f s).

(** Lifting of a pure result that may be an exception. *)
Definition lift {S A} (r : exn + A) : M S A := fun s => (r, s).

End Py.

Notation "x <-- m ;; k" := (Py.bind m (fun x => k))
(at level 100, m at next level, right associativity, only parsing).
Notation "m ;;; k" := (Py.bind m (fun _ => k))
(at level 100, right associativity, only parsing).

(* ===================================================================== *)
(** * Python values and the shared world                                  *)
(* ===================================================================== *)

Module World.
Import Py.

(** The dynamically typed values the insight generator inspects: what
    [ollama.chat] may hand back and what [json.load] may read from a cache
    file.  [VObj] is a plain object known by its attributes only. *)
Inductive pyval : Type :=
| VNone
| VInt (n : Z)
| VStr (s : string)
| VDict (items : list (string * pyval))
| VObj (attrs : list (string * pyval)).

(** [d[k]] / [k in d] on a dict, [getattr] / [hasattr] on an object. *)
Fixpoint assoc (k : string) (items : list (string * pyval)) : option pyval :=
  match items with
  | [] => None
  | (k', v) :: rest => if String.eqb k k' then Some v else assoc k rest
  end.

(** The stages the orchestrator can invoke, for the call log. *)
Inductive stage : Type :=
| StageEDA
| StageTraining
| StageRetrieval
| StageInsights.

Global Instance stage_eq_dec : EqDecision stage.
Proof. solve_decision. Defined.

(** The mutable world of one request:
    - [cache_files]: the files of [CACHE_DIR] by path, each with the value
      [json.load] reads from it ([None]: not valid JSON);
    - [chat_log]: the calls made to [ollama.chat] so far, as
      (model, prompt), oldest first;
    - [stage_log]: the stages invoked so far, oldest first. *)
Record world : Type := mkWorld {
  cache_files : gmap string (option pyval);
  chat_log : list (string * string);
  stage_log : list stage
}.

Definition with_cache (f : gmap string (option pyval) -> gmap string (option pyval))
           (w : world) : world :=
  mkWorld (f (cache_files w)) (chat_log w) (stage_log w).

Definition log_chat (model prompt : string) (w : world) : world :=
  mkWorld (cache_files w) (chat_log w ++ [(model, prompt)]) (stage_log w).

Definition log_stage (st : stage) (w : world) : world :=
  mkWorld (cache_files w) (chat_log w) (stage_log w ++ [st]).

(** What the code cannot decide by itself. *)
Record env : Type := mkEnv {
  (** [hashlib.md5(key.encode()).hexdigest()] *)
  md5_hex : string -> string;
  (** stdout of [ollama list]; [None] when the subprocess call raises *)
  ollama_list : option string;
  (** [ollama.chat(model, messages=[{role: user, content: prompt}])],
      given the calls made before this one *)
  ollama_chat : list (string * string) -> string -> string -> exn + pyval;
  (** whether [open(path, "w")] succeeds *)
  writable : string -> bool
}.

End World.

(* ===================================================================== *)
(** * backend/app/agents/ai_insights_agent.py                             *)
(* ===================================================================== *)

Module AiInsights.
Import Py World.

Definition AVAILABLE_MODELS : list string :=
  ["mistral"; "gemma2"; "llama3.3"; "llama2"; "gpt-4"].

Definition CACHE_DIR : string := "ai_cache".

Definition get_cache_filename (E : env) (prompt model_choice : string) : string :=
  let key := model_choice +:+ ":" +:+ prompt in
  let hash_key := md5_hex E key in
  CACHE_DIR +:+ "/" +:+ hash_key +:+ ".json".

Definition is_model_available (E : env) (model_name : string) : bool :=
  match ollama_list E with
  | Some stdout => contains (lower model_name) (lower stdout)
  | None => false
  end.

Definition clean_response (raw_response : string) : string :=
  let cleaned := re_sub pat_control_token EmptyString raw_response in
  let cleaned := re_sub pat_eos EmptyString cleaned in
  let cleaned := re_sub pat_spaces " " cleaned in
  strip cleaned.

(** Lines 73-92: the prompt. *)
Definition build_prompt (eda_summary model_summary : string)
           (chunk_threshold : Z) (enable_cot : bool) : string :=
  let combined_summary :=
    "EDA Summary:" +:+ nl +:+ eda_summary +:+ nl +:+ nl +:+
    "Model Training Summary:" +:+ nl +:+ model_summary +:+ nl +:+ nl in
  let combined_summary :=
    if (chunk_threshold <? Z.of_nat (String.length combined_summary))%Z
    then slice_to combined_summary chunk_threshold +:+
         nl +:+ nl +:+ "[TRUNCATED FOR LENGTH]" +:+ nl
    else combined_summary in
  let cot_instruction :=
    if enable_cot
    then "Also, please include your chain-of-thought in a section labeled 'Chain-of-Thought'. "
    else EmptyString in
  "You are an AI assistant with context from an Exploratory Data Analysis (EDA) and a Model Training Summary. " +:+
  "Use the information provided below to create structured, actionable insights in bullet points." +:+ nl +:+ nl +:+
  combined_summary +:+
  "Outline:" +:+ nl +:+ "1) General Insights" +:+ nl +:+
  "2) Model Performance" +:+ nl +:+ "3) Recommendations" +:+ nl +:+
  cot_instruction +:+
  "Think step by step.".

(** Lines 102-112: what a cache file yields.  [Some s]: the cached text is
    returned; [None]: empty, missing or unreadable, so generation goes on. *)
Definition read_cached (content : option pyval) : option string :=
  match content with
  | Some (VDict d) =>
      match assoc "insights" d with
      | Some (VStr s) =>
          let cached_insights := strip s in
          if truthy cached_insights then Some cached_insights else None
      | Some _ => None
      | None => None
      end
  | _ => None
  end.

(** One call of [ollama.chat], logged. *)
Definition chat (E : env) (model prompt : string) : M world pyval :=
  fun w => (ollama_chat E (chat_log w) model prompt, log_chat model prompt w).

(** Lines 114-145: the generation call and its fallback.  Returns the
    response and the rebound [model_choice]. *)
Definition call_backend (E : env) (model_choice prompt : string)
  : M world (pyval * string) :=
  try_except
    (response <-- chat E model_choice prompt ;; ret (response, model_choice))
    (fun e =>
       if contains "requires more system memory" (str_of_exn e) then
         let fallback_model := "mistral" in
         try_except
           (response <-- chat E fallback_model prompt ;;
            ret (response, fallback_model))
           (fun fallback_e => raise fallback_e)
       else if String.eqb (lower model_choice) "gpt-4" then
         try_except
           (response <-- chat E "mistral" prompt ;; ret (response, "mistral"))
           (fun fallback_e => raise fallback_e)
       else raise e).

(** Lines 147-159: the text of a response, by shape.  The messages of the
    two [ValueError]s end with the [repr] of the response and of its type,
    which is left out here. *)
Definition extract_insights (response : pyval) : exn + pyval :=
  match response with
  | VDict d =>
      match assoc "response" d with
      | Some v => inr v
      | None =>
          match assoc "message" d with
          | Some (VDict m) =>
              match assoc "content" m with
              | Some c => inr c
              | None => inl (ValueError "Unexpected response format")
              end
          | Some (VStr m) =>
              if contains "content" m
              then inl (TypeError "string indices must be integers")
              else inl (ValueError "Unexpected response format")
          | Some _ => inl (TypeError "argument is not iterable")
          | None => inl (ValueError "Unexpected response format")
          end
      end
  | VStr s => inr (VStr (clean_response s))
  | VObj attrs =>
      match assoc "message" attrs with
      | Some (VObj m) =>
          match assoc "content" m with
          | Some c => inr c
          | None => inl (ValueError "Unexpected response type")
          end
      | _ => inl (ValueError "Unexpected response type")
      end
  | _ => inl (ValueError "Unexpected response type")
  end.

(** Line 161: [insights.strip()] on whatever was extracted. *)
Definition strip_value (v : pyval) : exn + string :=
  match v with
  | VStr s => inr (strip s)
  | _ => inl (AttributeError "object has no attribute 'strip'")
  end.

(** Lines 162-170: the cache write; a failing [open] is logged and
    swallowed. *)
Definition save_cache (E : env) (cache_file insights : string) : M world unit :=
  if truthy insights then
    if writable E cache_file
    then modify (with_cache <[cache_file := Some (VDict [("insights", VStr insights)])]>)
    else ret tt
  else ret tt.

(** Lines 96-112: the cache is invalidated on request, then consulted
    unless regeneration is forced.  [Some s]: a cache hit. *)
Definition consult_cache (cache_file : string) (force_regenerate clear_cache : bool)
  : M world (option string) :=
  modify (fun w =>
    if (force_regenerate || clear_cache) &&
       bool_decide (is_Some (cache_files w !! cache_file))
    then with_cache (delete cache_file) w else w) ;;;
  gets (fun w =>
    if negb force_regenerate then
      match cache_files w !! cache_file with
      | Some content => read_cached content
      | None => None
      end
    else None).

(** Lines 114-172: generation, normalisation and the cache write. *)
Definition generate (E : env) (cache_file model_choice prompt : string)
  : M world string :=
  r <-- call_backend E model_choice prompt ;;
  let '(response, model_choice) := r in
  insights <-- lift (extract_insights response) ;;
  insights <-- lift (strip_value insights) ;;
  save_cache E cache_file insights ;;;
  ret insights.

Definition generate_ai_insights (E : env)
           (eda_summary model_summary model_choice : string)
           (chunk_threshold : Z) (force_regenerate enable_cot : bool)
           (max_tokens : Z) (clear_cache : bool) : M world string :=
  if negb (bool_decide (model_choice ∈ AVAILABLE_MODELS)) then
    raise (ValueError ("Invalid model '" +:+ model_choice +:+
      "'. Choose from ['mistral', 'gemma2', 'llama3.3', 'llama2', 'gpt-4']."))
  else if negb (is_model_available E model_choice) then
    raise (ValueError ("Selected model '" +:+ model_choice +:+
      "' is not available in Ollama."))
  else
    let prompt := build_prompt eda_summary model_summary chunk_threshold enable_cot in
    let cache_file := get_cache_filename E prompt model_choice in
    cached <-- consult_cache cache_file force_regenerate clear_cache ;;
    match cached with
    | Some cached_insights => ret cached_insights
    | None => generate E cache_file model_choice prompt
    end.

End AiInsights.

(* ===================================================================== *)
(** * Data frames                                                         *)
(* ===================================================================== *)

Module Frame.

Inductive cell : Type :=
| CNum (q : Q)
| CText (s : string)
| CNaN.

(** A [pandas.DataFrame]: its columns in order, each a label and its
    values.  Labels may repeat, as pandas allows. *)
Abbreviation DataFrame := (list (string * list cell)).

(** [df.columns] *)
Definition labels (df : DataFrame) : list string := df.*1.

(** [df.drop(columns=cs)] *)
Definition drop_columns (cs : list string) (df : DataFrame) : DataFrame :=
  filter (fun col => col.1 ∉ cs) df.

(** [df[c]]: the columns that carry the label [c]. *)
Definition columns_named (c : string) (df : DataFrame) : DataFrame :=
  filter (fun col => col.1 = c) df.

(** [df[cs]] for a list of labels, each of which is present. *)
Definition select (cs : list string) (df : DataFrame) : DataFrame :=
  flat_map (fun c => columns_named c df) cs.

End Frame.

(* ===================================================================== *)
(** * backend/app/agents/orchestrator_agent.py                            *)
(* ===================================================================== *)

Module Orchestrator.
Import Py World Frame.

(** [x < y] on the two thresholds and the fixed quality score, which are
    finite constants. *)
Definition Qltb (x y : Q) : bool := negb (Qle_bool y x).

(** One row of the training results: the model name and its numeric
    fields by name.  A field is a float: a score can be NaN, as [r2_score]
    is on a test split of one row. *)
Record row : Type := mkRow {
  row_model : string;
  row_fields : gmap string pyfloat
}.

(** [row.get(key, default)] on a numeric field. *)
Definition row_get (r : row) (key : string) (default : pyfloat) : pyfloat :=
  match row_fields r !! key with
  | Some v => v
  | None => default
  end.

(** One step of [max]: a later item replaces the best one only when it
    compares strictly larger, which a NaN on either side never does. *)
Definition keep_larger (best y : pyfloat) : pyfloat :=
  if float_lt best y then y else best.

(** [max(iterable, default=d)]: the first of the largest items when no
    item is NaN. *)
Definition py_max (xs : list pyfloat) (default : pyfloat) : pyfloat :=
  match xs with
  | [] => default
  | x :: rest => fold_left keep_larger rest x
  end.

(** The stages the orchestrator calls, with the arguments it fixes:
    - [generate_eda(data, target_col=None, interactive=False,
      exclude_date_features=True, correlation_method="pearson",
      sample_size=100000)], of which only the report text is used;
    - [train_and_evaluate_models(df, target_col, "regression",
      ["LinearRegression", "RandomForestRegressor"], ["RMSE", "R2"], ...)],
      of which only ["results"] is used;
    - [retrieve_context(query, top_k)]. *)
Record stages : Type := mkStages {
  generate_eda : DataFrame -> exn + string;
  train_and_evaluate_models : DataFrame -> string -> exn + list row;
  retrieve_context : string -> nat -> exn + string
}.

(** The f-strings stored under ["reason"], with the numbers they quote:
    - ["Data quality score ({dq}) < threshold ({thr})."]
    - ["Best R2 ({best_r2}) < threshold ({thr})."]
    - ["Data quality & model performance are satisfactory (R2={best_r2})."] *)
Inductive reason : Type :=
| ReasonLowQuality (data_quality threshold : Q)
| ReasonLowR2 (best_r2 : pyfloat) (threshold : Q)
| ReasonSatisfactory (best_r2 : pyfloat).

Inductive dvalue : Type :=
| DStr (s : string)
| DRows (rows : list row)
| DReason (r : reason).

Record OrchestratorAgent : Type := mkAgent {
  eda_quality_threshold : Q;
  model_performance_threshold : Q
}.

(** [OrchestratorAgent.__init__] *)
Definition init : OrchestratorAgent := mkAgent 0.8%Q 0.75%Q.

(** A stage call, logged. *)
Definition call_stage {A} (st : stage) (m : M world A) : M world A :=
  modify (log_stage st) ;;; m.

(** [try: x = m  except Exception as e: ...], the outcome as a value. *)
Definition attempt {A} (m : M world A) : M world (exn + A) :=
  try_except (x <-- m ;; ret (inr x)) (fun e => ret (inl e)).

Definition decide_next_steps (self : OrchestratorAgent) (S : stages) (E : env)
           (data : DataFrame) (target_col : string)
  : M world (gmap string dvalue) :=
  let decision : gmap string dvalue := ∅ in
  eda <-- attempt (call_stage StageEDA (lift (generate_eda S data))) ;;
  match eda with
  | inl e => ret {[ "error" := DStr "EDA failed"; "details" := DStr (str_of_exn e) ]}
  | inr report =>
      let decision := <["eda_report" := DStr report]> decision in
      let data_quality : Q := 0.85%Q in
      if Qltb data_quality (eda_quality_threshold self) then
        let decision := <["next_action" := DStr "Perform advanced feature engineering."]> decision in
        let decision := <["reason" := DReason
              (ReasonLowQuality data_quality (eda_quality_threshold self))]> decision in
        ret decision
      else
        trained <-- attempt (call_stage StageTraining
                      (lift (train_and_evaluate_models S data target_col))) ;;
        match trained with
        | inl e => ret {[ "error" := DStr "Model training failed";
                          "details" := DStr (str_of_exn e) ]}
        | inr results =>
            let decision := <["model_results" := DRows results]> decision in
            let best_r2 :=
              py_max (map (fun r => row_get r "R2" (FNum 0)) results) (FNum 0.0) in
            if float_lt best_r2 (FNum (model_performance_threshold self)) then
              let decision := <["next_action" :=
                    DStr "Tune hyperparameters or try alternative models."]> decision in
              let decision := <["reason" := DReason
                    (ReasonLowR2 best_r2 (model_performance_threshold self))]> decision in
              ai <-- attempt
                (domain_context <-- call_stage StageRetrieval
                   (lift (retrieve_context S "Ways to improve regression R2 score" 2)) ;;
                 let eda_summary :=
                   report +:+ nl +:+ nl +:+ "Additional Domain Context:" +:+ nl +:+
                   domain_context in
                 let model_summary :=
                   "Model training results indicate low R2. Consider adjusting hyperparameters and exploring alternative algorithms." in
                 call_stage StageInsights
                   (AiInsights.generate_ai_insights E eda_summary model_summary
                      "gpt-4" 1500 true true 512 false)) ;;
              match ai with
              | inr insights => ret (<["ai_insights" := DStr insights]> decision)
              | inl ai_e =>
                  ret (<["ai_insights" :=
                         DStr "No AI insights available due to an error."]> decision)
              end
            else
              let decision := <["next_action" :=
                    DStr "Proceed to forecasting or deployment."]> decision in
              let decision := <["reason" := DReason (ReasonSatisfactory best_r2)]> decision in
              ret decision
        end
  end.

(** ** Shapes of the outcome, for the statements below *)

(** The world after the EDA and training stages alone. *)
Definition after_training (w : world) : world :=
  log_stage StageTraining (log_stage StageEDA w).

(** The decision on the branch where insight generation is skipped. *)
Definition satisfied (report : string) (rows : list row) (best_r2 : pyfloat)
  : gmap string dvalue :=
  <["reason" := DReason (ReasonSatisfactory best_r2)]>
    (<["next_action" := DStr "Proceed to forecasting or deployment."]>
       (<["model_results" := DRows rows]>
          (<["eda_report" := DStr report]> ∅))).

(** The decision of the tuning branch before the insights are added. *)
Definition needs_tuning (report : string) (rows : list row)
           (best_r2 : pyfloat) (thr : Q) : gmap string dvalue :=
  <["reason" := DReason (ReasonLowR2 best_r2 thr)]>
    (<["next_action" := DStr "Tune hyperparameters or try alternative models."]>
       (<["model_results" := DRows rows]>
          (<["eda_report" := DStr report]> ∅))).

End Orchestrator.

(* ===================================================================== *)
(** * backend/app/agents/evaluation_agent.py                              *)
(* ===================================================================== *)

Module Evaluation.
Import Py Frame.

(** ** Models and results *)

Inductive estimator_kind : Type := Classifier | Regressor | OtherEstimator.

(** A loaded artifact: [_training_columns] when the attribute is there,
    what [is_classifier] / [is_regressor] say, and [predict].  An artifact
    comes from disk during the call: [predict] sees the frame it is handed
    and holds no reference into the caller's object store. *)
Record model : Type := mkModel {
  training_columns : option (list string);
  kind : estimator_kind;
  predict : DataFrame -> exn + list cell
}.

(** [joblib] and [sklearn.metrics].  The ground truth reaches the metrics
    as the columns [df[target_col]] selected. *)
Record sklearn : Type := mkSklearn {
  joblib_load : string -> exn + model;
  accuracy_score : DataFrame -> list cell -> exn + pyfloat;
  f1_score : DataFrame -> list cell -> exn + pyfloat;
  root_mean_squared_error : DataFrame -> list cell -> exn + pyfloat;
  r2_score : DataFrame -> list cell -> exn + pyfloat
}.

(** The dict [col_info], one field per key it can hold. *)
Record ColInfo : Type := mkColInfo {
  missing_target : option string;
  extra_columns_dropped : option (list string);
  used_columns : option (list string)
}.

(** The dict [results]. *)
Record results : Type := mkResults {
  predictions : list cell;
  column_info : ColInfo;
  metrics : option (gmap string pyfloat);
  actual : option (list cell)
}.

(** ** The object store

    Data frames are mutable objects; a variable holds a reference.  The
    store is the list of all frames allocated so far and a reference is an
    index into it. *)
Abbreviation heap := (list DataFrame).
Abbreviation loc := nat.

Definition deref (l : loc) : M heap DataFrame :=
  fun h => match h !! l with
           | Some d => (inr d, h)
           | None => (inl (Exn "ReferenceError" "dangling reference"), h)
           end.

Definition alloc (d : DataFrame) : M heap loc :=
  fun h => (inr (List.length h), (h ++ [d])%list).

(** An in-place update of the object behind [l]. *)
Definition store (l : loc) (d : DataFrame) : M heap unit :=
  modify (fun h => <[l := d]> h).

(** [df.copy()] *)
Definition copy (l : loc) : M heap loc :=
  d <-- deref l ;; alloc d.

(** Lines 72-85: the metrics dict; a metric that raises is logged and the
    entries set before it stay. *)
Definition compute_metrics (K : sklearn) (m : model) (y_true : DataFrame)
           (preds : list cell) : gmap string pyfloat :=
  match kind m with
  | Classifier =>
      match accuracy_score K y_true preds with
      | inr acc =>
          match f1_score K y_true preds with
          | inr f1 => <["F1" := f1]> {[ "Accuracy" := acc ]}
          | inl _ => {[ "Accuracy" := acc ]}
          end
      | inl _ => ∅
      end
  | Regressor =>
      match root_mean_squared_error K y_true preds with
      | inr rmse =>
          match r2_score K y_true preds with
          | inr r2 => <["R2" := r2]> {[ "RMSE" := rmse ]}
          | inl _ => {[ "RMSE" := rmse ]}
          end
      | inl _ => ∅
      end
  | OtherEstimator => ∅
  end.

(** [y_true.tolist()]: [df[target_col]] is a Series when the label is
    unique and a DataFrame, which has no [tolist], otherwise. *)
Definition tolist (y_true : DataFrame) : exn + list cell :=
  match y_true with
  | [col] => inr col.2
  | _ => inl (AttributeError "'DataFrame' object has no attribute 'tolist'")
  end.

Definition nonempty {A} (l : list A) : bool :=
  match l with [] => false | _ => true end.

(** Lines 33-41: the target column, when given and present, is taken out of
    [df] in place and kept as [y_true]; when given and absent it is noted
    in [col_info]. *)
Definition separate_target (df : loc) (target_col : option string)
           (col_info : ColInfo) : M heap (option DataFrame * ColInfo) :=
  match target_col with
  | Some t =>
      if truthy t then
        cur <-- deref df ;;
        if bool_decide (t ∈ labels cur) then
          let y_true := columns_named t cur in
          store df (drop_columns [t] cur) ;;;
          ret (Some y_true, col_info)
        else
          ret (None, mkColInfo (Some t) (extra_columns_dropped col_info)
                       (used_columns col_info))
      else ret (None, col_info)
  | None => ret (None, col_info)
  end.

(** Lines 43-59: alignment with the training columns.  Returns the frame
    that [df] is bound to afterwards. *)
Definition align_columns (model : model) (df : loc) (col_info : ColInfo)
  : M heap (loc * ColInfo) :=
  match training_columns model with
  | Some model_training_columns =>
      cur <-- deref df ;;
      let training_cols : gset string := list_to_set model_training_columns in
      let current_cols : gset string := list_to_set (labels cur) in
      let extra_cols := elements (current_cols ∖ training_cols) in
      let missing_cols := elements (training_cols ∖ current_cols) in
      col_info <--
        (if nonempty extra_cols then
           store df (drop_columns extra_cols cur) ;;;
           ret (mkColInfo (missing_target col_info) (Some extra_cols)
                  (used_columns col_info))
         else ret col_info) ;;
      if nonempty missing_cols then
        raise (ValueError ("Missing expected columns from training: " +:+
                 repr_list missing_cols +:+ ". Please check your dataset."))
      else
        cur <-- deref df ;;
        df <-- alloc (select model_training_columns cur) ;;
        ret (df, mkColInfo (missing_target col_info)
                   (extra_columns_dropped col_info)
                   (Some model_training_columns))
  | None => ret (df, col_info)
  end.

(** Lines 61-90: prediction, metrics and the result dict. *)
Definition predict_and_report (K : sklearn) (model : model) (df : loc)
           (y_true : option DataFrame) (col_info : ColInfo) : M heap results :=
  cur <-- deref df ;;
  preds <-- lift (predict model cur) ;;
  match y_true with
  | Some y_true =>
      let metrics := compute_metrics K model y_true preds in
      actual <-- lift (tolist y_true) ;;
      ret (mkResults preds col_info (Some metrics) (Some actual))
  | None => ret (mkResults preds col_info None None)
  end.

Definition evaluate_model (K : sklearn) (new_df : loc) (model_path : string)
           (target_col : option string) : M heap results :=
  model <-- lift (joblib_load K model_path) ;;
  df <-- copy new_df ;;
  let col_info := mkColInfo None None None in
  r <-- separate_target df target_col col_info ;;
  let '(y_true, col_info) := r in
  r <-- align_columns model df col_info ;;
  let '(df, col_info) := r in
  predict_and_report K model df y_true col_info.

(** ** Shapes of the outcome, for the statements below *)

(** The target column that is set aside: supplied, non-empty and present. *)
Definition target_present (d : DataFrame) (target_col : option string) : option string :=
  match target_col with
  | Some t => if truthy t && bool_decide (t ∈ labels d) then Some t else None
  | None => None
  end.

(** The target column that is supplied, non-empty and absent. *)
Definition target_absent (d : DataFrame) (target_col : option string) : option string :=
  match target_col with
  | Some t => if truthy t && negb (bool_decide (t ∈ labels d)) then Some t else None
  | None => None
  end.

(** The evaluation frame: the dataset without the target that is set aside. *)
Definition features (d : DataFrame) (target_col : option string) : DataFrame :=
  match target_present d target_col with
  | Some t => drop_columns [t] d
  | None => d
  end.

Definition ground_truth (d : DataFrame) (target_col : option string) : option DataFrame :=
  match target_present d target_col with
  | Some t => Some (columns_named t d)
  | None => None
  end.

Definition extra_columns (training : list string) (feats : DataFrame) : list string :=
  elements ((list_to_set (labels feats) : gset string) ∖ list_to_set training).

Definition missing_columns (training : list string) (feats : DataFrame) : list string :=
  elements ((list_to_set training : gset string) ∖ list_to_set (labels feats)).

Definition aligned (training : list string) (feats : DataFrame) : DataFrame :=
  select training (drop_columns (extra_columns training feats) feats).

Definition missing_columns_error (missing : list string) : exn :=
  ValueError ("Missing expected columns from training: " +:+
              repr_list missing +:+ ". Please check your dataset.").

(** The result dict once the predictions are there. *)
Definition report (K : sklearn) (m : model) (preds : list cell)
           (y_true : option DataFrame) (info : ColInfo) : exn + results :=
  match y_true with
  | Some y_true =>
      match tolist y_true with
      | inr actual =>
          inr (mkResults preds info (Some (compute_metrics K m y_true preds))
                 (Some actual))
      | inl e => inl e
      end
  | None => inr (mkResults preds info None None)
  end.

End Evaluation.

(* ===================================================================== *)
(** * Dataset resolution in the API routes                                *)
(* ===================================================================== *)

Module Routes.
Import Py.

(** The files that exist, by path: [os.path.exists]. *)
Definition exists_ (fs : gset string) (path : string) : bool :=
  bool_decide (path ∈ fs).

(** Where a route takes its data frame from. *)
Inductive source : Type :=
| StoredCsv (path : string)
| Upload.

(** [if x:] on an [Optional[str]]: [None] and the empty string are false. *)
Definition given (x : option string) : option string :=
  match x with
  | Some s => if truthy s then Some s else None
  | None => None
  end.

Fixpoint ends_with_slash (s : string) : bool :=
  match s with
  | EmptyString => false
  | String c EmptyString => Ascii.eqb c "/"%char
  | String _ r => ends_with_slash r
  end.

(** [os.path.join(a, b)] on POSIX. *)
Definition path_join (a b : string) : string :=
  if String.prefix "/" b then b
  else if negb (truthy a) || ends_with_slash a then a +:+ b
  else a +:+ "/" +:+ b.

(** feature_engineering_routes.py, lines 40-53 of
    [advanced_feature_engineering]: the data source of the request. *)
Definition advanced_feature_engineering (fs : gset string) (file : bool)
           (dataset_id : option string) (folder : string) : exn + source :=
  match given dataset_id with
  | Some dataset_id =>
      let csv_path := path_join folder (dataset_id +:+ ".csv") in
      if negb (exists_ fs csv_path) then
        let alt_folder :=
          if String.eqb folder "processed_data" then "original_data"
          else "processed_data" in
        let alt_path := path_join alt_folder (dataset_id +:+ ".csv") in
        if negb (exists_ fs alt_path) then
          inl (ValueError ("No file found for dataset_id=" +:+ dataset_id +:+
                           " in " +:+ folder +:+ " or " +:+ alt_folder +:+ "."))
        else inr (StoredCsv alt_path)
      else inr (StoredCsv csv_path)
  | None =>
      if file then inr Upload
      else inl (ValueError
             "No dataset provided. Please upload a file or provide a dataset_id.")
  end.

(** evaluation_routes.py, lines 38-48 of [evaluate]. *)
Definition evaluate (fs : gset string) (file : bool)
           (dataset_id : option string) : exn + source :=
  match given dataset_id with
  | Some dataset_id =>
      let data_path := "processed_data/" +:+ dataset_id +:+ ".csv" in
      if negb (exists_ fs data_path) then
        inl (HTTPException "400"
               ("No processed file for dataset_id='" +:+ dataset_id +:+ "'."))
      else inr (StoredCsv data_path)
  | None =>
      if negb file then
        inl (HTTPException "400" "No file uploaded and no dataset_id provided.")
      else inr Upload
  end.

(** model_training_routes.py, lines 40-67 of [train_models]. *)
Definition train_models (fs : gset string) (file : bool)
           (dataset_id feature_engineered_id : option string)
           (dataset_source : string) : exn + source :=
  if String.eqb dataset_source "original" then
    if file then inr Upload
    else
      match given dataset_id with
      | Some dataset_id =>
          let data_path := "original_data/" +:+ dataset_id +:+ ".csv" in
          if negb (exists_ fs data_path) then
            inl (HTTPException "400"
                   ("No original file found for dataset_id='" +:+ dataset_id +:+ "'."))
          else inr (StoredCsv data_path)
      | None =>
          inl (HTTPException "400"
                 "No file or dataset_id provided for original dataset.")
      end
  else if String.eqb dataset_source "preprocessed" then
    match given dataset_id with
    | None =>
        inl (HTTPException "400" "No dataset_id provided for preprocessed dataset.")
    | Some dataset_id =>
        let data_path := "processed_data/" +:+ dataset_id +:+ ".csv" in
        if negb (exists_ fs data_path) then
          inl (HTTPException "400"
                 ("No processed file found for dataset_id='" +:+ dataset_id +:+ "'."))
        else inr (StoredCsv data_path)
    end
  else if String.eqb dataset_source "feature_engineered" then
    match given feature_engineered_id with
    | None => inl (HTTPException "400" "No feature_engineered_id provided.")
    | Some feature_engineered_id =>
        let data_path :=
          "feature_engineered_data/" +:+ feature_engineered_id +:+ ".csv" in
        if negb (exists_ fs data_path) then
          inl (HTTPException "400"
                 ("No feature-engineered file for id='" +:+ feature_engineered_id +:+ "'."))
        else inr (StoredCsv data_path)
    end
  else
    inl (HTTPException "400" ("Unknown dataset_source='" +:+ dataset_source +:+ "'.")).

End Routes.

(* ===================================================================== *)
(** * Concrete worlds                                                     *)
(* ===================================================================== *)

Module Examples.
Import Py World Frame.

Definition empty_world : world := mkWorld ∅ [] [].

Definition boom : exn := Exn "RuntimeError" "boom".
Definition bam : exn := Exn "ConnectionError" "bam".
Definition out_of_memory : exn :=
  Exn "ResponseError" "model requires more system memory (8.4 GiB) than is available".

(** A toy digest, enough to tell keys apart. *)
Definition toy_digest (key : string) : string := key.

Definition installed : option string :=
  Some ("NAME          ID" +:+ nl +:+ "gpt-4:latest  0a1b" +:+ nl +:+
        "llama2:latest 2c3d" +:+ nl +:+ "mistral:latest 4e5f").

(** Every call fails: the first with [boom], the later ones with [bam]. *)
Definition backend_down : env :=
  mkEnv toy_digest installed
    (fun log _ _ => match log with [] => inl boom | _ => inl bam end)
    (fun _ => true).

Definition noisy_text : string := "[INST] Hello   world </s>".

(** The first call fails with [first]; the retry answers with a nested
    message-content response. *)
Definition backend_recovers (first : exn) : env :=
  mkEnv toy_digest installed
    (fun log _ _ =>
       match log with
       | [] => inl first
       | _ => inr (VDict [("message", VDict [("content", VStr noisy_text)])])
       end)
    (fun _ => true).

(** Every call answers with [response]. *)
Definition backend_says (response : pyval) : env :=
  mkEnv toy_digest installed (fun _ _ _ => inr response) (fun _ => true).

(** An artifact trained on the columns [a] and [b] that predicts 1 for
    every row of the frame it is given. *)
Definition model_ab : Evaluation.model :=
  Evaluation.mkModel (Some ["a"; "b"]) Evaluation.Regressor
    (fun df => inr (match df with
                    | [] => []
                    | (_, vals) :: _ => map (fun _ => CNum 1) vals
                    end)).

Definition toolkit : Evaluation.sklearn :=
  Evaluation.mkSklearn (fun _ => inr model_ab)
    (fun _ _ => inr (FNum 1)) (fun _ _ => inr (FNum 1))
    (fun _ _ => inr (FNum 0)) (fun _ _ => inr (FNum 1)).

Definition frame_abc : DataFrame :=
  [("b", [CNum 10; CNum 20]); ("c", [CNum 999; CNum 999]); ("a", [CNum 1; CNum 2])].

Definition frame_a : DataFrame := [("a", [CNum 1; CNum 2])].

Definition frame_aby : DataFrame :=
  [("a", [CNum 1; CNum 2]); ("b", [CNum 10; CNum 20]); ("y", [CNum 1; CNum 1])].

End Examples.

(* ===================================================================== *)
(** * Further shapes for the insight generator                            *)
(* ===================================================================== *)

Module InsightShapes.
Import Py World.

(** A cache file as [generate_ai_insights] writes it: the dict with one
    non-empty, trimmed text under ["insights"]. *)
Definition sound_entry (content : option pyval) : Prop :=
  exists s,
    content = Some (VDict [("insights", VStr s)]) /\
    truthy s = true /\ strip s = s.

(** Every white-space character is a plain space and is followed by a
    character that is not white space, or ends the text ([at_end]). *)
Fixpoint spaced (at_end : bool) (s : string) : bool :=
  match s with
  | EmptyString => true
  | String c r =>
      (negb (is_space c) ||
       (Ascii.eqb c " "%char &&
        match r with
        | String d _ => negb (is_space d)
        | EmptyString => at_end
        end)) && spaced at_end r
  end.

(** White space occurs only as single plain spaces between other
    characters: in particular none at the end and no two in a row. *)
Definition spaces_are_single (s : string) : bool := spaced false s.

End InsightShapes.

(* ===================================================================== *)
(** * Further shapes for the orchestrator                                 *)
(* ===================================================================== *)

Module OrchestratorShapes.
Import Py World Frame Orchestrator.

(** The two summaries the tuning branch hands to the insight generator. *)
Definition tuning_eda_summary (report domain_context : string) : string :=
  report +:+ nl +:+ nl +:+ "Additional Domain Context:" +:+ nl +:+ domain_context.

Definition tuning_model_summary : string :=
  "Model training results indicate low R2. Consider adjusting hyperparameters and exploring alternative algorithms.".

Definition no_insights : string := "No AI insights available due to an error.".

(** The decision that stops after EDA. *)
Definition needs_feature_engineering (report : string) (threshold : Q)
  : gmap string dvalue :=
  <["reason" := DReason (ReasonLowQuality 0.85%Q threshold)]>
    (<["next_action" := DStr "Perform advanced feature engineering."]>
       (<["eda_report" := DStr report]> ∅)).

(** A failed decision has [error] and [details] and no [next_action]; a
    successful one has [next_action], [reason] and [eda_report] and no
    [error]. *)
Definition failed_decision (d : gmap string dvalue) : Prop :=
  is_Some (d !! "error") /\ is_Some (d !! "details") /\ d !! "next_action" = None.

Definition successful_decision (d : gmap string dvalue) : Prop :=
  d !! "error" = None /\ is_Some (d !! "next_action") /\
  is_Some (d !! "reason") /\ is_Some (d !! "eda_report").

End OrchestratorShapes.

(* ===================================================================== *)
(** * Chunking and retrieval: build_index.py, orchestrator_agent.py       *)
(* ===================================================================== *)

From stdpp Require Import pretty.

Module Retrieval.
Import Py.

(** An index of a slice, brought into [0, len]: a negative index counts
    from the end. *)
Definition clip (len : nat) (i : Z) : nat :=
  if (i <? 0)%Z then Z.to_nat (Z.of_nat len + i)
  else Nat.min (Z.to_nat i) len.

(** [s[a:b]] for any two integers. *)
Definition slice (s : string) (a b : Z) : string :=
  let lo := clip (String.length s) a in
  let hi := clip (String.length s) b in
  take (hi - lo) (Py.drop lo s).

(** [l[i]] for an integer index; [None] stands for [IndexError]. *)
Definition py_index {A} (l : list A) (i : Z) : option A :=
  if (0 <=? i)%Z then l !! Z.to_nat i
  else if (- Z.of_nat (List.length l) <=? i)%Z
       then l !! Z.to_nat (Z.of_nat (List.length l) + i)
       else None.

Definition CHUNK_SIZE : Z := 500.
Definition OVERLAP : Z := 100.

(** orchestrator_agent.py, lines 36-39 (and rag_routes.py, lines 28-31). *)
Definition get_chunk_text (full_text : string) (chunk_idx chunk_size overlap : Z)
  : string :=
  let start := Z.max 0 (chunk_idx * chunk_size - chunk_idx * overlap) in
  let end_ := (start + chunk_size)%Z in
  slice full_text start end_.

(** build_index.py, lines 13-23: the [while] loop of [chunk_text] from
    [start] on, for at most [fuel] iterations; [None]: the loop is still
    running when the fuel is spent. *)
Fixpoint chunk_text_from (fuel : nat) (text : string) (chunk_size overlap : Z)
         (start : Z) : option (list string) :=
  if (start <? Z.of_nat (String.length text))%Z then
    match fuel with
    | O => None
    | S fuel =>
        let end_ := (start + chunk_size)%Z in
        let chunk := slice text start end_ in
        let start := (end_ - overlap)%Z in
        let start := if (start <? 0)%Z then 0%Z else start in
        match chunk_text_from fuel text chunk_size overlap start with
        | Some chunks => Some (strip chunk :: chunks)
        | None => None
        end
    end
  else Some [].

Definition chunk_text (fuel : nat) (text : string) (chunk_size overlap : Z)
  : option (list string) :=
  chunk_text_from fuel text chunk_size overlap 0.

(** build_index.py, lines 31-38, for one file: the chunks that are indexed
    for it, each with its metadata (file name and chunk index).  The
    content is stripped before it is chunked, with the default
    [chunk_size] and [overlap] of [chunk_text]; a file that is empty then
    is skipped. *)
Definition index_document (fuel : nat) (fname raw : string)
  : option (list (string * (string * Z))) :=
  let content := strip raw in
  if negb (truthy content) then Some []
  else
    match chunk_text fuel content 500 100 with
    | Some doc_chunks =>
        Some (imap (fun i chunk => (chunk, (fname, Z.of_nat i))) doc_chunks)
    | None => None
    end.

(** Nothing but white space. *)
Fixpoint blank (s : string) : bool :=
  match s with
  | EmptyString => true
  | String c r => is_space c && blank r
  end.

(** The number of chunks of a text of [len] characters: one every
    [chunk_size - overlap] characters. *)
Definition chunk_count (len : nat) (chunk_size overlap : Z) : nat :=
  Z.to_nat ((Z.of_nat len + (chunk_size - overlap) - 1) / (chunk_size - overlap)).

(** The module state of orchestrator_agent.py (lines 25-31) and what
    [retrieve_context] reads:
    - [loaded]: [None] when the index or the metadata file was missing at
      import; else the search (query and [top_k] to the hits
      [indices[0]], embedding included) and the metadata, one
      (filename, chunk_idx) per indexed chunk;
    - [documents]: for each path that exists, what opening and reading it
      gives: the text, or the error raised for a directory, an unreadable
      file or bytes that are not UTF-8. *)
Record store : Type := mkStore {
  loaded : option ((string -> Z -> exn + list Z) * list (string * Z));
  documents : gmap string (exn + string)
}.

Definition DOCS_FOLDER : string := "data_1/documents".

(** [os.path.join(DOCS_FOLDER, filename)] *)
Definition doc_path (filename : string) : string :=
  if String.prefix "/" filename then filename
  else DOCS_FOLDER +:+ "/" +:+ filename.

(** Lines 54-64: what one metadata entry adds to [combined_text]; the
    read of lines 58-60 is not guarded, so its error is raised. *)
Definition snippet_block (R : store) (meta : string * Z) : exn + string :=
  let filename := meta.1 in
  let chunk_idx := meta.2 in
  match documents R !! doc_path filename with
  | Some (inr doc_text) =>
      let snippet := get_chunk_text doc_text chunk_idx CHUNK_SIZE OVERLAP in
      inr ("Snippet from " +:+ filename +:+ " (chunk " +:+ pretty chunk_idx +:+ "):" +:+
           nl +:+ snippet +:+ nl +:+ nl)
  | Some (inl e) => inl e
  | None => inr ("[File not found: " +:+ filename +:+ "]" +:+ nl +:+ nl)
  end.

(** Lines 51-65: the loop over the hits. *)
Fixpoint collect (R : store) (metadata : list (string * Z)) (hits : list Z)
         (combined_text : string) : exn + string :=
  match hits with
  | [] => inr combined_text
  | idx :: hits =>
      if (idx <? Z.of_nat (List.length metadata))%Z then
        match py_index metadata idx with
        | Some meta =>
            match snippet_block R meta with
            | inr block => collect R metadata hits (combined_text +:+ block)
            | inl e => inl e
            end
        | None => inl (Exn "IndexError" "list index out of range")
        end
      else collect R metadata hits combined_text
  end.

(** orchestrator_agent.py, lines 41-65. *)
Definition retrieve_context (R : store) (query : string) (top_k : Z) : exn + string :=
  match loaded R with
  | None => inr "No retrieval index loaded."
  | Some (search, metadata) =>
      match search query top_k with
      | inl e => inl e
      | inr hits => collect R metadata hits EmptyString
      end
  end.

(** Every document that exists can be read. *)
Definition readable (R : store) : Prop :=
  forall path e, documents R !! path <> Some (inl e).

End Retrieval.

(* ===================================================================== *)
(** * backend/app/api/orchestrator_routes.py: [convert_nan]               *)
(* ===================================================================== *)

Module OrchestratorRoutes.
Import Py.

(** What [jsonable_encoder] hands over: dicts (the items in insertion
    order), lists and scalars. *)
Inductive json : Type :=
| JNone
| JBool (b : bool)
| JInt (n : Z)
| JFloat (x : pyfloat)
| JStr (s : string)
| JList (items : list json)
| JDict (items : list (string * json)).

(** Lines 13-21.  A [bool] or an [int] is not a [float]. *)
Fixpoint convert_nan (obj : json) : json :=
  match obj with
  | JDict items => JDict (map (fun kv : string * json => let (k, v) := kv in (k, convert_nan v)) items)
  | JList items => JList (map convert_nan items)
  | JFloat x => if isnan x then JNone else obj
  | _ => obj
  end.

(** A NaN anywhere inside a value. *)
Fixpoint has_nan (obj : json) : bool :=
  match obj with
  | JDict items => existsb (fun kv : string * json => let (_, v) := kv in has_nan v) items
  | JList items => existsb has_nan items
  | JFloat x => isnan x
  | _ => false
  end.

(** The keys of every dict and the length of every list, all the way
    down: the value with its scalars forgotten. *)
Fixpoint skeleton (obj : json) : json :=
  match obj with
  | JDict items => JDict (map (fun kv : string * json => let (k, v) := kv in (k, skeleton v)) items)
  | JList items => JList (map skeleton items)
  | _ => JNone
  end.

(** The scalars of a value, from left to right. *)
Fixpoint leaves (obj : json) : list json :=
  match obj with
  | JDict items => flat_map (fun kv : string * json => let (_, v) := kv in leaves v) items
  | JList items => flat_map leaves items
  | _ => [obj]
  end.

(** What becomes of one scalar: [None] for a NaN, itself otherwise. *)
Definition none_for_nan (scalar : json) : json :=
  match scalar with
  | JFloat FNaN => JNone
  | _ => scalar
  end.

End OrchestratorRoutes.

(* ===================================================================== *)
(** * backend/app/agents/model_training_agent.py                          *)
(* ===================================================================== *)

Module Training.
Import Py Frame.

(** ** Rows of a frame *)

(** [df.shape[0]] *)
Definition nrows (df : DataFrame) : nat :=
  match df with
  | [] => 0
  | col :: _ => List.length col.2
  end.

(** [df.empty] *)
Definition empty (df : DataFrame) : bool :=
  match nrows df with
  | O => true
  | _ => false
  end.

(** [df.iloc[rows]]: the rows at the given positions, in that order. *)
Definition take_rows (rows : list nat) (df : DataFrame) : DataFrame :=
  map (fun col => (col.1, omap (fun i => col.2 !! i) rows)) df.

(** ** The tables of models, metrics and grids *)

(** [task_type.lower() == "regression"] *)
Definition is_regression (task_type : string) : bool :=
  String.eqb (lower task_type) "regression".

(** [task_type.lower() == "classification"] *)
Definition is_classification (task_type : string) : bool :=
  String.eqb (lower task_type) "classification".

(** [get_models(task_type)]: the names of the dict, in its order.  The
    estimators behind the names are the library's. *)
Definition get_models (xgboost_available : bool) (task_type : string) : list string :=
  if is_regression task_type then
    (["LinearRegression"; "RandomForestRegressor"; "GradientBoostingRegressor"; "SVR"]
       ++ (if xgboost_available then ["XGBRegressor"] else []))%list
  else
    (["LogisticRegression"; "RandomForestClassifier"; "GradientBoostingClassifier"; "SVC"]
       ++ (if xgboost_available then ["XGBClassifier"] else []))%list.

(** [get_metrics(task_type)]: the names of the dict, in its order. *)
Definition get_metrics (task_type : string) : list string :=
  if is_regression task_type then ["RMSE"; "R2"; "MAE"]
  else ["Accuracy"; "F1"; "Precision"; "Recall"].

(** [get_default_param_grid(model_name, task_type)]: the parameters the
    grid ranges over; the empty dict for a model without a grid. *)
Definition get_default_param_grid (model_name task_type : string) : list string :=
  if is_regression task_type then
    if String.eqb model_name "RandomForestRegressor" then ["n_estimators"; "max_depth"]
    else if String.eqb model_name "GradientBoostingRegressor" then ["n_estimators"; "learning_rate"]
    else if String.eqb model_name "SVR" then ["C"; "kernel"]
    else if String.eqb model_name "XGBRegressor" then ["n_estimators"; "learning_rate"]
    else []
  else
    if String.eqb model_name "RandomForestClassifier" then ["n_estimators"; "max_depth"]
    else if String.eqb model_name "GradientBoostingClassifier" then ["n_estimators"; "learning_rate"]
    else if String.eqb model_name "SVC" then ["C"; "kernel"]
    else if String.eqb model_name "XGBClassifier" then ["n_estimators"; "learning_rate"]
    else [].

(** The keys of a dict comprehension over [l]: each item once, at the
    place of its first occurrence. *)
Fixpoint dict_keys (seen l : list string) : list string :=
  match l with
  | [] => []
  | k :: l =>
      if bool_decide (k ∈ seen) then dict_keys seen l
      else k :: dict_keys (k :: seen) l
  end.

(** The keys of [{m: d[m] for m in selected if m in d}]. *)
Definition known_selection (d selected : list string) : list string :=
  dict_keys [] (filter (fun m => m ∈ d) selected).

(** ** The libraries *)

Inductive search : Type :=
| RandomizedSearchCV (n_iter cv : Z) (scoring : string)
| GridSearchCV (cv : Z) (scoring : string).

(** What the call takes from the operating system, pandas, sklearn and
    joblib:
    - [apply_minimal_encoding_scaling] (lines 82-107) runs sklearn's
      encoders and scalers over the columns and is taken as a whole;
    - [sample n k] are the row positions [df.sample(n=k, random_state=42)]
      draws from [n] rows, [train_test_split n] the positions of the
      training and of the test rows ([test_size=0.2, random_state=42]);
    - [search_fit name s X y] is [search.fit] for the estimator of that
      name, [fit name tuned X y] is [model_obj.fit] ([tuned] when
      [model_obj] is the search's [best_estimator_]) and returns the
      [predict] of the fitted estimator;
    - [training_time] is the rounded fit time, [metric m y_test y_pred]
      and [cross_val_score name scoring cv X y] the rounded scores, which
      are floats and can be NaN;
    - [time_now name] is [int(time.time())] when the model [name] is
      saved, [joblib_dump path] whether the dump to [path] succeeds. *)
Record library : Type := mkLibrary {
  xgboost_available : bool;
  makedirs : string -> exn + unit;
  apply_minimal_encoding_scaling :
    DataFrame -> bool -> string -> bool -> string -> list string -> exn + DataFrame;
  sample : nat -> Z -> exn + list nat;
  dtype_is_object : list cell -> bool;
  label_encode : list cell -> exn + list cell;
  train_test_split : nat -> exn + list nat * list nat;
  search_fit : string -> search -> DataFrame -> DataFrame -> exn + unit;
  fit : string -> bool -> DataFrame -> DataFrame -> exn + (DataFrame -> exn + list cell);
  training_time : string -> Q;
  metric : string -> DataFrame -> list cell -> exn + pyfloat;
  cross_val_score : string -> string -> Z -> DataFrame -> DataFrame -> exn + pyfloat;
  time_now : string -> Z;
  joblib_dump : string -> exn + unit
}.

(** The arguments of [train_and_evaluate_models]. *)
Record args : Type := mkArgs {
  df : DataFrame;
  target_col : string;
  task_type : string;
  selected_models : list string;
  selected_metrics : list string;
  selected_features : option (list string);
  enable_cross_validation : bool;
  cv_folds : Z;
  sample_data : bool;
  sample_size : Z;
  hyperparameter_tuning : bool;
  hyperparameter_search_method : string;
  random_search_iter : Z;
  model_folder : string;
  session_id : option string;
  apply_encoding : bool;
  encoding_method : string;
  apply_scaling : bool;
  scaling_method : string;
  dataset_id : option string
}.

(** The dict the call returns; [trained_models] in insertion order. *)
Record output : Type := mkOutput {
  results : list Orchestrator.row;
  trained_models : list (string * string)
}.

(** The model files on disk (what [joblib.dump] writes and [joblib.load]
    reads), by path.  Other files are not part of it. *)
Abbreviation disk := (gmap string Evaluation.model).

(** What lines 134-161 leave for the loop. *)
Record prepared : Type := mkPrepared {
  folder : string;
  X : DataFrame;
  y : DataFrame;
  X_train : DataFrame;
  X_test : DataFrame;
  y_train : DataFrame;
  y_test : DataFrame;
  models_to_train : list string;
  metrics_to_evaluate : list string
}.

(** Lines 134-136. *)
Definition target_folder (a : args) : string :=
  match Routes.given (session_id a) with
  | Some session_id => Routes.path_join "models" session_id
  | None => model_folder a
  end.

(** Lines 144-148. *)
Definition select_features (a : args) (df : DataFrame) : exn + DataFrame :=
  match selected_features a with
  | Some ((_ :: _) as selected_features) =>
      let missing_feats := filter (fun f => f ∉ labels df) selected_features in
      if Evaluation.nonempty missing_feats then
        inl (ValueError ("Missing selected features: " +:+ repr_list missing_feats))
      else inr (select (selected_features ++ [target_col a])%list df)
  | _ => inr df
  end.

(** Lines 149-151. *)
Definition sample_rows (K : library) (a : args) (df : DataFrame) : exn + DataFrame :=
  if sample_data a && (sample_size a <? Z.of_nat (nrows df))%Z then
    match sample K (nrows df) (sample_size a) with
    | inr rows => inr (take_rows rows df)
    | inl e => inl e
    end
  else inr df.

(** Lines 152-153; [drop] raises on a label that is not there. *)
Definition split_target (a : args) (df : DataFrame) : exn + DataFrame * DataFrame :=
  if bool_decide (target_col a ∈ labels df) then
    inr (drop_columns [target_col a] df, columns_named (target_col a) df)
  else
    inl (Exn "KeyError"
           (repr_str (repr_list [target_col a] +:+ " not found in axis"))).

(** Lines 154-156; a frame, which [df[target_col]] is when the label
    repeats, has no [dtype]. *)
Definition encode_target (K : library) (a : args) (y : DataFrame) : exn + DataFrame :=
  if is_classification (task_type a) then
    match y with
    | [col] =>
        if dtype_is_object K col.2 then
          match label_encode K col.2 with
          | inr codes => inr [(col.1, codes)]
          | inl e => inl e
          end
        else inr y
    | _ => inl (AttributeError "'DataFrame' object has no attribute 'dtype'")
    end
  else inr y.

(** Lines 134-161: everything before the loop. *)
Definition prepare (K : library) (a : args) : exn + prepared :=
  let model_folder := target_folder a in
  match makedirs K model_folder with
  | inl e => inl e
  | inr _ =>
  if empty (df a) then inl (ValueError "Dataset is empty. Cannot train models.")
  else if negb (bool_decide (target_col a ∈ labels (df a))) then
    inl (ValueError ("Target column '" +:+ target_col a +:+ "' not found."))
  else
    match
      (if apply_encoding a || apply_scaling a then
         apply_minimal_encoding_scaling K (df a) (apply_encoding a) (encoding_method a)
           (apply_scaling a) (scaling_method a) [target_col a]
       else inr (df a))
    with
    | inl e => inl e
    | inr df =>
    match select_features a df with
    | inl e => inl e
    | inr df =>
    match sample_rows K a df with
    | inl e => inl e
    | inr df =>
    match split_target a df with
    | inl e => inl e
    | inr (X, y) =>
    match encode_target K a y with
    | inl e => inl e
    | inr y =>
    match train_test_split K (nrows df) with
    | inl e => inl e
    | inr (train, test) =>
        inr (mkPrepared model_folder X y
               (take_rows train X) (take_rows test X)
               (take_rows train y) (take_rows test y)
               (known_selection (get_models (xgboost_available K) (task_type a))
                  (selected_models a))
               (known_selection (get_metrics (task_type a)) (selected_metrics a)))
    end end end end end end
  end.

(** Lines 185-187: the metrics, in order, into the row. *)
Fixpoint evaluate_metrics (K : library) (metrics : list string)
         (y_test : DataFrame) (y_pred : list cell) (row : gmap string pyfloat)
  : exn + gmap string pyfloat :=
  match metrics with
  | [] => inr row
  | metric_name :: metrics =>
      match metric K metric_name y_test y_pred with
      | inr val => evaluate_metrics K metrics y_test y_pred (<[metric_name := val]> row)
      | inl e => inl e
      end
  end.

(** Lines 188-197: a failing cross validation is logged and leaves the row
    as it is. *)
Definition cross_validate (K : library) (a : args) (p : prepared)
           (model_name : string) (row : gmap string pyfloat)
  : gmap string pyfloat :=
  if enable_cross_validation a then
    if is_classification (task_type a) && bool_decide ("F1" ∈ selected_metrics a) then
      match cross_val_score K model_name "f1_weighted" (cv_folds a) (X p) (y p) with
      | inr score => <["CV_F1_Avg" := score]> row
      | inl _ => row
      end
    else if is_regression (task_type a) && bool_decide ("R2" ∈ selected_metrics a) then
      match cross_val_score K model_name "r2" (cv_folds a) (X p) (y p) with
      | inr score => <["CV_R2_Avg" := score]> row
      | inl _ => row
      end
    else row
  else row.

(** What [is_regressor] and [is_classifier] say of the estimators of the
    two dicts. *)
Definition kind_of (task_type : string) : Evaluation.estimator_kind :=
  if is_regression task_type then Evaluation.Regressor else Evaluation.Classifier.

(** [f"{model_name}_{timestamp}.pkl"] *)
Definition model_filename (model_name : string) (timestamp : Z) : string :=
  model_name +:+ "_" +:+ pretty timestamp +:+ ".pkl".

(** Lines 168-205: the body of the [try] for one model.  Returns the file
    name and the row. *)
Definition train_one (K : library) (a : args) (p : prepared) (model_name : string)
  : M disk (string * Orchestrator.row) :=
  let param_grid := get_default_param_grid model_name (task_type a) in
  tuned <--
    (if hyperparameter_tuning a && Evaluation.nonempty param_grid then
       let scoring_method :=
         if is_classification (task_type a) then "accuracy"
         else "neg_mean_squared_error" in
       let search :=
         if String.eqb (hyperparameter_search_method a) "random"
         then RandomizedSearchCV (random_search_iter a) (cv_folds a) scoring_method
         else GridSearchCV (cv_folds a) scoring_method in
       lift (search_fit K model_name search (X_train p) (y_train p)) ;;;
       ret true
     else ret false) ;;
  predict <-- lift (fit K model_name tuned (X_train p) (y_train p)) ;;
  let model_obj :=
    Evaluation.mkModel (Some (labels (X_train p))) (kind_of (task_type a)) predict in
  y_pred <-- lift (predict (X_test p)) ;;
  let row : gmap string pyfloat :=
    {[ "Training_Time_sec" := FNum (training_time K model_name) ]} in
  row <-- lift (evaluate_metrics K (metrics_to_evaluate p) (y_test p) y_pred row) ;;
  let row := cross_validate K a p model_name row in
  let timestamp := time_now K model_name in
  let model_path := Routes.path_join (folder p) (model_filename model_name timestamp) in
  lift (joblib_dump K model_path) ;;;
  modify (fun files : disk => <[model_path := model_obj]> files) ;;;
  ret (model_filename model_name timestamp, Orchestrator.mkRow model_name row).

(** [try: x = m  except Exception as e: ...], the outcome as a value. *)
Definition attempt {A} (m : M disk A) : M disk (exn + A) :=
  try_except (x <-- m ;; ret (inr x)) (fun e => ret (inl e)).

(** Lines 166-208: the loop; a model whose [try] raises is skipped. *)
Fixpoint train_all (K : library) (a : args) (p : prepared) (names : list string)
         (out : output) : M disk output :=
  match names with
  | [] => ret out
  | model_name :: names =>
      r <-- attempt (train_one K a p model_name) ;;
      match r with
      | inr (file_name, row) =>
          train_all K a p names
            (mkOutput (results out ++ [row])
                      (trained_models out ++ [(model_name, file_name)]))%list
      | inl _ => train_all K a p names out
      end
  end.

(** Lines 113-222, as far as the models go.  The training report that
    lines 209-221 write is a csv file, not a model file: it is not on the
    disk of model files, and its failure is only logged. *)
Definition train_and_evaluate_models (K : library) (a : args) : M disk output :=
  p <-- lift (prepare K a) ;;
  train_all K a p (models_to_train p) (mkOutput [] []).

(** ** The callers *)

(** orchestrator_agent.py, lines 98-110: the arguments the orchestrator
    fixes. *)
Definition orchestrator_args (data : DataFrame) (target_col : string) : args :=
  mkArgs data target_col "regression"
    ["LinearRegression"; "RandomForestRegressor"] ["RMSE"; "R2"]
    None false 3 false 100000 false "grid" 10 "models" None
    false "one-hot" false "standard" None.

(** The training stage of the orchestrator with this agent behind it, on a
    disk holding [files]; the orchestrator reads ["results"] only. *)
Definition training_stage (K : library) (files : disk) (data : DataFrame)
           (target_col : string) : exn + list Orchestrator.row :=
  match fst (train_and_evaluate_models K (orchestrator_args data target_col) files) with
  | inr out => inr (results out)
  | inl e => inl e
  end.

(** [joblib.load] from the disk. *)
Definition load_from (files : disk) (path : string) : exn + Evaluation.model :=
  match files !! path with
  | Some m => inr m
  | None =>
      inl (Exn "FileNotFoundError"
             ("[Errno 2] No such file or directory: " +:+ repr_str path))
  end.

(** ** Shapes of the outcome, for the statements below *)

(** The path the model of that name is saved at. *)
Definition saved_path (K : library) (folder model_name : string) : string :=
  Routes.path_join folder (model_filename model_name (time_now K model_name)).

(** What [trained_models] holds for the model of a result row. *)
Definition saved_as (K : library) (row : Orchestrator.row) : string * string :=
  (Orchestrator.row_model row,
   model_filename (Orchestrator.row_model row) (time_now K (Orchestrator.row_model row))).

(** An artifact as the loop dumps it: an estimator of the task's kind that
    carries the training columns. *)
Definition dumped (a : args) (p : prepared) (m : Evaluation.model) : Prop :=
  Evaluation.training_columns m = Some (labels (X_train p)) /\
  Evaluation.kind m = kind_of (task_type a).

(** The keys of a result row besides ["Model"]: the training time, every
    metric to evaluate, and at most the cross-validation averages. *)
Definition row_keys (a : args) (p : prepared) (row : Orchestrator.row) : Prop :=
  forall key,
    (key = "Training_Time_sec" \/ key ∈ metrics_to_evaluate p ->
     is_Some (Orchestrator.row_fields row !! key)) /\
    (is_Some (Orchestrator.row_fields row !! key) ->
     key = "Training_Time_sec" \/ key ∈ metrics_to_evaluate p \/
     (enable_cross_validation a = true /\ (key = "CV_F1_Avg" \/ key = "CV_R2_Avg"))).

End Training.

(* ===================================================================== *)
(** * The evaluation and training routes, from request to response        *)
(* ===================================================================== *)

Module Handlers.
Import Py Frame Routes.

(** What a handler reads besides its request:
    - [paths]: the paths that exist, for [os.path.exists];
    - [read_csv]: [pd.read_csv] of a stored file;
    - [str]: [str(e)], which for an [HTTPException] is what the installed
      Starlette makes of it. *)
Record system : Type := mkSystem {
  paths : gset string;
  read_csv : string -> exn + DataFrame;
  str : exn -> string
}.

(** An uploaded file, as what [load_dataset(file.file)] makes of it. *)
Abbreviation upload := (exn + DataFrame)%type.

Definition uploaded (file : option upload) : bool :=
  match file with Some _ => true | None => false end.

(** feature_engineering_routes.py, lines 40-54: the data frame of the
    request. *)
Definition feature_engineering_data (Y : system) (file : option upload)
           (dataset_id : option string) (folder : string) : exn + DataFrame :=
  match
    match Routes.advanced_feature_engineering (paths Y) (uploaded file)
            dataset_id folder, file with
    | inl e, _ => inl e
    | inr (StoredCsv csv_path), _ => read_csv Y csv_path
    | inr Upload, Some loaded => loaded
    | inr Upload, None =>
        inl (ValueError
               "No dataset provided. Please upload a file or provide a dataset_id.")
    end
  with
  | inl e => inl e
  | inr df =>
      if Training.empty df then inl (ValueError "Dataset is empty or failed to load.")
      else inr df
  end.

(** feature_engineering_routes.py, lines 17-101.  [engineer] is what
    lines 56-98 make of the frame: the parsing of the plans,
    [run_advanced_feature_engineering], the optional save and the
    preview. *)
Definition advanced_feature_engineering {A} (Y : system)
           (engineer : DataFrame -> exn + A) (file : option upload)
           (dataset_id : option string) (folder : string) : exn + A :=
  match
    match feature_engineering_data Y file dataset_id folder with
    | inl e => inl e
    | inr df => engineer df
    end
  with
  | inl e => inl (HTTPException "500" ("Feature engineering failed: " +:+ str Y e))
  | inr response => inr response
  end.

(** evaluation_routes.py, lines 19 and 51. *)
Definition model_dir (session_id : option string) : string :=
  match given session_id with
  | Some session_id => path_join "models" session_id
  | None => "models"
  end.

(** evaluation_routes.py, line 52. *)
Definition model_path (session_id : option string) (model_file : string) : string :=
  path_join (model_dir session_id) model_file.

(** evaluation_routes.py, lines 38-50: the data frame of the request. *)
Definition evaluation_data (Y : system) (file : option upload)
           (dataset_id : option string) : exn + DataFrame :=
  match Routes.evaluate (paths Y) (uploaded file) dataset_id, file with
  | inl e, _ => inl e
  | inr (StoredCsv data_path), _ =>
      match read_csv Y data_path with
      | inl e => inl e
      | inr df =>
          if Training.empty df then
            inl (ValueError ("File at " +:+ data_path +:+ " is empty or invalid."))
          else inr df
      end
  | inr Upload, Some loaded =>
      match loaded with
      | inl e => inl e
      | inr df =>
          if Training.empty df then
            inl (ValueError "Uploaded file is empty or failed to load.")
          else inr df
      end
  | inr Upload, None =>
      inl (HTTPException "400" "No file uploaded and no dataset_id provided.")
  end.

(** evaluation_routes.py, lines 25-60; the response carries the results
    as they are.  The frame enters the object store when it is handed to
    [evaluate_model]. *)
Definition evaluate (Y : system) (KE : Evaluation.sklearn)
           (file : option upload) (dataset_id : option string)
           (model_file : string) (has_target : bool) (target_col : string)
           (session_id : option string)
  : M Evaluation.heap Evaluation.results :=
  try_except
    (df <-- lift (evaluation_data Y file dataset_id) ;;
     let model_dir := model_dir session_id in
     let model_path := path_join model_dir model_file in
     if negb (exists_ (paths Y) model_path) then
       raise (ValueError ("Model file " +:+ model_file +:+ " not found in '" +:+
                          model_dir +:+ "' directory."))
     else
       let target :=
         if has_target && truthy (strip target_col) then Some target_col else None in
       new_df <-- Evaluation.alloc df ;;
       Evaluation.evaluate_model KE new_df model_path target)
    (fun e => raise (HTTPException "500" ("Evaluation failed: " +:+ str Y e))).

(** The query of model_training_routes.py, lines 15-36. *)
Record train_request : Type := mkTrainRequest {
  file : option upload;
  dataset_id : option string;
  feature_engineered_id : option string;
  dataset_source : string;
  target_col : string;
  task_type : string;
  selected_models : option (list string);
  selected_metrics : option (list string);
  selected_features : option (list string);
  enable_cross_validation : bool;
  cv_folds : Z;
  sample_data : bool;
  sample_size : Z;
  hyperparameter_tuning : bool;
  hyperparameter_search_method : string;
  random_search_iter : Z;
  apply_encoding : bool;
  encoding_method : string;
  apply_scaling : bool;
  scaling_method : string
}.

(** Lines 74-93: the arguments the route passes on; [model_folder] and
    [session_id] are left at their defaults. *)
Definition training_args (r : train_request) (df : DataFrame)
           (selected_models selected_metrics : list string) : Training.args :=
  let original := String.eqb (dataset_source r) "original" in
  Training.mkArgs df (target_col r) (task_type r) selected_models selected_metrics
    (selected_features r) (enable_cross_validation r) (cv_folds r)
    (sample_data r) (sample_size r) (hyperparameter_tuning r)
    (hyperparameter_search_method r) (random_search_iter r)
    "models" None
    (if original then apply_encoding r else false) (encoding_method r)
    (if original then apply_scaling r else false) (scaling_method r)
    (dataset_id r).

(** model_training_routes.py, lines 39-67: the data frame of the
    request. *)
Definition training_data (Y : system) (r : train_request) : exn + DataFrame :=
  match Routes.train_models (paths Y) (uploaded (file r)) (dataset_id r)
          (feature_engineered_id r) (dataset_source r), file r with
  | inl e, _ => inl e
  | inr (StoredCsv data_path), _ => read_csv Y data_path
  | inr Upload, Some loaded => loaded
  | inr Upload, None =>
      inl (HTTPException "400" "No file or dataset_id provided for original dataset.")
  end.

(** model_training_routes.py, lines 68-98: the guards and the call; the
    response carries [results] and [trained_models] as they are. *)
Definition checked_training (K : Training.library) (r : train_request)
           (df : DataFrame) : M Training.disk Training.output :=
  if Training.empty df then raise (ValueError "Dataset is empty or None.")
  else
    match selected_models r with
    | Some ((_ :: _) as selected_models) =>
        match selected_metrics r with
        | Some ((_ :: _) as selected_metrics) =>
            Training.train_and_evaluate_models K
              (training_args r df selected_models selected_metrics)
        | _ => raise (HTTPException "400" "No metrics selected.")
        end
    | _ => raise (HTTPException "400" "No models selected.")
    end.

(** model_training_routes.py, lines 14-101. *)
Definition train_models (Y : system) (K : Training.library) (r : train_request)
  : M Training.disk Training.output :=
  try_except
    (df <-- lift (training_data Y r) ;; checked_training K r df)
    (fun e => raise (HTTPException "500" ("Model training failed: " +:+ str Y e))).

(** A path separator somewhere in a string. *)
Fixpoint has_slash (s : string) : bool :=
  match s with
  | EmptyString => false
  | String c r => Ascii.eqb c "/" || has_slash r
  end.

End Handlers.

(* ===================================================================== *)
(** * Further concrete worlds                                             *)
(* ===================================================================== *)

Module MoreExamples.
Import Py World Frame Examples.

(** Only mistral is installed; the backend answers every call. *)
Definition only_mistral : env :=
  mkEnv toy_digest
    (Some ("NAME            ID" +:+ nl +:+ "mistral:latest  4e5f"))
    (fun _ _ _ => inr (VStr "insights"))
    (fun _ => true).

(** A training library on which every step succeeds, except that the
    random forest cannot be fitted: the first rows train, the last row
    tests, every estimator predicts 1 and every score is fixed. *)
Definition toy_library : Training.library :=
  Training.mkLibrary false
    (fun _ => inr tt)
    (fun df _ _ _ _ _ => inr df)
    (fun _ k => inr (seq 0 (Z.to_nat k)))
    (fun _ => false)
    (fun codes => inr codes)
    (fun n => inr (seq 0 (n - 1), [n - 1]))
    (fun _ _ _ _ => inr tt)
    (fun name _ _ _ =>
       if String.eqb name "RandomForestRegressor"
       then inl (Exn "MemoryError" "could not allocate")
       else inr (fun df => inr (map (fun _ => CNum 1) (seq 0 (Training.nrows df)))))
    (fun _ => 0.012%Q)
    (fun name _ _ => inr (FNum (if String.eqb name "R2" then 0.9%Q else 0.1%Q)))
    (fun _ _ _ _ _ => inr (FNum 0.8))
    (fun _ => 1700000000%Z)
    (fun _ => inr tt).

Definition frame_ab : DataFrame :=
  [("a", [CNum 1; CNum 2]); ("b", [CNum 10; CNum 20])].

(** Training on [frame_aby] with target [y], as the orchestrator calls it. *)
Definition toy_args : Training.args := Training.orchestrator_args frame_aby "y".

(** [str(e)] with an [HTTPException] printed as "<status>: <detail>". *)
Definition status_and_detail (e : exn) : string :=
  if String.prefix "HTTPException " (exn_type e)
  then Py.drop 14 (exn_type e) +:+ ": " +:+ exn_msg e
  else exn_msg e.

(** One stored dataset, preprocessed, holding [frame_aby]. *)
Definition toy_system : Handlers.system :=
  Handlers.mkSystem {[ "processed_data/d1.csv" ]} (fun _ => inr frame_aby)
    status_and_detail.


(** A request to train a linear regression on it, scored by R2. *)
Definition toy_request : Handlers.train_request :=
  Handlers.mkTrainRequest None (Some "d1") None "preprocessed" "y" "regression"
    (Some ["LinearRegression"]) (Some ["R2"]) None
    false 3 false 100000 false "grid" 10 false "one-hot" false "standard".

End MoreExamples.

(* ===================================================================== *)
(** * Properties of the string primitives                                 *)
(* ===================================================================== *)

Module PyFacts.
Import Py.

Lemma lstrip_starts_clean s : starts_clean (lstrip s).
Proof.
  induction s as [|c s IH]; simpl; [done|].
  destruct (is_space c) eqn:Hc; [exact IH | exact Hc].
Qed.

Lemma lstrip_id s : starts_clean s -> lstrip s = s.
Proof. destruct s as [|c s]; simpl; [done|]. by intros ->. Qed.

Lemma rstrip_starts_clean s : starts_clean s -> starts_clean (rstrip s).
Proof.
  destruct s as [|c s]; simpl; [done|]. intros Hc.
  destruct (rstrip s); [by rewrite Hc | done].
Qed.

Lemma rstrip_idempotent s : rstrip (rstrip s) = rstrip s.
Proof.
  induction s as [|c s IH]; simpl; [done|].
  destruct (rstrip s) as [|c' s'] eqn:Hr.
  - destruct (is_space c) eqn:Hc; simpl; [done|]. by rewrite Hc.
  - change (rstrip (String c (String c' s'))) with
      (match rstrip (String c' s') with
       | EmptyString => if is_space c then EmptyString else String c EmptyString
       | r' => String c r'
       end).
    by rewrite IH.
Qed.

(** [strip] is idempotent: text that went through it is already trimmed. *)
Lemma strip_idempotent s : strip (strip s) = strip s.
Proof.
  unfold strip.
  rewrite (lstrip_id (rstrip (lstrip s)))
    by apply rstrip_starts_clean, lstrip_starts_clean.
  apply rstrip_idempotent.
Qed.

(** ** Substrings *)

Lemma prefix_nil s : String.prefix EmptyString s = true.
Proof. by destruct s. Qed.

Lemma prefix_app_r s t u :
  String.prefix s t = true -> String.prefix s (t +:+ u) = true.
Proof.
  revert t. induction s as [|a s IH]; intros t; [intros _; apply prefix_nil|].
  destruct t as [|b t]; simpl; [done|].
  destruct (ascii_dec a b); [apply IH | done].
Qed.

Lemma prefix_refl s : String.prefix s s = true.
Proof.
  induction s as [|a s IH]; simpl; [done|]. by destruct (ascii_dec a a).
Qed.

Lemma contains_unfold sub s :
  contains sub s =
    String.prefix sub s ||
    match s with EmptyString => false | String _ r => contains sub r end.
Proof. by destruct s. Qed.

Lemma contains_prefix sub s : String.prefix sub s = true -> contains sub s = true.
Proof. intros H. rewrite contains_unfold, H. reflexivity. Qed.

Lemma contains_app_r sub t u : contains sub u = true -> contains sub (t +:+ u) = true.
Proof.
  intros H. induction t as [|c t IH]; [exact H|].
  change (String c t +:+ u) with (String c (t +:+ u)).
  rewrite contains_unfold, IH. apply orb_true_r.
Qed.

Lemma contains_app_l sub t u : contains sub t = true -> contains sub (t +:+ u) = true.
Proof.
  induction t as [|c t IH]; rewrite contains_unfold.
  - rewrite orb_false_r. destruct sub; [|done]. intros _.
    apply contains_prefix, prefix_nil.
  - intros [Hp|Hc]%orb_true_iff;
      change (String c t +:+ u) with (String c (t +:+ u)) in *;
      rewrite contains_unfold.
    + apply (prefix_app_r _ _ u) in Hp.
      change (String c t +:+ u) with (String c (t +:+ u)) in Hp. by rewrite Hp.
    + rewrite (IH Hc). apply orb_true_r.
Qed.

Lemma contains_join (f : string -> string) sep c (l : list string) :
  c ∈ l -> contains (f c) (join sep (map f l)) = true.
Proof.
  induction l as [|x l IH]; [by intros ?%elem_of_nil|].
  intros Hc. destruct l as [|y l].
  - apply list_elem_of_singleton in Hc as ->. apply contains_prefix, prefix_refl.
  - change (join sep (map f (x :: y :: l)))
      with (f x +:+ sep +:+ join sep (map f (y :: l))).
    apply elem_of_cons in Hc as [->|Hc].
    + apply contains_app_l, contains_prefix, prefix_refl.
    + by apply contains_app_r, contains_app_r, IH.
Qed.

Lemma length_append s t :
  String.length (s +:+ t) = String.length s + String.length t.
Proof.
  induction s as [|c s IH]; [done|].
  change (String c s +:+ t) with (String c (s +:+ t)). simpl. by rewrite IH.
Qed.

(** Appending the same text leaves different texts different. *)
Lemma append_inv_tail s1 s2 t : s1 +:+ t = s2 +:+ t -> s1 = s2.
Proof.
  revert s2. induction s1 as [|a s1 IH]; intros [|b s2] H; [done| | |].
  - apply (f_equal String.length) in H.
    change (String b s2 +:+ t) with (String b (s2 +:+ t)) in H.
    change (EmptyString +:+ t) with t in H. simpl in H.
    rewrite length_append in H. lia.
  - apply (f_equal String.length) in H.
    change (String a s1 +:+ t) with (String a (s1 +:+ t)) in H.
    change (EmptyString +:+ t) with t in H. simpl in H.
    rewrite length_append in H. lia.
  - change (String a s1 +:+ t) with (String a (s1 +:+ t)) in H.
    change (String b s2 +:+ t) with (String b (s2 +:+ t)) in H.
    injection H as -> H. f_equal. by apply IH.
Qed.

End PyFacts.

(* ===================================================================== *)
(** * Properties of the insight generator                                 *)
(* ===================================================================== *)

Module AiInsightsFacts.
Import Py PyFacts World AiInsights.

Lemma gpt4_listed : bool_decide ("gpt-4" ∈ AVAILABLE_MODELS) = true.
Proof. apply bool_decide_eq_true. unfold AVAILABLE_MODELS. set_solver. Qed.

Lemma consult_cache_returns cf force clear w :
  exists o, fst (consult_cache cf force clear w) = inr o.
Proof. unfold consult_cache, bind, modify, gets. simpl. eauto. Qed.

Lemma consult_cache_forced cf clear w :
  fst (consult_cache cf true clear w) = inr None.
Proof. reflexivity. Qed.

Lemma consult_cache_chat_log cf force clear w :
  chat_log (snd (consult_cache cf force clear w)) = chat_log w.
Proof.
  unfold consult_cache, bind, modify, gets. simpl.
  destruct ((force || clear) && _); reflexivity.
Qed.

Lemma consult_cache_stage_log cf force clear w :
  stage_log (snd (consult_cache cf force clear w)) = stage_log w.
Proof.
  unfold consult_cache, bind, modify, gets. simpl.
  destruct ((force || clear) && _); reflexivity.
Qed.

Lemma consult_cache_frame cf force clear w k :
  k ≠ cf ->
  cache_files (snd (consult_cache cf force clear w)) !! k = cache_files w !! k.
Proof.
  intros Hk. unfold consult_cache, bind, modify, gets. simpl.
  destruct ((force || clear) && _); simpl; [|reflexivity].
  by rewrite lookup_delete_ne.
Qed.

(** The fallback of [call_backend], once the first call has raised and
    either the error reports insufficient memory or the model is gpt-4:
    one more call, to mistral, whose outcome is the outcome. *)
Lemma call_backend_fallback E model_choice p w e1 :
  ollama_chat E (chat_log w) model_choice p = inl e1 ->
  contains "requires more system memory" (str_of_exn e1) = true
    \/ model_choice = "gpt-4" ->
  call_backend E model_choice p w =
    (match ollama_chat E (chat_log w ++ [(model_choice, p)]) "mistral" p with
     | inr r => inr (r, "mistral")
     | inl e2 => inl e2
     end,
     log_chat "mistral" p (log_chat model_choice p w)).
Proof.
  intros H1 Hwhy.
  unfold call_backend, try_except, bind, chat, ret, raise. rewrite H1.
  destruct (contains "requires more system memory" (str_of_exn e1)) eqn:Hmem.
  - simpl. destruct (ollama_chat E _ "mistral" p); reflexivity.
  - destruct Hwhy as [?| ->]; [discriminate|].
    simpl. destruct (ollama_chat E _ "mistral" p); reflexivity.
Qed.

(** What follows the backend call touches neither log. *)
Lemma save_cache_chat_log E cf s w :
  chat_log (snd (save_cache E cf s w)) = chat_log w.
Proof.
  unfold save_cache. destruct (truthy s), (writable E cf); reflexivity.
Qed.

Lemma save_cache_returns E cf s w : fst (save_cache E cf s w) = inr tt.
Proof.
  unfold save_cache. destruct (truthy s), (writable E cf); reflexivity.
Qed.

Lemma save_cache_frame E cf s w k :
  k ≠ cf -> cache_files (snd (save_cache E cf s w)) !! k = cache_files w !! k.
Proof.
  intros Hk. unfold save_cache.
  destruct (truthy s), (writable E cf); try reflexivity.
  simpl. by rewrite lookup_insert_ne.
Qed.

Lemma save_cache_written E cf s w :
  truthy s = true -> writable E cf = true ->
  cache_files (snd (save_cache E cf s w)) !! cf =
    Some (Some (VDict [("insights", VStr s)])).
Proof.
  intros Hs Hw. unfold save_cache. rewrite Hs, Hw. simpl.
  by rewrite lookup_insert_eq.
Qed.

(** [generate] after a fallback: the text of the fallback response is
    normalised and saved under [cf], whatever [cf] is. *)
Lemma generate_after_fallback E cf model_choice p w e1 :
  ollama_chat E (chat_log w) model_choice p = inl e1 ->
  contains "requires more system memory" (str_of_exn e1) = true
    \/ model_choice = "gpt-4" ->
  let w2 := log_chat "mistral" p (log_chat model_choice p w) in
  generate E cf model_choice p w =
    match ollama_chat E (chat_log w ++ [(model_choice, p)]) "mistral" p with
    | inl e2 => (inl e2, w2)
    | inr response =>
        match extract_insights response with
        | inl e => (inl e, w2)
        | inr v =>
            match strip_value v with
            | inl e => (inl e, w2)
            | inr s => (inr s, snd (save_cache E cf s w2))
            end
        end
    end.
Proof.
  intros H1 Hwhy w2. unfold generate, bind at 1.
  rewrite (call_backend_fallback _ _ _ _ _ H1 Hwhy). fold w2.
  destruct (ollama_chat E _ "mistral" p) as [e2|response]; [reflexivity|].
  unfold bind, lift, ret.
  destruct (extract_insights response) as [e|v]; [reflexivity|].
  destruct (strip_value v) as [e|s]; [reflexivity|].
  pose proof (save_cache_returns E cf s w2) as Hs.
  destruct (save_cache E cf s w2) as [[e|[]] w3]; simpl in *; congruence.
Qed.

(** [generate_ai_insights] past its two guards. *)
Lemma generate_ai_insights_past_guards
      E eda ms model_choice ct force cot mt clear w :
  model_choice ∈ AVAILABLE_MODELS ->
  is_model_available E model_choice = true ->
  let p := build_prompt eda ms ct cot in
  let cf := get_cache_filename E p model_choice in
  generate_ai_insights E eda ms model_choice ct force cot mt clear w =
    match consult_cache cf force clear w with
    | (inl e, w1) => (inl e, w1)
    | (inr (Some cached_insights), w1) => (inr cached_insights, w1)
    | (inr None, w1) => generate E cf model_choice p w1
    end.
Proof.
  intros Hin Havail p cf. unfold generate_ai_insights.
  rewrite (bool_decide_eq_true_2 _ Hin), Havail.
  change (negb true) with false. cbv iota. fold p. fold cf.
  unfold bind at 1.
  destruct (consult_cache cf force clear w) as [[e|[c|]] w1]; reflexivity.
Qed.

(** A backend call that answers at once is the only one. *)
Lemma call_backend_answer E model_choice p w response :
  ollama_chat E (chat_log w) model_choice p = inr response ->
  call_backend E model_choice p w =
    (inr (response, model_choice), log_chat model_choice p w).
Proof.
  intros H. unfold call_backend, try_except, bind, chat, ret. by rewrite H.
Qed.

Lemma clean_response_trimmed raw : strip (clean_response raw) = clean_response raw.
Proof. unfold clean_response. cbv zeta. apply strip_idempotent. Qed.

(** The raw-string shape is the one that goes through [clean_response]. *)
Lemma raw_string_response_is_cleaned
      E eda ms model_choice ct force cot mt clear w raw :
  let p := build_prompt eda ms ct cot in
  let cf := get_cache_filename E p model_choice in
  model_choice ∈ AVAILABLE_MODELS ->
  is_model_available E model_choice = true ->
  fst (consult_cache cf force clear w) = inr None ->
  ollama_chat E (chat_log w) model_choice p = inr (VStr raw) ->
  fst (generate_ai_insights E eda ms model_choice ct force cot mt clear w) =
    inr (clean_response raw).
Proof.
  intros p cf Hin Havail Hmiss Hchat.
  rewrite generate_ai_insights_past_guards by done. fold p. fold cf.
  pose proof (consult_cache_chat_log cf force clear w) as Hlog.
  destruct (consult_cache cf force clear w) as [[e|o] w1];
    simpl in Hmiss, Hlog; [discriminate|].
  injection Hmiss as ->. rewrite <- Hlog in Hchat.
  unfold generate, bind at 1. rewrite (call_backend_answer _ _ _ _ _ Hchat).
  unfold bind, lift, ret.
  change (extract_insights (VStr raw)) with (@inr exn _ (VStr (clean_response raw))).
  cbv beta iota.
  change (strip_value (VStr (clean_response raw)))
    with (@inr exn _ (strip (clean_response raw))).
  cbv beta iota. rewrite clean_response_trimmed.
  pose proof (save_cache_returns E cf (clean_response raw) (log_chat model_choice p w1)) as Hs.
  destruct (save_cache E cf (clean_response raw) _) as [[e|[]] w3]; simpl in *; congruence.
Qed.

(** The cache file is named by the digest of ["<model>:<prompt>"], and
    two keys with different digests have different files. *)
Lemma get_cache_filename_key E prompt model_choice :
  get_cache_filename E prompt model_choice =
    CACHE_DIR +:+ "/" +:+ md5_hex E (model_choice +:+ ":" +:+ prompt) +:+ ".json".
Proof. reflexivity. Qed.

Lemma get_cache_filename_inj E prompt model1 model2 :
  get_cache_filename E prompt model1 = get_cache_filename E prompt model2 ->
  md5_hex E (model1 +:+ ":" +:+ prompt) = md5_hex E (model2 +:+ ":" +:+ prompt).
Proof.
  rewrite !get_cache_filename_key. intros H.
  apply String.app_inj, String.app_inj in H. by apply append_inv_tail in H.
Qed.

End AiInsightsFacts.

Module AiInsightsClaims.
Import Py World AiInsights AiInsightsFacts Examples.

Local Opaque build_prompt get_cache_filename.

(** Claim C1, as stated, at a concrete input: gpt-4 is requested, the
    gpt-4 call raises [boom], the retry on mistral raises [bam].  The
    exception that reaches the caller is [bam], the one of the retry, and
    not the original one. *)
Lemma gpt4_original_exception_is_not_propagated :
  let p := build_prompt "eda" EmptyString 1500 false in
  let out := generate_ai_insights backend_down "eda" EmptyString "gpt-4"
               1500 false false 512 false empty_world in
  ollama_chat backend_down [] "gpt-4" p = inl boom /\
  ollama_chat backend_down [("gpt-4", p)] "mistral" p = inl bam /\
  fst out = inl bam /\
  fst out <> inl boom.
Proof. vm_compute. repeat split; congruence. Qed.

(** Claim C1, amended: when gpt-4 is requested and the first backend call
    raises (whatever the exception), [generate_ai_insights] makes exactly
    one more backend call, to "mistral" with the same prompt; if that call
    raises too, the exception of the mistral call is the one that reaches
    the caller. *)
Theorem gpt4_failure_retries_once_on_mistral
        E eda ms ct force cot mt clear w e1 :
  let p := build_prompt eda ms ct cot in
  let cf := get_cache_filename E p "gpt-4" in
  let out := generate_ai_insights E eda ms "gpt-4" ct force cot mt clear w in
  is_model_available E "gpt-4" = true ->
  fst (consult_cache cf force clear w) = inr None ->
  ollama_chat E (chat_log w) "gpt-4" p = inl e1 ->
  chat_log (snd out) = (chat_log w ++ [("gpt-4", p); ("mistral", p)])%list /\
  (forall e2,
      ollama_chat E (chat_log w ++ [("gpt-4", p)]) "mistral" p = inl e2 ->
      fst out = inl e2).
Proof.
  intros p cf out Havail Hmiss H1. subst out.
  rewrite generate_ai_insights_past_guards;
    [|exact (bool_decide_eq_true_1 _ gpt4_listed)|exact Havail].
  fold p. fold cf.
  pose proof (consult_cache_chat_log cf force clear w) as Hlog.
  destruct (consult_cache cf force clear w) as [[e|o] w1]; simpl in Hmiss, Hlog;
    [discriminate|].
  injection Hmiss as ->. rewrite <- Hlog in H1 |- *.
  rewrite (generate_after_fallback E cf "gpt-4" p w1 e1 H1 (or_intror eq_refl)).
  assert (Hw2 : chat_log (log_chat "mistral" p (log_chat "gpt-4" p w1)) =
                (chat_log w1 ++ [("gpt-4", p); ("mistral", p)])%list).
  { simpl. by rewrite <- app_assoc. }
  destruct (ollama_chat E _ "mistral" p) as [e2|response].
  - split; [exact Hw2|]. intros e2' [= ->]. reflexivity.
  - split; [|intros ? [=]].
    destruct (extract_insights response) as [e|v]; [exact Hw2|].
    destruct (strip_value v) as [e|s]; [exact Hw2|].
    simpl. by rewrite save_cache_chat_log.
Qed.

Lemma gpt4_failure_retries_once_on_mistral_witness :
  let p := build_prompt "eda" EmptyString 1500 true in
  let out := generate_ai_insights backend_down "eda" EmptyString "gpt-4"
               1500 true true 512 false empty_world in
  chat_log (snd out) = [("gpt-4", p); ("mistral", p)] /\
  (forall e2,
      ollama_chat backend_down ([] ++ [("gpt-4", p)]) "mistral" p = inl e2 ->
      fst out = inl e2).
Proof.
  apply (gpt4_failure_retries_once_on_mistral backend_down "eda" EmptyString
           1500 true true 512 false empty_world boom); reflexivity.
Defined.

(** Claim C2: when the backend call falls back to the lightweight model
    (after a memory-insufficiency error, or after any error of gpt-4) and
    the fallback yields non-empty text, that text is written to the cache
    file of the key of the model that was requested,
    [ai_cache/<md5(model_choice + ":" + prompt)>.json]; no other cache file
    changes.  In particular the file of the fallback model's key,
    [ai_cache/<md5("mistral:" + prompt)>.json], is a different file
    whenever the two digests differ, and is left as it was. *)
Theorem fallback_text_is_cached_under_requested_key
        E eda ms model_choice ct force cot mt clear w e1 response s :
  let p := build_prompt eda ms ct cot in
  let key_file model :=
    CACHE_DIR +:+ "/" +:+ md5_hex E (model +:+ ":" +:+ p) +:+ ".json" in
  let out := generate_ai_insights E eda ms model_choice ct force cot mt clear w in
  model_choice ∈ AVAILABLE_MODELS ->
  is_model_available E model_choice = true ->
  fst (consult_cache (key_file model_choice) force clear w) = inr None ->
  ollama_chat E (chat_log w) model_choice p = inl e1 ->
  contains "requires more system memory" (str_of_exn e1) = true
    \/ model_choice = "gpt-4" ->
  ollama_chat E (chat_log w ++ [(model_choice, p)]) "mistral" p = inr response ->
  fst out = inr s ->
  truthy s = true ->
  writable E (key_file model_choice) = true ->
  cache_files (snd out) !! key_file model_choice =
    Some (Some (VDict [("insights", VStr s)])) /\
  (forall k, k ≠ key_file model_choice ->
     cache_files (snd out) !! k = cache_files w !! k) /\
  (md5_hex E ("mistral" +:+ ":" +:+ p) ≠ md5_hex E (model_choice +:+ ":" +:+ p) ->
   key_file "mistral" ≠ key_file model_choice /\
   cache_files (snd out) !! key_file "mistral" = cache_files w !! key_file "mistral").
Proof.
  intros p key_file out Hin Havail Hmiss H1 Hwhy H2 Hout Hs Hw.
  set (cf := get_cache_filename E p model_choice).
  change (key_file model_choice) with cf in *.
  assert (Hmain :
    cache_files (snd out) !! cf = Some (Some (VDict [("insights", VStr s)])) /\
    (forall k, k ≠ cf -> cache_files (snd out) !! k = cache_files w !! k)).
  2:{ destruct Hmain as [Ha Hb]. split; [exact Ha|]. split; [exact Hb|].
      intros Hdigest.
      assert (Hfile : key_file "mistral" ≠ cf).
      { intros Heq. apply Hdigest.
        by apply (get_cache_filename_inj E p "mistral" model_choice). }
      split; [exact Hfile | by apply Hb]. }
  subst out. revert Hout.
  rewrite generate_ai_insights_past_guards by done.
  fold p. fold cf.
  pose proof (consult_cache_chat_log cf force clear w) as Hlog.
  pose proof (fun k => consult_cache_frame cf force clear w k) as Hframe.
  destruct (consult_cache cf force clear w) as [[e|o] w1];
    simpl in Hmiss, Hlog, Hframe; [discriminate|].
  injection Hmiss as ->. rewrite <- Hlog in H1, H2.
  rewrite (generate_after_fallback E cf model_choice p w1 e1 H1 Hwhy), H2.
  destruct (extract_insights response) as [e|v]; [discriminate|].
  destruct (strip_value v) as [e|s']; [discriminate|].
  simpl. intros [= ->]. split.
  - by apply save_cache_written.
  - intros k Hk. rewrite save_cache_frame by done. simpl. by apply Hframe.
Qed.

Lemma fallback_text_is_cached_under_requested_key_witness :
  let E := backend_recovers out_of_memory in
  let p := build_prompt "eda" "training" 1500 false in
  let out := generate_ai_insights E "eda" "training" "llama2"
               1500 true false 512 false empty_world in
  cache_files (snd out) !! ("ai_cache/llama2:" +:+ p +:+ ".json") =
    Some (Some (VDict [("insights", VStr noisy_text)])) /\
  "ai_cache/mistral:" +:+ p +:+ ".json" ≠ "ai_cache/llama2:" +:+ p +:+ ".json" /\
  cache_files (snd out) !! ("ai_cache/mistral:" +:+ p +:+ ".json") = None.
Proof.
  intros E p out.
  destruct (fallback_text_is_cached_under_requested_key
              (backend_recovers out_of_memory) "eda" "training" "llama2"
              1500 true false 512 false empty_world out_of_memory
              (VDict [("message", VDict [("content", VStr noisy_text)])])
              noisy_text) as (Hwritten & _ & Hother); try reflexivity.
  - unfold AVAILABLE_MODELS. set_solver.
  - left. reflexivity.
  - split; [exact Hwritten|].
    destruct Hother as [Hfile Hkept]; [by vm_compute|].
    split; [exact Hfile | exact Hkept].
Defined.

(** Claim C4 at failing inputs: a response that carries its text in a
    direct text field, in a nested message-content field or in a message
    attribute is returned, and cached, with its control tokens, its
    end-of-sequence marker and its runs of spaces intact; only the ends are
    trimmed.  [clean_response], which the raw-string shape goes through,
    would have produced "Hello world". *)
Lemma structured_response_is_not_cleaned :
  let text := VStr ("  " +:+ noisy_text +:+ nl) in
  let run response :=
    generate_ai_insights (backend_says response) "eda" EmptyString "mistral"
      1500 false false 512 false empty_world in
  let cached out :=
    (map_to_list (cache_files (snd out))).*2 in
  clean_response noisy_text = "Hello world" /\
  fst (run (VStr noisy_text)) = inr "Hello world" /\
  fst (run (VDict [("response", text)])) = inr noisy_text /\
  fst (run (VDict [("message", VDict [("content", text)])])) = inr noisy_text /\
  fst (run (VObj [("message", VObj [("content", text)])])) = inr noisy_text /\
  cached (run (VDict [("message", VDict [("content", text)])])) =
    [Some (VDict [("insights", VStr noisy_text)])].
Proof. vm_compute. repeat split. Qed.

End AiInsightsClaims.

(* ===================================================================== *)
(** * Properties of the orchestrator                                      *)
(* ===================================================================== *)

Module OrchestratorFacts.
Import Py World Frame Orchestrator.

Lemma Qltb_true x y : Qltb x y = true <-> (x < y)%Q.
Proof.
  unfold Qltb. rewrite negb_true_iff, <- not_true_iff_false, Qle_bool_iff.
  split; [apply Qnot_le_lt | apply Qlt_not_le].
Qed.

Lemma Qltb_false x y : Qltb x y = false <-> (y <= x)%Q.
Proof. unfold Qltb. by rewrite negb_false_iff, Qle_bool_iff. Qed.

(** On floats that are not NaN, [<=] is a total preorder and [<] its
    strict part. *)
Lemma float_le_refl x : isnan x = false -> float_le x x = true.
Proof.
  destruct x as [q|[]|]; try done. intros _. unfold float_le. simpl.
  rewrite negb_involutive. apply Qle_bool_iff, Qle_refl.
Qed.

Lemma float_le_not_nan x y : float_le x y = true -> isnan x = false /\ isnan y = false.
Proof. by destruct x as [?|[]|], y as [?|[]|]. Qed.

Lemma float_le_trans x y z :
  float_le x y = true -> float_le y z = true -> float_le x z = true.
Proof.
  destruct x as [a|[]|], y as [b|[]|], z as [c|[]|]; try done.
  unfold float_le. simpl. rewrite !negb_involutive, !Qle_bool_iff.
  apply Qle_trans.
Qed.

Lemma float_lt_le x y : float_lt x y = true -> float_le x y = true.
Proof.
  destruct x as [a|[]|], y as [b|[]|]; try done.
  unfold float_le. simpl. rewrite negb_involutive, negb_true_iff.
  rewrite <- not_true_iff_false, !Qle_bool_iff. intros H.
  apply Qlt_le_weak. by apply Qnot_le_lt.
Qed.

Lemma float_not_lt_le x y :
  isnan x = false -> isnan y = false -> float_lt x y = false -> float_le y x = true.
Proof. intros Hx Hy Hlt. unfold float_le. by rewrite Hx, Hy, Hlt. Qed.

(** Below a threshold or at least the threshold, unless NaN. *)
Lemma float_lt_or_le x y :
  isnan x = false -> isnan y = false ->
  float_lt x y = true \/ float_le y x = true.
Proof.
  intros Hx Hy. destruct (float_lt x y) eqn:Hlt; [by left|].
  right. by apply float_not_lt_le.
Qed.

Lemma float_le_not_lt x y : float_le y x = true -> float_lt x y = false.
Proof.
  unfold float_le. intros [_ H]%andb_true_iff. by apply negb_true_iff in H.
Qed.

Lemma keep_larger_bounds best y :
  isnan best = false -> isnan y = false ->
  float_le best (keep_larger best y) = true /\
  float_le y (keep_larger best y) = true.
Proof.
  intros Hb Hy. unfold keep_larger. destruct (float_lt best y) eqn:Hc.
  - split; [by apply float_lt_le | by apply float_le_refl].
  - split; [by apply float_le_refl | by apply float_not_lt_le].
Qed.

Lemma fold_keep_larger_bounds xs a :
  isnan a = false ->
  Forall (fun x => isnan x = false) xs ->
  float_le a (fold_left keep_larger xs a) = true /\
  (forall x, x ∈ xs -> float_le x (fold_left keep_larger xs a) = true).
Proof.
  intros Ha Hxs. revert a Ha.
  induction Hxs as [|y xs Hy _ IH]; intros a Ha; simpl.
  - split; [by apply float_le_refl|]. intros x Hx. by apply elem_of_nil in Hx.
  - destruct (keep_larger_bounds a y Ha Hy) as [Hale Hyle].
    destruct (IH (keep_larger a y)) as [IH1 IH2].
    { by apply float_le_not_nan in Hale as [_ ?]. }
    split; [by eapply float_le_trans|].
    intros x [->|Hx]%elem_of_cons; [by eapply float_le_trans | by apply IH2].
Qed.

Lemma fold_keep_larger_elem xs a :
  fold_left keep_larger xs a ∈ a :: xs.
Proof.
  revert a. induction xs as [|y xs IH]; intros a; simpl.
  - apply list_elem_of_here.
  - specialize (IH (keep_larger a y)).
    apply elem_of_cons in IH as [Heq|Hin].
    + rewrite Heq. unfold keep_larger. destruct (float_lt a y).
      * apply list_elem_of_further, list_elem_of_here.
      * apply list_elem_of_here.
    + by do 2 apply list_elem_of_further.
Qed.

Lemma py_max_empty d : py_max [] d = d.
Proof. reflexivity. Qed.

Lemma py_max_upper_bound xs d x :
  Forall (fun x => isnan x = false) xs ->
  x ∈ xs -> float_le x (py_max xs d) = true.
Proof.
  destruct xs as [|a xs]; [by intros _ ?%elem_of_nil|].
  change (py_max (a :: xs) d) with (fold_left keep_larger xs a).
  intros [Ha Hxs]%Forall_cons.
  destruct (fold_keep_larger_bounds xs a Ha Hxs) as [Hale Hle].
  intros [->|Hx]%elem_of_cons; [done | by apply Hle].
Qed.

Lemma py_max_attained xs d : xs <> [] -> py_max xs d ∈ xs.
Proof.
  destruct xs as [|a xs]; [done|]. intros _.
  apply (fold_keep_larger_elem xs a).
Qed.

Local Opaque AiInsights.generate_ai_insights.

(** [decide_next_steps] once EDA and training have succeeded and the
    quality gate is passed: the two outcomes of the performance test. *)
Lemma decide_next_steps_trained self S E data target w report rows :
  generate_eda S data = inr report ->
  train_and_evaluate_models S data target = inr rows ->
  Qltb 0.85 (eda_quality_threshold self) = false ->
  let best_r2 := py_max (map (fun r => row_get r "R2" (FNum 0)) rows) (FNum 0.0) in
  let thr := model_performance_threshold self in
  let out := decide_next_steps self S E data target w in
  (float_lt best_r2 (FNum thr) = false ->
   out = (inr (satisfied report rows best_r2), after_training w)) /\
  (float_lt best_r2 (FNum thr) = true ->
   exists text,
     fst out = inr (<["ai_insights" := DStr text]> (needs_tuning report rows best_r2 thr))).
Proof.
  intros Heda Htrain Hgate best_r2 thr out. subst out.
  unfold decide_next_steps, attempt, call_stage, try_except, bind, modify, lift, ret.
  rewrite Heda. cbv beta iota. rewrite Hgate. cbv beta iota.
  rewrite Htrain. cbv beta iota zeta. fold best_r2. fold thr.
  split; intros Hperf; rewrite Hperf.
  - reflexivity.
  - destruct (retrieve_context S _ _) as [e|ctx]; cbv beta iota zeta.
    + eexists. reflexivity.
    + destruct (AiInsights.generate_ai_insights _ _ _ _ _ _ _ _ _ _)
        as [[e|text] w3]; eexists; reflexivity.
Qed.

End OrchestratorFacts.

Module OrchestratorClaims.
Import Py World Frame Orchestrator OrchestratorFacts Examples.

Local Opaque AiInsights.generate_ai_insights.

(** Claim C3, as stated, at concrete inputs.  An R2 can be NaN (it is for
    every model when the test split has one row).  With the results
    [NaN, 0.5], [best_r2] is NaN: it is not the largest R2, it is not at
    least 0.75, and yet the decision is "Proceed to forecasting or
    deployment."; with the same two rows in the other order [best_r2] is
    0.5 and the decision is to tune.  With NaN in every row the decision is
    to proceed as well. *)
Lemma nan_r2_is_not_compared :
  let lr x := mkRow "LinearRegression" {[ "R2" := x ]} in
  let rf x := mkRow "RandomForestRegressor" {[ "R2" := x ]} in
  let best rows := py_max (map (fun r => row_get r "R2" (FNum 0)) rows) (FNum 0.0) in
  let run rows :=
    fst (decide_next_steps init
           (mkStages (fun _ => inr "report") (fun _ _ => inr rows)
              (fun _ _ => inr "context"))
           backend_down [] "target" empty_world) in
  let next_action result :=
    match result with
    | inr d => d !! "next_action"
    | inl _ => None
    end in
  best [lr FNaN; rf (FNum 0.5)] = FNaN /\
  float_le (FNum 0.5) (best [lr FNaN; rf (FNum 0.5)]) = false /\
  float_le (FNum 0.75) (best [lr FNaN; rf (FNum 0.5)]) = false /\
  run [lr FNaN; rf (FNum 0.5)] = inr (satisfied "report" [lr FNaN; rf (FNum 0.5)] FNaN) /\
  next_action (run [lr FNaN; rf (FNum 0.5)]) =
    Some (DStr "Proceed to forecasting or deployment.") /\
  best [rf (FNum 0.5); lr FNaN] = FNum 0.5 /\
  next_action (run [rf (FNum 0.5); lr FNaN]) =
    Some (DStr "Tune hyperparameters or try alternative models.") /\
  run [lr FNaN; rf FNaN] = inr (satisfied "report" [lr FNaN; rf FNaN] FNaN).
Proof. vm_compute. repeat split. Qed.

(** Claim C3, amended: when EDA and training succeed and no R2 of the
    training results is NaN, [decide_next_steps] (with the default
    thresholds) takes as [best_r2] the largest [R2] of the rows
    ([row.get("R2", 0)] per row; 0.0 for no rows), which is then below 0.75
    or at least 0.75.  Below 0.75 the decision says "Tune hyperparameters
    or try alternative models." and has an [ai_insights] entry; from 0.75
    on it says "Proceed to forecasting or deployment.", has no
    [ai_insights] entry, and the call has invoked the EDA and training
    stages only: no backend call, no cache change, no insight
    generation. *)
Theorem decision_follows_best_r2 S E data target w report rows :
  let r2 := fun r => row_get r "R2" (FNum 0) in
  let best_r2 := py_max (map r2 rows) (FNum 0.0) in
  let out := decide_next_steps init S E data target w in
  generate_eda S data = inr report ->
  train_and_evaluate_models S data target = inr rows ->
  Forall (fun r => isnan (r2 r) = false) rows ->
  (rows = [] -> best_r2 = FNum 0.0) /\
  (forall r, r ∈ rows -> float_le (r2 r) best_r2 = true) /\
  (rows <> [] -> exists r, r ∈ rows /\ best_r2 = r2 r) /\
  (float_lt best_r2 (FNum 0.75) = true \/ float_le (FNum 0.75) best_r2 = true) /\
  (float_lt best_r2 (FNum 0.75) = true ->
   exists d,
     fst out = inr d /\
     d !! "next_action" = Some (DStr "Tune hyperparameters or try alternative models.") /\
     d !! "reason" = Some (DReason (ReasonLowR2 best_r2 0.75%Q)) /\
     is_Some (d !! "ai_insights")) /\
  (float_le (FNum 0.75) best_r2 = true ->
   exists d,
     fst out = inr d /\
     d !! "next_action" = Some (DStr "Proceed to forecasting or deployment.") /\
     d !! "reason" = Some (DReason (ReasonSatisfactory best_r2)) /\
     d !! "ai_insights" = None /\
     stage_log (snd out) = (stage_log w ++ [StageEDA; StageTraining])%list /\
     chat_log (snd out) = chat_log w /\
     cache_files (snd out) = cache_files w).
Proof.
  intros r2 best_r2 out Heda Htrain Hnan.
  destruct (decide_next_steps_trained init S E data target w report rows
              Heda Htrain eq_refl) as [Hhigh Hlow].
  fold r2 best_r2 out in Hhigh, Hlow.
  assert (Hvalues : Forall (fun x => isnan x = false) (map r2 rows)).
  { apply Forall_fmap. exact Hnan. }
  assert (Hattained : rows <> [] -> exists r, r ∈ rows /\ best_r2 = r2 r).
  { intros Hne.
    assert (Hne' : map r2 rows <> []) by (by destruct rows).
    apply (py_max_attained _ (FNum 0.0)) in Hne'.
    apply list_elem_of_fmap in Hne' as (r & Hr & Hin). eauto. }
  assert (Hbest : isnan best_r2 = false).
  { destruct rows as [|r0 rows']; [done|].
    destruct Hattained as (r & Hr & ->); [done|].
    rewrite Forall_forall in Hnan. by apply Hnan. }
  split; [by intros ->|]. split.
  { intros r Hr. apply py_max_upper_bound; [done|]. by apply list_elem_of_fmap_2. }
  split; [exact Hattained|]. split; [by apply float_lt_or_le|]. split.
  - intros Hlt. destruct (Hlow Hlt) as [text Hd].
    eexists. split; [exact Hd|]. unfold needs_tuning.
    repeat split; by simplify_map_eq.
  - intros Hge%float_le_not_lt. specialize (Hhigh Hge).
    exists (satisfied report rows best_r2). rewrite Hhigh. unfold satisfied.
    repeat split; try by simplify_map_eq.
    simpl. by rewrite <- app_assoc.
Qed.

Lemma decision_follows_best_r2_witness :
  let S := mkStages (fun _ => inr "Dummy EDA Report")
             (fun _ _ => inr [mkRow "LinearRegression" {[ "R2" := FNum 0.7 ]};
                              mkRow "RandomForestRegressor" {[ "R2" := FNum 0.9 ]}])
             (fun _ _ => inr "Dummy retrieved context.") in
  let out := decide_next_steps init S backend_down [] "target" empty_world in
  exists d,
    fst out = inr d /\
    d !! "next_action" = Some (DStr "Proceed to forecasting or deployment.") /\
    d !! "reason" = Some (DReason (ReasonSatisfactory (FNum 0.9))) /\
    d !! "ai_insights" = None /\
    stage_log (snd out) = [StageEDA; StageTraining] /\
    chat_log (snd out) = [] /\
    cache_files (snd out) = ∅.
Proof.
  intros S out.
  destruct (decision_follows_best_r2 S backend_down [] "target" empty_world
              "Dummy EDA Report"
              [mkRow "LinearRegression" {[ "R2" := FNum 0.7 ]};
               mkRow "RandomForestRegressor" {[ "R2" := FNum 0.9 ]}]
              eq_refl eq_refl) as (_ & _ & _ & _ & _ & Hhigh).
  { repeat constructor. }
  apply Hhigh. reflexivity.
Defined.

(** Claim C7: when the EDA stage raises, [decide_next_steps] returns
    exactly [{"error": "EDA failed", "details": str(e)}], which has no
    [next_action] entry, and the EDA stage is the only stage the call has
    invoked: training is never reached. *)
Theorem eda_failure_short_circuits self S E data target w e :
  let out := decide_next_steps self S E data target w in
  generate_eda S data = inl e ->
  fst out = inr {[ "error" := DStr "EDA failed";
                   "details" := DStr (str_of_exn e) ]} /\
  (forall d, fst out = inr d -> d !! "next_action" = None) /\
  stage_log (snd out) = (stage_log w ++ [StageEDA])%list /\
  StageTraining ∉ skipn (List.length (stage_log w)) (stage_log (snd out)).
Proof.
  intros out Heda.
  assert (Hout : out =
    (inr {[ "error" := DStr "EDA failed"; "details" := DStr (str_of_exn e) ]},
     log_stage StageEDA w)).
  { subst out.
    unfold decide_next_steps, attempt, call_stage, try_except, bind, modify, lift, ret.
    by rewrite Heda. }
  rewrite Hout. simpl. repeat split.
  - intros d [= <-]. by vm_compute.
  - rewrite drop_app_length. by intros [=]%list_elem_of_singleton.
Qed.

Lemma eda_failure_short_circuits_witness :
  let S := mkStages (fun _ => inl (Exn "Exception" "EDA error"))
             (fun _ _ => inr []) (fun _ _ => inr EmptyString) in
  let out := decide_next_steps init S backend_down [] "target" empty_world in
  fst out = inr {[ "error" := DStr "EDA failed"; "details" := DStr "EDA error" ]} /\
  (forall d, fst out = inr d -> d !! "next_action" = None) /\
  stage_log (snd out) = [StageEDA] /\
  StageTraining ∉ skipn 0 (stage_log (snd out)).
Proof.
  intros S.
  apply (eda_failure_short_circuits init S backend_down [] "target" empty_world
           (Exn "Exception" "EDA error") eq_refl).
Defined.

(** Claim C8: with the default thresholds the data-quality score 0.85 is
    not below 0.8, so [decide_next_steps] always returns a decision and its
    [next_action] is never "Perform advanced feature engineering.". *)
Theorem feature_engineering_branch_unreachable S E data target w :
  exists d,
    fst (decide_next_steps init S E data target w) = inr d /\
    d !! "next_action" ≠ Some (DStr "Perform advanced feature engineering.").
Proof.
  unfold decide_next_steps, attempt, call_stage, try_except, bind, modify, lift, ret.
  destruct (generate_eda S data) as [e|report]; cbv beta iota.
  { eexists. split; [reflexivity|]. by simplify_map_eq. }
  change (Qltb 0.85 (eda_quality_threshold init)) with false. cbv beta iota.
  destruct (train_and_evaluate_models S data target) as [e|rows]; cbv beta iota zeta.
  { eexists. split; [reflexivity|]. by simplify_map_eq. }
  destruct (float_lt _ _).
  - destruct (retrieve_context S _ _) as [e|ctx]; cbv beta iota zeta.
    + eexists. split; [reflexivity|]. by simplify_map_eq.
    + destruct (AiInsights.generate_ai_insights _ _ _ _ _ _ _ _ _ _)
        as [[e|text] w3]; eexists; (split; [reflexivity|]); by simplify_map_eq.
  - eexists. split; [reflexivity|]. by simplify_map_eq.
Qed.

End OrchestratorClaims.

(* ===================================================================== *)
(** * Properties of model evaluation                                      *)
(* ===================================================================== *)

Module EvaluationFacts.
Import Py PyFacts Frame Evaluation.

(** ** The object store *)

Lemma copy_run (h : heap) l d :
  h !! l = Some d -> copy l h = (inr (List.length h), (h ++ [d])%list).
Proof. intros Hd. unfold copy, bind, deref, alloc. by rewrite Hd. Qed.

Lemma deref_run (h : heap) l d : h !! l = Some d -> deref l h = (inr d, h).
Proof. intros Hd. unfold deref. by rewrite Hd. Qed.

Lemma deref_last (h : heap) d :
  deref (List.length h) (h ++ [d])%list = (inr d, (h ++ [d])%list).
Proof. apply deref_run. by apply list_lookup_middle. Qed.

Lemma store_last (h : heap) d x :
  store (List.length h) x (h ++ [d])%list = (inr tt, (h ++ [x])%list).
Proof.
  unfold store, modify. f_equal.
  rewrite insert_app_r_alt by lia. by rewrite Nat.sub_diag.
Qed.

Lemma drop_no_columns (d : DataFrame) : drop_columns [] d = d.
Proof.
  unfold drop_columns. induction d as [|col d IH]; [done|].
  rewrite filter_cons_True by apply not_elem_of_nil. by rewrite IH.
Qed.

Lemma nonempty_false {A} (l : list A) : nonempty l = false <-> l = [].
Proof. by destruct l. Qed.

(** ** The three steps of [evaluate_model], run on the private copy *)

Lemma separate_target_run (h : heap) d target :
  separate_target (List.length h) target (mkColInfo None None None) (h ++ [d])%list =
    (inr (ground_truth d target, mkColInfo (target_absent d target) None None),
     (h ++ [features d target])%list).
Proof.
  unfold separate_target, ground_truth, target_absent, features, target_present.
  destruct target as [t|]; [|reflexivity].
  destruct (truthy t); [|reflexivity]. simpl andb.
  unfold bind at 1. rewrite deref_last.
  destruct (bool_decide (t ∈ labels d)); [|reflexivity].
  unfold bind. by rewrite store_last.
Qed.

Lemma align_columns_run m (h : heap) feats absent :
  align_columns m (List.length h) (mkColInfo absent None None) (h ++ [feats])%list =
    match training_columns m with
    | Some training =>
        let extras := extra_columns training feats in
        let h1 := (h ++ [drop_columns extras feats])%list in
        if nonempty (missing_columns training feats) then
          (inl (missing_columns_error (missing_columns training feats)), h1)
        else
          (inr (S (List.length h),
                mkColInfo absent (if nonempty extras then Some extras else None)
                  (Some training)),
           (h1 ++ [aligned training feats])%list)
    | None => (inr (List.length h, mkColInfo absent None None), (h ++ [feats])%list)
    end.
Proof.
  unfold align_columns. destruct (training_columns m) as [training|]; [|reflexivity].
  unfold bind at 1. rewrite deref_last. cbv zeta.
  fold (extra_columns training feats). fold (missing_columns training feats).
  unfold bind at 1.
  assert (Hstep :
    (if nonempty (extra_columns training feats)
     then bind (store (List.length h)
                  (drop_columns (extra_columns training feats) feats))
            (fun _ => ret (mkColInfo absent (Some (extra_columns training feats)) None))
     else ret (mkColInfo absent None None)) (h ++ [feats])%list =
    (inr (mkColInfo absent
            (if nonempty (extra_columns training feats)
             then Some (extra_columns training feats) else None) None),
     (h ++ [drop_columns (extra_columns training feats) feats])%list)).
  { destruct (nonempty (extra_columns training feats)) eqn:Hex.
    - unfold bind. by rewrite store_last.
    - apply nonempty_false in Hex. by rewrite Hex, drop_no_columns. }
  cbn [missing_target used_columns]. rewrite Hstep. cbn [missing_target used_columns extra_columns_dropped].
  destruct (nonempty (missing_columns training feats)); [reflexivity|].
  unfold bind at 1. rewrite deref_last.
  unfold bind, alloc, ret. rewrite length_app. simpl.
  by rewrite Nat.add_1_r.
Qed.

Lemma predict_and_report_run K m (h : heap) df frame y_true info :
  h !! df = Some frame ->
  predict_and_report K m df y_true info h =
    match predict m frame with
    | inl e => (inl e, h)
    | inr preds => (report K m preds y_true info, h)
    end.
Proof.
  intros Hdf. unfold predict_and_report, bind at 1. rewrite (deref_run _ _ _ Hdf).
  unfold bind at 1, lift at 1. destruct (predict m frame) as [e|preds]; [reflexivity|].
  unfold report. destruct y_true as [y|]; [|reflexivity].
  unfold bind, lift, ret. destruct (tolist y); reflexivity.
Qed.

(** [evaluate_model] on a live reference and a loadable artifact, in closed
    form. *)
Lemma evaluate_model_run K new_df path target (h : heap) d m :
  h !! new_df = Some d ->
  joblib_load K path = inr m ->
  let feats := features d target in
  let y_true := ground_truth d target in
  evaluate_model K new_df path target h =
    match training_columns m with
    | Some training =>
        let extras := extra_columns training feats in
        let h1 := (h ++ [drop_columns extras feats])%list in
        let dropped := if nonempty extras then Some extras else None in
        if nonempty (missing_columns training feats) then
          (inl (missing_columns_error (missing_columns training feats)), h1)
        else
          let h2 := (h1 ++ [aligned training feats])%list in
          match predict m (aligned training feats) with
          | inl e => (inl e, h2)
          | inr preds =>
              (report K m preds y_true
                 (mkColInfo (target_absent d target) dropped (Some training)), h2)
          end
    | None =>
        match predict m feats with
        | inl e => (inl e, (h ++ [feats])%list)
        | inr preds =>
            (report K m preds y_true (mkColInfo (target_absent d target) None None),
             (h ++ [feats])%list)
        end
    end.
Proof.
  intros Hd Hload feats y_true.
  unfold evaluate_model. unfold bind at 1, lift at 1. rewrite Hload.
  unfold bind at 1. rewrite (copy_run _ _ _ Hd).
  unfold bind at 1. rewrite separate_target_run. fold feats. fold y_true.
  unfold bind at 1. rewrite align_columns_run.
  destruct (training_columns m) as [training|].
  - cbv zeta. destruct (nonempty (missing_columns training feats)); [reflexivity|].
    apply predict_and_report_run.
    apply list_lookup_middle. rewrite length_app. simpl. lia.
  - apply predict_and_report_run. by apply list_lookup_middle.
Qed.

(** The error message quotes every missing column. *)
Lemma missing_columns_error_names missing c :
  c ∈ missing ->
  contains (repr_str c) (str_of_exn (missing_columns_error missing)) = true.
Proof.
  intros Hc. unfold missing_columns_error, ValueError, str_of_exn, repr_list. simpl exn_msg.
  apply contains_app_r, contains_app_l, contains_app_r, contains_app_l.
  by apply contains_join.
Qed.

(** ** Column sets *)

Lemma elem_of_extra_columns training (feats : DataFrame) c :
  c ∈ extra_columns training feats <-> c ∈ labels feats /\ c ∉ training.
Proof.
  unfold extra_columns.
  by rewrite elem_of_elements, elem_of_difference, !elem_of_list_to_set.
Qed.

Lemma elem_of_missing_columns training (feats : DataFrame) c :
  c ∈ missing_columns training feats <-> c ∈ training /\ c ∉ labels feats.
Proof.
  unfold missing_columns.
  by rewrite elem_of_elements, elem_of_difference, !elem_of_list_to_set.
Qed.

Lemma elem_of_labels (d : DataFrame) c :
  c ∈ labels d <-> exists col, col ∈ d /\ col.1 = c.
Proof.
  unfold labels. rewrite list_elem_of_fmap. split; intros (col & H1 & H2); eauto.
Qed.

Lemma elem_of_select training (x : DataFrame) col :
  col ∈ select training x <-> col.1 ∈ training /\ col ∈ x.
Proof.
  unfold select, columns_named. rewrite list_elem_of_In, in_flat_map. split.
  - intros (c & Hc & Hcol).
    apply list_elem_of_In, list_elem_of_filter in Hcol as [-> Hx].
    split; [by apply list_elem_of_In | done].
  - intros [Hc Hx]. exists col.1. split; [by apply list_elem_of_In|].
    apply list_elem_of_In, list_elem_of_filter. done.
Qed.

Lemma labels_aligned_subset training (feats : DataFrame) c :
  c ∈ labels (aligned training feats) -> c ∈ training /\ c ∈ labels feats.
Proof.
  intros (col & Hcol & <-)%elem_of_labels.
  apply elem_of_select in Hcol as [Ht Hx].
  apply list_elem_of_filter in Hx as [_ Hx].
  split; [done|]. apply elem_of_labels. eauto.
Qed.

Lemma columns_named_absent (d : DataFrame) t :
  t ∉ labels d -> columns_named t d = [].
Proof.
  unfold columns_named, labels. induction d as [|col d IH]; [done|].
  rewrite fmap_cons, not_elem_of_cons. intros [Hne Hd].
  rewrite filter_cons_False by done. by apply IH.
Qed.

Lemma columns_named_unique (d : DataFrame) t :
  NoDup (labels d) -> t ∈ labels d ->
  exists vals, columns_named t d = [(t, vals)].
Proof.
  unfold labels. induction d as [|[c vals] d IH]; [by intros _ ?%elem_of_nil|].
  rewrite fmap_cons, NoDup_cons. simpl. intros [Hc Hd] Ht.
  unfold columns_named. destruct (decide (c = t)) as [->|Hne].
  - rewrite filter_cons_True by done.
    fold (columns_named t d). rewrite (columns_named_absent d t Hc). eauto.
  - rewrite filter_cons_False by done. apply IH; [done|].
    apply elem_of_cons in Ht as [?|?]; [congruence | done].
Qed.

Lemma NoDup_labels_filter (P : string * list cell -> Prop)
      `{forall col, Decision (P col)} (d : DataFrame) :
  NoDup (labels d) -> NoDup (labels (filter P d)).
Proof.
  unfold labels. induction d as [|col d IH]; [done|].
  rewrite fmap_cons, NoDup_cons. intros [Hc Hd].
  destruct (decide (P col)).
  - rewrite filter_cons_True, fmap_cons, NoDup_cons by done. split; [|by apply IH].
    intros (col' & Heq & Hin)%list_elem_of_fmap.
    apply list_elem_of_filter in Hin as [_ Hin].
    apply Hc, list_elem_of_fmap. eauto.
  - rewrite filter_cons_False by done. by apply IH.
Qed.

(** With unique labels and no missing column, the aligned frame has exactly
    the training columns, in training order. *)
Lemma labels_aligned training (feats : DataFrame) :
  NoDup (labels feats) ->
  missing_columns training feats = [] ->
  labels (aligned training feats) = training.
Proof.
  intros Hnd Hmiss. unfold aligned.
  set (x := drop_columns (extra_columns training feats) feats).
  assert (Hx : NoDup (labels x)) by by apply NoDup_labels_filter.
  assert (Hall : forall c, c ∈ training -> c ∈ labels x).
  { intros c Hc. destruct (decide (c ∈ labels feats)) as [Hin|Hout].
    - apply elem_of_labels in Hin as (col & Hcol & <-).
      apply elem_of_labels. exists col. split; [|done].
      apply list_elem_of_filter. split; [|done].
      intros [_ ?]%elem_of_extra_columns. done.
    - assert (c ∈ missing_columns training feats)
        by by apply elem_of_missing_columns.
      rewrite Hmiss in *. by apply elem_of_nil in H. }
  clearbody x. clear Hmiss Hnd.
  induction training as [|c training IH]; [done|].
  unfold select, labels in *. simpl. rewrite fmap_app.
  destruct (columns_named_unique x c Hx) as [vals ->].
  { apply Hall, list_elem_of_here. }
  simpl. f_equal. apply IH. intros c' Hc'. by apply Hall, list_elem_of_further.
Qed.

(** The result dict is built whenever the ground truth, if any, is a
    single column. *)
Lemma report_returns K m preds (d : DataFrame) target info :
  NoDup (labels d) ->
  exists r,
    report K m preds (ground_truth d target) info = inr r /\
    predictions r = preds /\ column_info r = info /\
    (ground_truth d target = None -> metrics r = None /\ actual r = None).
Proof.
  intros Hnd. unfold report, ground_truth.
  destruct (target_present d target) as [t|] eqn:Ht.
  - assert (Hin : t ∈ labels d).
    { unfold target_present in Ht. destruct target as [t'|]; [|done].
      destruct (truthy t'); simpl in Ht; [|done].
      destruct (bool_decide (t' ∈ labels d)) eqn:Hb; [|done].
      injection Ht as <-. by apply bool_decide_eq_true in Hb. }
    destruct (columns_named_unique d t Hnd Hin) as [vals ->]. simpl.
    eexists. repeat split; done.
  - eexists. repeat split; done.
Qed.

End EvaluationFacts.

Module EvaluationClaims.
Import Py Frame Evaluation EvaluationFacts Examples.

(** Closed decidable side conditions, by evaluation. *)
Ltac by_evaluation := apply (bool_decide_unpack _); vm_compute; exact I.

(** Claim C5: for an artifact that carries its training columns and a
    dataset whose frame is [d], let [feats] be the evaluation frame (the
    dataset, less the target column when one is given and present).  The
    columns of [feats] that are not training columns are the extras, the
    training columns not in [feats] are the missing ones.  With no missing
    column the extras are dropped: [predict] receives only training columns
    (exactly those, in training order, when labels are unique), its outcome
    is the outcome, and on success the result reports the extras under
    [extra_columns_dropped] and the training columns under [used_columns].
    With a missing column [evaluate_model] raises the error that quotes
    every missing column, whatever [predict] would do: nothing is imputed. *)
Theorem column_alignment K new_df path target (h : heap) d m training :
  let feats := features d target in
  let extras := extra_columns training feats in
  let missing := missing_columns training feats in
  let out := evaluate_model K new_df path target h in
  h !! new_df = Some d ->
  joblib_load K path = inr m ->
  training_columns m = Some training ->
  (forall c, c ∈ extras <-> c ∈ labels feats /\ c ∉ training) /\
  (forall c, c ∈ missing <-> c ∈ training /\ c ∉ labels feats) /\
  (missing = [] ->
     (forall c, c ∈ labels (aligned training feats) -> c ∈ training) /\
     (NoDup (labels feats) -> labels (aligned training feats) = training) /\
     (forall e, predict m (aligned training feats) = inl e -> fst out = inl e) /\
     (forall preds,
         predict m (aligned training feats) = inr preds ->
         NoDup (labels d) ->
         exists r,
           fst out = inr r /\
           predictions r = preds /\
           extra_columns_dropped (column_info r) =
             (if nonempty extras then Some extras else None) /\
           used_columns (column_info r) = Some training)) /\
  (missing <> [] ->
     fst out = inl (missing_columns_error missing) /\
     (forall c, c ∈ missing ->
        contains (repr_str c) (str_of_exn (missing_columns_error missing)) = true)).
Proof.
  intros feats extras missing out Hd Hload Htc.
  pose proof (evaluate_model_run K new_df path target h d m Hd Hload) as Hrun.
  cbv zeta in Hrun. rewrite Htc in Hrun. fold feats extras missing out in Hrun.
  split; [apply elem_of_extra_columns|].
  split; [apply elem_of_missing_columns|].
  split.
  - intros Hmiss. rewrite Hmiss in Hrun. simpl in Hrun.
    split; [intros c Hc; by apply labels_aligned_subset in Hc as [? _]|].
    split; [intros Hnd; by apply labels_aligned|].
    split.
    + intros e He. rewrite He in Hrun. by rewrite Hrun.
    + intros preds Hp Hnd. rewrite Hp in Hrun. rewrite Hrun. simpl.
      destruct (report_returns K m preds d target
                  (mkColInfo (target_absent d target)
                     (if nonempty extras then Some extras else None)
                     (Some training)) Hnd) as (r & -> & Hr1 & Hr2 & _).
      exists r. rewrite Hr2. done.
  - intros Hmiss. split; [|apply missing_columns_error_names].
    destruct missing; [done|]. by rewrite Hrun.
Qed.

Lemma column_alignment_witness :
  let out_abc := evaluate_model toolkit 0 "model.pkl" None [frame_abc] in
  let out_a := evaluate_model toolkit 0 "model.pkl" None [frame_a] in
  (exists r,
      fst out_abc = inr r /\
      predictions r = [CNum 1; CNum 1] /\
      extra_columns_dropped (column_info r) = Some ["c"] /\
      used_columns (column_info r) = Some ["a"; "b"]) /\
  fst out_a = inl (missing_columns_error ["b"]) /\
  contains "'b'" (str_of_exn (missing_columns_error ["b"])) = true.
Proof.
  intros out_abc out_a.
  destruct (column_alignment toolkit 0 "model.pkl" None [frame_abc] frame_abc
              model_ab ["a"; "b"] eq_refl eq_refl eq_refl)
    as (_ & _ & Hok & _).
  destruct (column_alignment toolkit 0 "model.pkl" None [frame_a] frame_a
              model_ab ["a"; "b"] eq_refl eq_refl eq_refl)
    as (_ & _ & _ & Hfail).
  split; [|split].
  - destruct (Hok eq_refl) as (_ & _ & _ & Hpred).
    apply (Hpred [CNum 1; CNum 1] eq_refl).
    by_evaluation.
  - apply Hfail. discriminate.
  - destruct Hfail as [_ Hnames]; [discriminate|]. apply (Hnames "b"). by_evaluation.
Defined.

(** Claim C9: [evaluate_model] never mutates the caller's DataFrame.  The
    object store after the call is the store before it followed by freshly
    allocated frames, whatever the outcome: every frame that existed before
    the call, the caller's among them, has the columns and values it had. *)
Theorem caller_frame_is_never_mutated K new_df path target (h : heap) :
  let out := evaluate_model K new_df path target h in
  (exists fresh, snd out = (h ++ fresh)%list) /\
  (forall l d, h !! l = Some d -> snd out !! l = Some d).
Proof.
  intros out.
  assert (Hfresh : exists fresh, snd out = (h ++ fresh)%list).
  { subst out. destruct (joblib_load K path) as [e|m] eqn:Hload.
    { exists []. unfold evaluate_model, bind, lift. rewrite Hload. simpl.
      by rewrite app_nil_r. }
    destruct (h !! new_df) as [d|] eqn:Hd.
    - rewrite (evaluate_model_run K new_df path target h d m Hd Hload). cbv zeta.
      destruct (training_columns m) as [training|].
      + destruct (nonempty (missing_columns training (features d target))).
        * eexists. reflexivity.
        * destruct (predict m _); simpl; rewrite <- app_assoc; eexists; reflexivity.
      + destruct (predict m _); eexists; reflexivity.
    - exists []. unfold evaluate_model, bind, lift, copy, deref.
      rewrite Hload. unfold bind. rewrite Hd. simpl. by rewrite app_nil_r. }
  split; [exact Hfresh|].
  destruct Hfresh as [fresh ->]. intros l d Hl. by apply lookup_app_l_Some.
Qed.

Lemma caller_frame_is_never_mutated_witness :
  snd (evaluate_model toolkit 0 "model.pkl" (Some "y") [frame_aby]) !! 0 = Some frame_aby.
Proof.
  apply (caller_frame_is_never_mutated toolkit 0 "model.pkl" (Some "y") [frame_aby]).
  reflexivity.
Defined.

(** Claim C10: a target column name that is supplied (a non-empty name) but
    absent from the dataset never makes [evaluate_model] raise.  The call
    behaves as the call without a target does, on the same store: it raises
    exactly when that one raises (missing training columns, a failing
    [predict]); otherwise it returns the same predictions, records the name
    under [missing_target] in [column_info], and computes no metrics. *)
Theorem missing_target_is_tolerated K new_df path t (h : heap) d :
  let out := evaluate_model K new_df path (Some t) h in
  let plain := evaluate_model K new_df path None h in
  h !! new_df = Some d ->
  truthy t = true ->
  t ∉ labels d ->
  snd out = snd plain /\
  match fst plain with
  | inl e => fst out = inl e
  | inr r' =>
      exists r,
        fst out = inr r /\
        predictions r = predictions r' /\
        missing_target (column_info r) = Some t /\
        extra_columns_dropped (column_info r) = extra_columns_dropped (column_info r') /\
        used_columns (column_info r) = used_columns (column_info r') /\
        metrics r = None /\ actual r = None
  end.
Proof.
  intros out plain Hd Ht Hin. subst out plain.
  destruct (joblib_load K path) as [e|m] eqn:Hload.
  { unfold evaluate_model, bind, lift. rewrite Hload. done. }
  rewrite !(evaluate_model_run K new_df path _ h d m Hd Hload). cbv zeta.
  assert (Hp : target_present d (Some t) = None).
  { unfold target_present. rewrite Ht, (bool_decide_eq_false_2 _ Hin). done. }
  assert (Ha : target_absent d (Some t) = Some t).
  { unfold target_absent. rewrite Ht, (bool_decide_eq_false_2 _ Hin). done. }
  unfold features, ground_truth. rewrite Hp, Ha. simpl.
  destruct (training_columns m) as [training|].
  - destruct (nonempty (missing_columns training d)); [done|].
    destruct (predict m _) as [e|preds]; [done|]. simpl.
    split; [done|]. eexists. repeat split; done.
  - destruct (predict m d) as [e|preds]; [done|]. simpl.
    split; [done|]. eexists. repeat split; done.
Qed.

Lemma missing_target_is_tolerated_witness :
  let out := evaluate_model toolkit 0 "model.pkl" (Some "target") [frame_abc] in
  exists r,
    fst out = inr r /\
    predictions r = [CNum 1; CNum 1] /\
    missing_target (column_info r) = Some "target" /\
    extra_columns_dropped (column_info r) = Some ["c"] /\
    used_columns (column_info r) = Some ["a"; "b"] /\
    metrics r = None /\ actual r = None.
Proof.
  intros out.
  destruct (missing_target_is_tolerated toolkit 0 "model.pkl" "target"
              [frame_abc] frame_abc eq_refl eq_refl) as [_ H].
  - by_evaluation.
  - exact H.
Defined.

End EvaluationClaims.

(* ===================================================================== *)
(** * Properties of dataset resolution                                    *)
(* ===================================================================== *)

Module RoutesClaims.
Import Py Routes.




End RoutesClaims.

(* ===================================================================== *)
(** * Further properties of the insight generator                         *)
(* ===================================================================== *)

Module InsightFacts.
Import Py PyFacts World AiInsights AiInsightsFacts InsightShapes.

(** ** Lengths *)

Lemma length_app_string (a b : string) :
  String.length (a +:+ b) = String.length a + String.length b.
Proof.
  induction a as [|c a IH]; [reflexivity|].
  change (String c a +:+ b) with (String c (a +:+ b)). simpl. by rewrite IH.
Qed.

Lemma length_take n s : String.length (take n s) <= n.
Proof.
  revert s. induction n as [|n IH]; intros [|c s]; simpl; try lia.
  specialize (IH s). lia.
Qed.

Lemma length_take_le n s : String.length (take n s) <= String.length s.
Proof.
  revert s. induction n as [|n IH]; intros [|c s]; simpl; try lia.
  specialize (IH s). lia.
Qed.

Lemma length_lstrip s : String.length (lstrip s) <= String.length s.
Proof.
  induction s as [|c s IH]; simpl; [lia|]. destruct (is_space c); simpl; lia.
Qed.

Lemma length_rstrip s : String.length (rstrip s) <= String.length s.
Proof.
  induction s as [|c s IH]; simpl; [lia|].
  destruct (rstrip s); [destruct (is_space c)|]; simpl in *; lia.
Qed.

Lemma length_strip s : String.length (strip s) <= String.length s.
Proof.
  unfold strip. pose proof (length_rstrip (lstrip s)). pose proof (length_lstrip s). lia.
Qed.

(** A substitution whose replacement is at most one character long never
    lengthens the text: a match is never empty. *)
Lemma length_re_sub_from pat repl skip s :
  String.length repl <= 1 ->
  String.length (re_sub_from pat repl skip s) <= String.length s.
Proof.
  intros Hrepl. revert skip. induction s as [|c s IH]; intros skip; simpl; [lia|].
  destruct skip as [|k].
  - destruct (pat (String c s)) as [[|n]|].
    + simpl. specialize (IH 0). lia.
    + rewrite length_app_string. specialize (IH n). lia.
    + simpl. specialize (IH 0). lia.
  - specialize (IH k). lia.
Qed.

(** ** White space after [clean_response] *)

(** Skipping a run of white space is stripping it from the left. *)
Lemma re_sub_skip_spaces repl s :
  re_sub_from pat_spaces repl (span is_space s) s =
  re_sub_from pat_spaces repl 0 (lstrip s).
Proof.
  induction s as [|c s IH]; [reflexivity|]. simpl span. simpl lstrip.
  destruct (is_space c) eqn:Hc; [exact IH | reflexivity].
Qed.

Lemma collapse_space c s :
  is_space c = true ->
  re_sub pat_spaces " " (String c s) =
    String " "%char (re_sub pat_spaces " " (lstrip s)).
Proof.
  intros Hc. unfold re_sub. simpl re_sub_from. unfold pat_spaces at 1.
  simpl span. rewrite Hc. by rewrite re_sub_skip_spaces.
Qed.

Lemma collapse_other c s :
  is_space c = false ->
  re_sub pat_spaces " " (String c s) = String c (re_sub pat_spaces " " s).
Proof.
  intros Hc. unfold re_sub. simpl re_sub_from. unfold pat_spaces at 1.
  simpl span. by rewrite Hc.
Qed.

Lemma collapse_starts_clean s :
  starts_clean s -> starts_clean (re_sub pat_spaces " " s).
Proof.
  destruct s as [|c s]; [done|]. simpl. intros Hc.
  by rewrite collapse_other.
Qed.

Lemma spaced_collapse s : spaced true (re_sub pat_spaces " " s) = true.
Proof.
  remember (String.length s) as n eqn:Hn.
  revert s Hn. induction (lt_wf n) as [n _ IH]. intros s ->.
  destruct s as [|c s]; [reflexivity|].
  destruct (is_space c) eqn:Hc.
  - rewrite collapse_space by done.
    assert (Hrest : spaced true (re_sub pat_spaces " " (lstrip s)) = true).
    { apply (IH (String.length (lstrip s))); [|done].
      simpl. pose proof (length_lstrip s). lia. }
    pose proof (collapse_starts_clean _ (lstrip_starts_clean s)) as Hhead.
    change (spaced true (String " " ?r))
      with ((negb (is_space " "%char) ||
             (Ascii.eqb " "%char " "%char &&
              match r with
              | String d _ => negb (is_space d)
              | EmptyString => true
              end)) && spaced true r).
    rewrite Hrest.
    destruct (re_sub pat_spaces " " (lstrip s)) as [|d r]; [reflexivity|].
    simpl in Hhead. by rewrite Hhead.
  - rewrite collapse_other by done.
    change (spaced true (String c ?r))
      with ((negb (is_space c) ||
             (Ascii.eqb c " "%char &&
              match r with
              | String d _ => negb (is_space d)
              | EmptyString => true
              end)) && spaced true r).
    rewrite Hc. simpl. apply (IH (String.length s)); [simpl; lia | done].
Qed.

Lemma spaced_tail at_end c s : spaced at_end (String c s) = true -> spaced at_end s = true.
Proof. simpl. by intros [_ ?]%andb_true_iff. Qed.

Lemma spaced_lstrip at_end s : spaced at_end s = true -> spaced at_end (lstrip s) = true.
Proof.
  induction s as [|c s IH]; [done|]. intros H. simpl lstrip.
  destruct (is_space c); [|exact H]. by apply IH, (spaced_tail _ c).
Qed.

Lemma rstrip_head c s :
  is_space c = false -> exists r, rstrip (String c s) = String c r.
Proof.
  intros Hc. simpl. destruct (rstrip s); [rewrite Hc|]; eauto.
Qed.

(** Trimming on the right turns "may end in one space" into "does not". *)
Lemma spaced_rstrip s : spaced true s = true -> spaced false (rstrip s) = true.
Proof.
  induction s as [|c s IH]; [done|]. intros H.
  pose proof (IH (spaced_tail _ _ _ H)) as IH'.
  simpl rstrip. destruct (rstrip s) as [|d r] eqn:Hr.
  - destruct (is_space c) eqn:Hc; [done|]. simpl. by rewrite Hc.
  - change (spaced false (String c (String d r)))
      with ((negb (is_space c) ||
             (Ascii.eqb c " "%char && negb (is_space d))) &&
            spaced false (String d r)).
    rewrite IH', andb_true_r.
    destruct (is_space c) eqn:Hc; [|done]. simpl.
    simpl in H. rewrite Hc in H. simpl in H.
    apply andb_true_iff in H as [H _]. apply andb_true_iff in H as [Heq Hnext].
    rewrite Heq. simpl.
    destruct s as [|d0 s0]; [discriminate|].
    destruct (rstrip_head d0 s0) as [r0 Hr0];
      [by apply negb_true_iff in Hnext|].
    rewrite Hr0 in Hr. injection Hr as -> _. exact Hnext.
Qed.

(** ** The effect of one call on the world *)

Lemma call_backend_effect E model_choice p w :
  cache_files (snd (call_backend E model_choice p w)) = cache_files w /\
  stage_log (snd (call_backend E model_choice p w)) = stage_log w /\
  exists rest,
    chat_log (snd (call_backend E model_choice p w)) =
      (chat_log w ++ (model_choice, p) :: rest)%list.
Proof.
  unfold call_backend, try_except, bind, chat, ret, raise.
  destruct (ollama_chat E (chat_log w) model_choice p) as [e|r]; simpl.
  - destruct (contains _ (str_of_exn e)); simpl.
    + destruct (ollama_chat E _ "mistral" p); simpl;
        (repeat split; [exists [("mistral", p)]; by rewrite <- app_assoc]).
    + destruct (String.eqb (lower model_choice) "gpt-4"); simpl.
      * destruct (ollama_chat E _ "mistral" p); simpl;
          (repeat split; [exists [("mistral", p)]; by rewrite <- app_assoc]).
      * repeat split. by exists [].
  - repeat split. by exists [].
Qed.

(** What [generate] returns is trimmed, and it is written to [cf] exactly
    when it is non-empty and the file can be opened; nothing else is
    written. *)
Lemma generate_effect E cf model_choice p w :
  let out := generate E cf model_choice p w in
  stage_log (snd out) = stage_log w /\
  (exists rest, chat_log (snd out) = (chat_log w ++ (model_choice, p) :: rest)%list) /\
  match fst out with
  | inr s =>
      strip s = s /\
      cache_files (snd out) =
        if truthy s && writable E cf
        then <[cf := Some (VDict [("insights", VStr s)])]> (cache_files w)
        else cache_files w
  | inl _ => cache_files (snd out) = cache_files w
  end.
Proof.
  cbv zeta. unfold generate, bind, lift, ret.
  pose proof (call_backend_effect E model_choice p w) as (Hc & Hs & Hl).
  destruct (call_backend E model_choice p w) as [[e|[response mc']] w1];
    simpl in Hc, Hs, Hl; [by simpl|].
  destruct (extract_insights response) as [e|v]; [by simpl|].
  destruct v as [| |x| |]; simpl strip_value; cbv beta iota; try by simpl.
  unfold save_cache.
  destruct (truthy (strip x)) eqn:Ht, (writable E cf) eqn:Hw; simpl;
    rewrite ?Hc, ?Ht; simpl;
    (split; [done|split; [done|split; [apply strip_idempotent|done]]]).
Qed.

Lemma consult_cache_effect cf force clear w :
  let out := consult_cache cf force clear w in
  chat_log (snd out) = chat_log w /\
  stage_log (snd out) = stage_log w /\
  cache_files (snd out) =
    (if (force || clear) then delete cf (cache_files w) else cache_files w) /\
  fst out =
    inr (if negb force then
           match cache_files (snd out) !! cf with
           | Some content => read_cached content
           | None => None
           end
         else None).
Proof.
  unfold consult_cache, bind, modify, gets. simpl.
  destruct (force || clear); simpl; [|done].
  destruct (bool_decide (is_Some (cache_files w !! cf))) eqn:Hb; simpl; [done|].
  apply bool_decide_eq_false in Hb. apply eq_None_not_Some in Hb.
  repeat split. by rewrite delete_id.
Qed.

Lemma read_cached_sound content s :
  read_cached content = Some s -> truthy s = true /\ strip s = s.
Proof.
  unfold read_cached. destruct content as [[| | |d|]|]; try done.
  destruct (assoc "insights" d) as [[| |x| |]|]; try done.
  cbv zeta. destruct (truthy (strip x)) eqn:Ht; [|done].
  intros [= <-]. split; [done | apply strip_idempotent].
Qed.

Lemma read_cached_written s :
  truthy s = true -> strip s = s ->
  read_cached (Some (VDict [("insights", VStr s)])) = Some s.
Proof.
  intros Ht Hs. unfold read_cached.
  change (assoc "insights" [("insights", VStr s)]) with (Some (VStr s)).
  cbv beta iota zeta. by rewrite Hs, Ht.
Qed.

(** A call that returns has passed both guards. *)
Lemma returns_means_admitted E eda ms model_choice ct force cot mt clear w s :
  fst (generate_ai_insights E eda ms model_choice ct force cot mt clear w) = inr s ->
  model_choice ∈ AVAILABLE_MODELS /\ is_model_available E model_choice = true.
Proof.
  unfold generate_ai_insights.
  destruct (bool_decide (model_choice ∈ AVAILABLE_MODELS)) eqn:Hin; [|done].
  destruct (is_model_available E model_choice); [|done].
  intros _. split; [by apply bool_decide_eq_true in Hin | done].
Qed.

(** Both guards raise before anything else happens. *)
Lemma generate_ai_insights_rejected E eda ms model_choice ct force cot mt clear w :
  model_choice ∉ AVAILABLE_MODELS \/ is_model_available E model_choice = false ->
  exists msg,
    generate_ai_insights E eda ms model_choice ct force cot mt clear w =
      (inl (ValueError msg), w) /\
    contains model_choice msg = true.
Proof.
  intros Hbad. unfold generate_ai_insights.
  destruct (bool_decide (model_choice ∈ AVAILABLE_MODELS)) eqn:Hin.
  - destruct Hbad as [Hout|Havail];
      [by apply bool_decide_eq_true in Hin|].
    rewrite Havail. simpl. eexists. split; [reflexivity|].
    apply contains_app_r, contains_app_l, contains_prefix, prefix_refl.
  - simpl. eexists. split; [reflexivity|].
    apply contains_app_r, contains_app_l, contains_prefix, prefix_refl.
Qed.

End InsightFacts.

Module InsightProperties.
Import Py PyFacts World AiInsights AiInsightsFacts InsightShapes InsightFacts Examples.

Local Opaque build_prompt get_cache_filename.

Lemma consult_cache_plain cf w :
  consult_cache cf false false w =
    (inr match cache_files w !! cf with
         | Some content => read_cached content
         | None => None
         end, w).
Proof. reflexivity. Qed.

(** X1: a call that returned non-empty text, with a writable cache, makes
    the next call for the same summaries and model (no forced
    regeneration, no cache clearing) return the same text from the cache:
    the world does not change, so no backend call is made. *)
Theorem repeated_call_is_served_from_cache
        E eda ms model_choice ct force cot mt clear w s :
  let cf := get_cache_filename E (build_prompt eda ms ct cot) model_choice in
  let out := generate_ai_insights E eda ms model_choice ct force cot mt clear w in
  fst out = inr s ->
  truthy s = true ->
  writable E cf = true ->
  generate_ai_insights E eda ms model_choice ct false cot mt false (snd out) =
    (inr s, snd out).
Proof.
  intros cf out Hout Hs Hw.
  destruct (returns_means_admitted _ _ _ _ _ _ _ _ _ _ _ Hout) as [Hin Havail].
  rewrite generate_ai_insights_past_guards by done. fold cf.
  rewrite consult_cache_plain.
  enough (Hhit : match cache_files (snd out) !! cf with
                 | Some content => read_cached content
                 | None => None
                 end = Some s) by (by rewrite Hhit).
  subst out. revert Hout.
  rewrite generate_ai_insights_past_guards by done. fold cf.
  pose proof (consult_cache_effect cf force clear w) as (_ & _ & _ & Hr).
  destruct (consult_cache cf force clear w) as [r1 w1]. simpl in Hr. subst r1.
  destruct (negb force).
  - destruct (cache_files w1 !! cf) as [content|] eqn:Hcf.
    + destruct (read_cached content) as [c|] eqn:Hrc.
      * simpl. intros [= ->]. by rewrite Hcf.
      * pose proof (generate_effect E cf model_choice
                      (build_prompt eda ms ct cot) w1) as (_ & _ & Hg).
        intros Hout. rewrite Hout in Hg. destruct Hg as [Hstrip ->].
        rewrite Hs, Hw. simpl. rewrite lookup_insert_eq.
        by apply read_cached_written.
    + pose proof (generate_effect E cf model_choice
                    (build_prompt eda ms ct cot) w1) as (_ & _ & Hg).
      intros Hout. rewrite Hout in Hg. destruct Hg as [Hstrip ->].
      rewrite Hs, Hw. simpl. rewrite lookup_insert_eq.
      by apply read_cached_written.
  - pose proof (generate_effect E cf model_choice
                  (build_prompt eda ms ct cot) w1) as (_ & _ & Hg).
    intros Hout. rewrite Hout in Hg. destruct Hg as [Hstrip ->].
    rewrite Hs, Hw. simpl. rewrite lookup_insert_eq.
    by apply read_cached_written.
Qed.

Lemma repeated_call_is_served_from_cache_witness :
  let E := backend_says (VDict [("response", VStr "  Sales peak in Q4.  ")]) in
  let out := generate_ai_insights E "eda" "training" "mistral"
               1500 true false 512 false empty_world in
  generate_ai_insights E "eda" "training" "mistral" 1500 false false 512 false (snd out) =
    (inr "Sales peak in Q4.", snd out) /\
  List.length (chat_log (snd out)) = 1.
Proof.
  intros E out. split; [|reflexivity].
  apply (repeated_call_is_served_from_cache E "eda" "training" "mistral"
           1500 true false 512 false empty_world "Sales peak in Q4.");
    reflexivity.
Defined.



(** X3: a model outside the allow-list, or one that [ollama list] does not
    show, makes [generate_ai_insights] raise a [ValueError] and leaves the
    world as it was: no backend call, no fallback to another model, and no
    cache file removed even when [force_regenerate] or [clear_cache] is
    set. *)
Theorem rejected_model_leaves_world_untouched
        E eda ms model_choice ct force cot mt clear w :
  model_choice ∉ AVAILABLE_MODELS \/ is_model_available E model_choice = false ->
  exists msg,
    generate_ai_insights E eda ms model_choice ct force cot mt clear w =
      (inl (ValueError msg), w) /\
    contains model_choice msg = true.
Proof.
  apply generate_ai_insights_rejected.
Qed.

Lemma rejected_model_leaves_world_untouched_witness :
  exists msg,
    generate_ai_insights backend_down "eda" EmptyString "gemma2"
      1500 true false 512 true empty_world = (inl (ValueError msg), empty_world) /\
    contains "gemma2" msg = true.
Proof.
  apply (rejected_model_leaves_world_untouched backend_down "eda" EmptyString
           "gemma2" 1500 true false 512 true empty_world).
  right. reflexivity.
Defined.

(** X4: for a requested model other than gpt-4, a backend failure that does
    not report insufficient memory reaches the caller as it is, after that
    one call: there is no retry and no fallback. *)
Theorem other_failures_are_not_retried
        E eda ms model_choice ct force cot mt clear w e :
  let p := build_prompt eda ms ct cot in
  let cf := get_cache_filename E p model_choice in
  let out := generate_ai_insights E eda ms model_choice ct force cot mt clear w in
  model_choice ∈ AVAILABLE_MODELS ->
  model_choice <> "gpt-4" ->
  is_model_available E model_choice = true ->
  fst (consult_cache cf force clear w) = inr None ->
  ollama_chat E (chat_log w) model_choice p = inl e ->
  contains "requires more system memory" (str_of_exn e) = false ->
  fst out = inl e /\
  chat_log (snd out) = (chat_log w ++ [(model_choice, p)])%list.
Proof.
  intros p cf out Hin Hne Havail Hmiss Hchat Hmem. subst out.
  rewrite generate_ai_insights_past_guards by done. fold p. fold cf.
  pose proof (consult_cache_chat_log cf force clear w) as Hlog.
  destruct (consult_cache cf force clear w) as [[e0|o] w1];
    simpl in Hmiss, Hlog; [discriminate|].
  injection Hmiss as ->. rewrite <- Hlog in Hchat |- *.
  assert (Hlow : String.eqb (lower model_choice) "gpt-4" = false).
  { unfold AVAILABLE_MODELS in Hin.
    repeat (apply elem_of_cons in Hin as [->|Hin]; [try reflexivity; done|]).
    by apply elem_of_nil in Hin. }
  unfold generate, call_backend, try_except, chat, bind, ret, raise.
  rewrite Hchat, Hmem, Hlow. done.
Qed.

Lemma other_failures_are_not_retried_witness :
  let p := build_prompt "eda" EmptyString 1500 false in
  let out := generate_ai_insights backend_down "eda" EmptyString "llama2"
               1500 true false 512 false empty_world in
  fst out = inl boom /\ chat_log (snd out) = [("llama2", p)].
Proof.
  apply (other_failures_are_not_retried backend_down "eda" EmptyString "llama2"
           1500 true false 512 false empty_world boom); try reflexivity.
  - unfold AVAILABLE_MODELS. set_solver.
  - discriminate.
Defined.

(** X5: [generate_ai_insights] keeps the cache sound.  If every cache file
    holds a dict with one non-empty, trimmed text under "insights", the same
    is true after any call, whatever its arguments and outcome: empty text
    is never written, and what is written is trimmed. *)
Theorem cache_stays_sound E eda ms model_choice ct force cot mt clear w :
  let out := generate_ai_insights E eda ms model_choice ct force cot mt clear w in
  (forall k c, cache_files w !! k = Some c -> sound_entry c) ->
  forall k c, cache_files (snd out) !! k = Some c -> sound_entry c.
Proof.
  intros out Hsound k c. subst out.
  destruct (decide (model_choice ∈ AVAILABLE_MODELS)) as [Hin|Hout];
    [destruct (is_model_available E model_choice) eqn:Havail|].
  - rewrite generate_ai_insights_past_guards by done.
    set (p := build_prompt eda ms ct cot).
    set (cf := get_cache_filename E p model_choice).
    pose proof (consult_cache_effect cf force clear w) as (_ & _ & Hc & _).
    destruct (consult_cache cf force clear w) as [[e|[hit|]] w1]; simpl in Hc.
    + simpl. rewrite Hc. destruct (force || clear); [|by apply Hsound].
      intros [_ H]%lookup_delete_Some. by apply (Hsound k).
    + simpl. rewrite Hc. destruct (force || clear); [|by apply Hsound].
      intros [_ H]%lookup_delete_Some. by apply (Hsound k).
    + assert (Hw1 : forall c', cache_files w1 !! k = Some c' -> sound_entry c').
      { intros c'. rewrite Hc. destruct (force || clear); [|by apply Hsound].
        intros [_ H]%lookup_delete_Some. by apply (Hsound k). }
      pose proof (generate_effect E cf model_choice p w1) as (_ & _ & Hg).
      destruct (fst (generate E cf model_choice p w1)) as [e|s].
      * rewrite Hg. apply Hw1.
      * destruct Hg as [Hstrip ->].
        destruct (truthy s) eqn:Ht; simpl; [|apply Hw1].
        destruct (writable E cf); [|apply Hw1].
        intros [[_ <-]|[_ H]]%lookup_insert_Some; [|by apply Hw1].
        by exists s.
  - unfold generate_ai_insights.
    rewrite (bool_decide_eq_true_2 _ Hin), Havail. simpl. by apply Hsound.
  - unfold generate_ai_insights.
    rewrite (bool_decide_eq_false_2 _ Hout). simpl. by apply Hsound.
Qed.

Lemma cache_stays_sound_witness :
  let E := backend_says (VDict [("response", VStr "   ")]) in
  let out := generate_ai_insights E "eda" EmptyString "mistral"
               1500 false false 512 false empty_world in
  fst out = inr EmptyString /\
  forall k c, cache_files (snd out) !! k = Some c -> sound_entry c.
Proof.
  intros E out. split; [reflexivity|].
  apply (cache_stays_sound E "eda" EmptyString "mistral"
           1500 false false 512 false empty_world).
  intros k c H.
  change (cache_files empty_world) with (∅ : gmap string (option pyval)) in H.
  by rewrite lookup_empty in H.
Defined.

(** X6: the text [generate_ai_insights] returns, from the cache or from the
    backend in any response shape, has no white space at either end. *)
Theorem returned_insights_are_trimmed
        E eda ms model_choice ct force cot mt clear w s :
  fst (generate_ai_insights E eda ms model_choice ct force cot mt clear w) = inr s ->
  strip s = s.
Proof.
  intros Hout.
  destruct (returns_means_admitted _ _ _ _ _ _ _ _ _ _ _ Hout) as [Hin Havail].
  revert Hout. rewrite generate_ai_insights_past_guards by done.
  set (p := build_prompt eda ms ct cot).
  set (cf := get_cache_filename E p model_choice).
  pose proof (consult_cache_effect cf force clear w) as (_ & _ & _ & Hr).
  destruct (consult_cache cf force clear w) as [r1 w1]. simpl in Hr. subst r1.
  assert (Hgen : fst (generate E cf model_choice p w1) = inr s -> strip s = s).
  { pose proof (generate_effect E cf model_choice p w1) as (_ & _ & Hg).
    intros Hout. rewrite Hout in Hg. by destruct Hg. }
  destruct (negb force); [|exact Hgen].
  destruct (cache_files w1 !! cf) as [content|]; [|exact Hgen].
  destruct (read_cached content) as [c|] eqn:Hrc; [|exact Hgen].
  simpl. intros [= ->]. by destruct (read_cached_sound _ _ Hrc).
Qed.

Lemma returned_insights_are_trimmed_witness :
  strip noisy_text = noisy_text.
Proof.
  apply (returned_insights_are_trimmed
           (backend_says (VObj [("message", VObj [("content", VStr noisy_text)])]))
           "eda" EmptyString "mistral" 1500 false false 512 false empty_world).
  reflexivity.
Defined.

Local Transparent build_prompt.

(** X7: for a non-negative [chunk_threshold] the prompt is never longer
    than the threshold plus the fixed text around the summaries: 316
    characters, or 400 when the chain-of-thought sentence is requested,
    however long the two summaries are. *)
Theorem prompt_length_is_bounded eda ms ct cot :
  (0 <= ct)%Z ->
  String.length (build_prompt eda ms ct cot) <=
    Z.to_nat ct + (if cot then 400 else 316).
Proof.
  intros Hct. unfold build_prompt.
  set (combined := "EDA Summary:" +:+ nl +:+ eda +:+ nl +:+ nl +:+
                   "Model Training Summary:" +:+ nl +:+ ms +:+ nl +:+ nl).
  cbv zeta.
  set (shown := if (ct <? Z.of_nat (String.length combined))%Z
                then slice_to combined ct +:+ nl +:+ nl +:+
                     "[TRUNCATED FOR LENGTH]" +:+ nl
                else combined).
  assert (Hshown : String.length shown <= Z.to_nat ct + 25).
  { subst shown. destruct (ct <? Z.of_nat (String.length combined))%Z eqn:Hlt.
    - rewrite !length_app_string. unfold slice_to.
      rewrite (proj2 (Z.leb_le 0 ct) Hct).
      pose proof (length_take (Z.to_nat ct) combined). simpl. lia.
    - apply Z.ltb_ge in Hlt. lia. }
  rewrite !length_app_string. destruct cot; simpl; lia.
Qed.

Lemma prompt_length_is_bounded_witness :
  String.length
    (build_prompt "a very long exploratory report" "and a long training table" 10 true)
    <= 410.
Proof.
  apply (prompt_length_is_bounded "a very long exploratory report"
           "and a long training table" 10 true). lia.
Defined.

(** X8: what [clean_response] returns has no white space at its start, and
    every white-space character in it is a plain space followed by a
    character that is not white space: no tabs or line breaks are left, no
    two spaces in a row, none at the end. *)
Theorem clean_response_spaces_are_single raw :
  starts_clean (clean_response raw) /\
  spaces_are_single (clean_response raw) = true.
Proof.
  unfold clean_response. cbv zeta. unfold strip. split.
  - apply rstrip_starts_clean, lstrip_starts_clean.
  - apply spaced_rstrip, spaced_lstrip, spaced_collapse.
Qed.

(** X9: [clean_response] never returns more characters than it was given. *)
Theorem clean_response_never_lengthens raw :
  String.length (clean_response raw) <= String.length raw.
Proof.
  unfold clean_response. cbv zeta.
  etransitivity; [apply length_strip|].
  etransitivity; [apply length_re_sub_from; simpl; lia|].
  etransitivity; [apply length_re_sub_from; simpl; lia|].
  apply length_re_sub_from. simpl. lia.
Qed.

End InsightProperties.

(* ===================================================================== *)
(** * Further properties of the orchestrator                              *)
(* ===================================================================== *)

Module OrchestratorProperties.
Import Py World Frame Orchestrator OrchestratorFacts OrchestratorShapes.
Import AiInsights InsightFacts Examples MoreExamples.

Local Opaque generate_ai_insights.

(** [decide_next_steps] in the tuning branch: retrieval, then the insight
    generator on gpt-4 with forced regeneration and chain-of-thought. *)
Lemma decide_next_steps_tuning self S E data target w report rows :
  generate_eda S data = inr report ->
  train_and_evaluate_models S data target = inr rows ->
  Qltb 0.85 (eda_quality_threshold self) = false ->
  let best_r2 := py_max (map (fun r => row_get r "R2" (FNum 0)) rows) (FNum 0.0) in
  let thr := model_performance_threshold self in
  float_lt best_r2 (FNum thr) = true ->
  let w2 := log_stage StageRetrieval (after_training w) in
  decide_next_steps self S E data target w =
    match retrieve_context S "Ways to improve regression R2 score" 2 with
    | inl _ =>
        (inr (<["ai_insights" := DStr no_insights]>
                (needs_tuning report rows best_r2 thr)), w2)
    | inr domain_context =>
        let g := generate_ai_insights E
                   (tuning_eda_summary report domain_context) tuning_model_summary
                   "gpt-4" 1500 true true 512 false (log_stage StageInsights w2) in
        (inr (<["ai_insights" :=
                DStr match fst g with inr text => text | inl _ => no_insights end]>
                (needs_tuning report rows best_r2 thr)), snd g)
    end.
Proof.
  intros Heda Htrain Hgate best_r2 thr Hperf w2.
  unfold decide_next_steps, attempt, call_stage, try_except, bind, modify, lift, ret.
  rewrite Heda. cbv beta iota. rewrite Hgate. cbv beta iota.
  rewrite Htrain. cbv beta iota zeta. fold best_r2. fold thr. rewrite Hperf.
  destruct (retrieve_context S _ _) as [e|ctx]; cbv beta iota zeta; [reflexivity|].
  fold (tuning_eda_summary report ctx). fold tuning_model_summary.
  fold (after_training w). fold w2.
  destruct (generate_ai_insights _ _ _ _ _ _ _ _ _ _) as [[e|text] w3]; reflexivity.
Qed.

(** X10: when EDA succeeds, the quality gate is passed and the training
    stage raises, [decide_next_steps] returns exactly
    [{"error": "Model training failed", "details": str(e)}]: no
    [next_action], no [eda_report]; the call has invoked the EDA and
    training stages only and has touched neither the backend nor the
    cache. *)
Theorem training_failure_short_circuits self S E data target w report e :
  let out := decide_next_steps self S E data target w in
  generate_eda S data = inr report ->
  (eda_quality_threshold self <= 0.85)%Q ->
  train_and_evaluate_models S data target = inl e ->
  fst out = inr {[ "error" := DStr "Model training failed";
                   "details" := DStr (str_of_exn e) ]} /\
  (forall d, fst out = inr d -> d !! "next_action" = None /\ d !! "eda_report" = None) /\
  stage_log (snd out) = (stage_log w ++ [StageEDA; StageTraining])%list /\
  chat_log (snd out) = chat_log w /\
  cache_files (snd out) = cache_files w.
Proof.
  intros out Heda Hgate Htrain. apply Qltb_false in Hgate.
  assert (Hout : out =
    (inr {[ "error" := DStr "Model training failed";
            "details" := DStr (str_of_exn e) ]}, after_training w)).
  { subst out.
    unfold decide_next_steps, attempt, call_stage, try_except, bind, modify, lift, ret.
    rewrite Heda. cbv beta iota. rewrite Hgate. cbv beta iota. by rewrite Htrain. }
  rewrite Hout. simpl. repeat split.
  - injection H as <-. by vm_compute.
  - injection H as <-. by vm_compute.
  - by rewrite <- app_assoc.
Qed.

Lemma training_failure_short_circuits_witness :
  let S := mkStages (fun _ => inr "report")
             (fun _ _ => inl (ValueError "Target column 'target' not found."))
             (fun _ _ => inr EmptyString) in
  let out := decide_next_steps init S backend_down [] "target" empty_world in
  fst out = inr {[ "error" := DStr "Model training failed";
                   "details" := DStr "Target column 'target' not found." ]} /\
  stage_log (snd out) = [StageEDA; StageTraining].
Proof.
  intros S out.
  destruct (training_failure_short_circuits init S backend_down [] "target"
              empty_world "report" (ValueError "Target column 'target' not found.")
              eq_refl) as (H1 & _ & H2 & _); [by vm_compute | reflexivity |].
  split; [exact H1 | exact H2].
Defined.

(** X11: [decide_next_steps] never raises, for any thresholds and whatever
    the stages, the retrieval and the backend do.  The decision it returns
    is either a failure ([error] and [details], no [next_action]) or a
    success ([next_action], [reason] and [eda_report], no [error]), never
    both. *)
Theorem decision_is_failure_or_success self S E data target w :
  exists d,
    fst (decide_next_steps self S E data target w) = inr d /\
    (failed_decision d \/ successful_decision d) /\
    ~ (failed_decision d /\ successful_decision d).
Proof.
  assert (Hboth : forall d, ~ (failed_decision d /\ successful_decision d)).
  { intros d [(_ & _ & Hno) (_ & [x Hx] & _)]. congruence. }
  unfold decide_next_steps, attempt, call_stage, try_except, bind, modify, lift, ret.
  destruct (generate_eda S data) as [e|report]; cbv beta iota.
  { eexists. split; [reflexivity|]. split; [|apply Hboth]. left.
    unfold failed_decision. repeat split; try (eexists; by vm_compute). }
  destruct (Qltb 0.85 (eda_quality_threshold self)); cbv beta iota zeta.
  { eexists. split; [reflexivity|]. split; [|apply Hboth]. right.
    unfold successful_decision. repeat split; try (eexists; by simplify_map_eq). }
  destruct (train_and_evaluate_models S data target) as [e|rows]; cbv beta iota zeta.
  { eexists. split; [reflexivity|]. split; [|apply Hboth]. left.
    unfold failed_decision. repeat split; try (eexists; by vm_compute). }
  destruct (float_lt _ _).
  - destruct (retrieve_context S _ _) as [e|ctx]; cbv beta iota zeta.
    + eexists. split; [reflexivity|]. split; [|apply Hboth]. right.
      unfold successful_decision. repeat split; try (eexists; by simplify_map_eq).
    + destruct (generate_ai_insights _ _ _ _ _ _ _ _ _ _) as [[e|text] w3];
        (eexists; split; [reflexivity|]; split; [|apply Hboth]; right;
         unfold successful_decision; repeat split;
         try (eexists; by simplify_map_eq)).
  - eexists. split; [reflexivity|]. split; [|apply Hboth]. right.
    unfold successful_decision. repeat split; try (eexists; by simplify_map_eq).
Qed.

(** X12: an agent whose [eda_quality_threshold] is set above the fixed
    data-quality score 0.85 stops after a successful EDA: the decision is
    the EDA report with [next_action] "Perform advanced feature
    engineering." and the reason quoting score and threshold, and no other
    stage is invoked. *)
Theorem low_quality_stops_before_training self S E data target w report :
  generate_eda S data = inr report ->
  (0.85 < eda_quality_threshold self)%Q ->
  decide_next_steps self S E data target w =
    (inr (needs_feature_engineering report (eda_quality_threshold self)),
     log_stage StageEDA w).
Proof.
  intros Heda Hgate. apply Qltb_true in Hgate.
  unfold decide_next_steps, attempt, call_stage, try_except, bind, modify, lift, ret.
  rewrite Heda. cbv beta iota. by rewrite Hgate.
Qed.

Lemma low_quality_stops_before_training_witness :
  let S := mkStages (fun _ => inr "report") (fun _ _ => inr []) (fun _ _ => inr EmptyString) in
  let out := decide_next_steps (mkAgent 0.9%Q 0.75%Q) S backend_down [] "target" empty_world in
  fst out = inr (needs_feature_engineering "report" 0.9%Q) /\
  stage_log (snd out) = [StageEDA].
Proof.
  intros S out.
  pose proof (low_quality_stops_before_training (mkAgent 0.9%Q 0.75%Q) S
                backend_down [] "target" empty_world "report" eq_refl) as H.
  subst out. rewrite H by (by vm_compute). split; reflexivity.
Defined.

(** X13: in the tuning branch the insight generator is asked for gpt-4 with
    forced regeneration and chain-of-thought, on the EDA report extended
    with the retrieved context.  Its text becomes [ai_insights]; if it
    raises, or if retrieval raises (and then the generator is not invoked
    at all), [ai_insights] is the fixed placeholder and the decision is
    otherwise the same. *)
Theorem insights_degrade_to_placeholder self S E data target w report rows :
  let best_r2 := py_max (map (fun r => row_get r "R2" (FNum 0)) rows) (FNum 0.0) in
  let thr := model_performance_threshold self in
  let out := decide_next_steps self S E data target w in
  let w2 := log_stage StageRetrieval (after_training w) in
  generate_eda S data = inr report ->
  train_and_evaluate_models S data target = inr rows ->
  (eda_quality_threshold self <= 0.85)%Q ->
  float_lt best_r2 (FNum thr) = true ->
  (forall e,
      retrieve_context S "Ways to improve regression R2 score" 2 = inl e ->
      out = (inr (<["ai_insights" := DStr no_insights]>
                    (needs_tuning report rows best_r2 thr)), w2)) /\
  (forall domain_context,
      retrieve_context S "Ways to improve regression R2 score" 2 = inr domain_context ->
      let g := generate_ai_insights E
                 (tuning_eda_summary report domain_context) tuning_model_summary
                 "gpt-4" 1500 true true 512 false (log_stage StageInsights w2) in
      snd out = snd g /\
      fst out =
        inr (<["ai_insights" :=
               DStr match fst g with inr text => text | inl _ => no_insights end]>
               (needs_tuning report rows best_r2 thr))).
Proof.
  intros best_r2 thr out w2 Heda Htrain Hgate Hperf.
  apply Qltb_false in Hgate.
  pose proof (decide_next_steps_tuning self S E data target w report rows
                Heda Htrain Hgate Hperf) as Hrun.
  fold best_r2 thr out w2 in Hrun.
  split.
  - intros e He. by rewrite He in Hrun.
  - intros ctx Hctx g. rewrite Hctx in Hrun. fold g in Hrun. by rewrite Hrun.
Qed.

Lemma insights_degrade_to_placeholder_witness :
  let S := mkStages (fun _ => inr "report")
             (fun _ _ => inr [mkRow "LinearRegression" {[ "R2" := FNum 0.7 ]}])
             (fun _ _ => inl (Exn "RuntimeError" "index unreadable")) in
  let out := decide_next_steps init S backend_down [] "target" empty_world in
  out = (inr (<["ai_insights" := DStr no_insights]>
                (needs_tuning "report" [mkRow "LinearRegression" {[ "R2" := FNum 0.7 ]}]
                   (FNum 0.7) 0.75%Q)),
         log_stage StageRetrieval (after_training empty_world)).
Proof.
  intros S out.
  destruct (insights_degrade_to_placeholder init S backend_down [] "target"
              empty_world "report" [mkRow "LinearRegression" {[ "R2" := FNum 0.7 ]}]
              eq_refl eq_refl) as [H _]; [by vm_compute | by vm_compute |].
  exact (H _ eq_refl).
Defined.

Local Transparent generate_ai_insights.

(** X14: the tuning branch always asks for gpt-4, so when [ollama list]
    does not show gpt-4 the decision carries the placeholder instead of
    insights and the backend is never called, whichever other models are
    installed. *)
Theorem tuning_without_gpt4_gives_placeholder self S E data target w report rows :
  let best_r2 := py_max (map (fun r => row_get r "R2" (FNum 0)) rows) (FNum 0.0) in
  let thr := model_performance_threshold self in
  let out := decide_next_steps self S E data target w in
  generate_eda S data = inr report ->
  train_and_evaluate_models S data target = inr rows ->
  (eda_quality_threshold self <= 0.85)%Q ->
  float_lt best_r2 (FNum thr) = true ->
  is_model_available E "gpt-4" = false ->
  fst out = inr (<["ai_insights" := DStr no_insights]>
                   (needs_tuning report rows best_r2 thr)) /\
  chat_log (snd out) = chat_log w /\
  cache_files (snd out) = cache_files w.
Proof.
  intros best_r2 thr out Heda Htrain Hgate Hperf Hno.
  apply Qltb_false in Hgate.
  pose proof (decide_next_steps_tuning self S E data target w report rows
                Heda Htrain Hgate Hperf) as Hrun.
  fold best_r2 thr out in Hrun. cbv zeta in Hrun.
  destruct (retrieve_context S _ _) as [e|ctx]; [by rewrite Hrun|].
  destruct (generate_ai_insights_rejected E
              (tuning_eda_summary report ctx) tuning_model_summary "gpt-4"
              1500 true true 512 false
              (log_stage StageInsights (log_stage StageRetrieval (after_training w)))
              (or_intror Hno)) as (msg & Hg & _).
  rewrite Hg in Hrun. by rewrite Hrun.
Qed.

Lemma tuning_without_gpt4_gives_placeholder_witness :
  let S := mkStages (fun _ => inr "report")
             (fun _ _ => inr [mkRow "LinearRegression" {[ "R2" := FNum 0.7 ]}])
             (fun _ _ => inr "Try gradient boosting.") in
  let out := decide_next_steps init S only_mistral [] "target" empty_world in
  fst out = inr (<["ai_insights" := DStr no_insights]>
                   (needs_tuning "report" [mkRow "LinearRegression" {[ "R2" := FNum 0.7 ]}]
                      (FNum 0.7) 0.75%Q)) /\
  chat_log (snd out) = [] /\
  cache_files (snd out) = ∅.
Proof.
  intros S.
  apply (tuning_without_gpt4_gives_placeholder init S only_mistral [] "target"
           empty_world "report" [mkRow "LinearRegression" {[ "R2" := FNum 0.7 ]}]
           eq_refl eq_refl); by vm_compute.
Defined.

End OrchestratorProperties.

(* ===================================================================== *)
(** * Properties of chunking and retrieval                                *)
(* ===================================================================== *)

Module RetrievalFacts.
Import Py PyFacts Retrieval.

(** ** [take] and [drop] on strings *)

Lemma length_string_take n s :
  String.length (take n s) = Nat.min n (String.length s).
Proof.
  revert s. induction n as [|n IH]; intros [|c s]; simpl; try reflexivity.
  by rewrite IH.
Qed.

Lemma length_string_drop n s :
  String.length (Py.drop n s) = String.length s - n.
Proof.
  revert s. induction n as [|n IH]; intros [|c s]; simpl; try reflexivity.
  apply IH.
Qed.

Lemma take_all n s : String.length s <= n -> take n s = s.
Proof.
  revert s. induction n as [|n IH]; intros [|c s]; simpl; try reflexivity; try lia.
  intros H. rewrite IH by lia. reflexivity.
Qed.

Lemma drop_all n s : String.length s <= n -> Py.drop n s = EmptyString.
Proof.
  revert s. induction n as [|n IH]; intros [|c s]; simpl; try reflexivity; try lia.
  intros H. apply IH. lia.
Qed.

Lemma take_nil n : take n EmptyString = EmptyString.
Proof. by destruct n. Qed.

Lemma drop_nil n : Py.drop n EmptyString = EmptyString.
Proof. by destruct n. Qed.

Lemma drop_drop n m s : Py.drop n (Py.drop m s) = Py.drop (m + n) s.
Proof.
  revert s. induction m as [|m IH]; intros s; [reflexivity|].
  destruct s as [|c s]; [by rewrite !drop_nil|]. simpl. apply IH.
Qed.

Lemma take_take n m s : take n (take m s) = take (Nat.min n m) s.
Proof.
  revert m s. induction n as [|n IH]; intros [|m] [|c s]; simpl; try reflexivity.
  by rewrite IH.
Qed.

Lemma drop_take n m s : Py.drop n (take m s) = take (m - n) (Py.drop n s).
Proof.
  revert m s. induction n as [|n IH]; intros m s.
  - simpl. by rewrite Nat.sub_0_r.
  - destruct m as [|m], s as [|c s]; simpl; rewrite ?take_nil, ?drop_nil; try reflexivity.
    apply IH.
Qed.

(** A slice between two non-negative indices, in order. *)
Lemma slice_nonneg s (a b : Z) :
  (0 <= a <= b)%Z ->
  slice s a b = take (Z.to_nat (b - a)) (Py.drop (Z.to_nat a) s).
Proof.
  intros Hab. unfold slice, clip.
  rewrite !(proj2 (Z.ltb_ge _ 0)) by lia. cbv zeta.
  destruct (decide (String.length s <= Z.to_nat a)) as [Hout|Hin].
  - rewrite Nat.min_r by lia. rewrite !drop_all by lia. by rewrite !take_nil.
  - rewrite (Nat.min_l (Z.to_nat a)) by lia.
    destruct (decide (Z.to_nat b <= String.length s)) as [Hb|Hb].
    + rewrite Nat.min_l by lia. f_equal. lia.
    + rewrite Nat.min_r by lia.
      rewrite !take_all; [done| |]; rewrite length_string_drop; lia.
Qed.

(** ** The chunks of [chunk_text] *)

Lemma chunk_start (i : nat) (chunk_size overlap : Z) :
  (overlap < chunk_size)%Z ->
  Z.max 0 (Z.of_nat i * chunk_size - Z.of_nat i * overlap) =
    (Z.of_nat i * (chunk_size - overlap))%Z.
Proof. intros H. nia. Qed.

Lemma more_chunks (len k : nat) (chunk_size overlap : Z) :
  (overlap < chunk_size)%Z ->
  (Z.of_nat k * (chunk_size - overlap) <? Z.of_nat len)%Z =
    bool_decide (k < chunk_count len chunk_size overlap).
Proof.
  intros Hstep. unfold chunk_count.
  set (step := (chunk_size - overlap)%Z) in *.
  assert (0 < step)%Z by (subst step; lia).
  set (q := ((Z.of_nat len + step - 1) / step)%Z).
  assert (Hq1 : (step * q <= Z.of_nat len + step - 1)%Z)
    by (apply Z.mul_div_le; lia).
  assert (Hq2 : (Z.of_nat len + step - 1 < step * (q + 1))%Z).
  { pose proof (Z.mod_pos_bound (Z.of_nat len + step - 1) step ltac:(lia)) as Hm.
    pose proof (Z.div_mod (Z.of_nat len + step - 1) step ltac:(lia)) as Hd.
    fold q in Hd. lia. }
  assert (0 <= q)%Z by (apply Z.div_pos; lia).
  destruct (Z.ltb_spec (Z.of_nat k * step) (Z.of_nat len)) as [Hlt|Hge];
    symmetry; [apply bool_decide_eq_true | apply bool_decide_eq_false]; nia.
Qed.

(** The loop from the [k]-th chunk on: it needs one unit of fuel per
    remaining chunk, and each chunk it appends is the stripped slice that
    [get_chunk_text] returns for its index. *)
Lemma chunk_text_from_run text chunk_size overlap (m k fuel : nat) :
  (overlap < chunk_size)%Z ->
  k + m = Nat.max k (chunk_count (String.length text) chunk_size overlap) ->
  chunk_text_from fuel text chunk_size overlap
    (Z.of_nat k * (chunk_size - overlap)) =
    if bool_decide (m <= fuel)
    then Some (map (fun i => strip (get_chunk_text text (Z.of_nat i) chunk_size overlap))
                 (seq k m))
    else None.
Proof.
  intros Hstep. revert k fuel. induction m as [|m IH]; intros k fuel Hm.
  - destruct fuel; simpl; rewrite more_chunks by done;
      rewrite bool_decide_eq_false_2 by lia; reflexivity.
  - assert (Hk : k < chunk_count (String.length text) chunk_size overlap) by lia.
    destruct fuel as [|fuel]; simpl; rewrite more_chunks by done;
      rewrite (bool_decide_eq_true_2 _ Hk); [reflexivity|].
    replace (if (Z.of_nat k * (chunk_size - overlap) + chunk_size - overlap <? 0)%Z
             then 0%Z
             else (Z.of_nat k * (chunk_size - overlap) + chunk_size - overlap)%Z)
      with (Z.of_nat (S k) * (chunk_size - overlap))%Z.
    2:{ destruct (Z.ltb_spec (Z.of_nat k * (chunk_size - overlap) + chunk_size - overlap) 0);
          nia. }
    rewrite (IH (S k) fuel) by lia.
    unfold get_chunk_text at 2. rewrite chunk_start by done.
    destruct (decide (m <= fuel)).
    + rewrite !bool_decide_eq_true_2 by lia. reflexivity.
    + rewrite !bool_decide_eq_false_2 by lia. reflexivity.
Qed.

Lemma chunk_text_run text chunk_size overlap fuel :
  (overlap < chunk_size)%Z ->
  let n := chunk_count (String.length text) chunk_size overlap in
  chunk_text fuel text chunk_size overlap =
    if bool_decide (n <= fuel)
    then Some (map (fun i => strip (get_chunk_text text (Z.of_nat i) chunk_size overlap))
                 (seq 0 n))
    else None.
Proof.
  intros Hstep n. unfold chunk_text.
  apply (chunk_text_from_run text chunk_size overlap n 0 fuel Hstep). lia.
Qed.

(** When [chunk_text] returns, its [i]-th chunk is the stripped slice that
    [get_chunk_text] cuts from the same text. *)
Lemma chunk_text_lookup text chunk_size overlap fuel chunks (i : nat) :
  (overlap < chunk_size)%Z ->
  chunk_text fuel text chunk_size overlap = Some chunks ->
  i < List.length chunks ->
  chunks !! i = Some (strip (get_chunk_text text (Z.of_nat i) chunk_size overlap)).
Proof.
  intros Hstep Hrun Hi. rewrite chunk_text_run in Hrun by done.
  destruct (bool_decide _); [|discriminate]. injection Hrun as <-.
  rewrite length_map, length_seq in Hi.
  rewrite list_lookup_fmap, lookup_seq_lt by done. reflexivity.
Qed.

Lemma take_append n s t :
  take n (s +:+ t) = take n s +:+ take (n - String.length s) t.
Proof.
  revert n. induction s as [|c s IH]; intros n.
  - change (EmptyString +:+ t) with t. rewrite take_nil. simpl.
    by rewrite Nat.sub_0_r.
  - change (String c s +:+ t) with (String c (s +:+ t)).
    destruct n as [|n]; [by destruct t|]. simpl.
    change (String c (take n s) +:+ ?x) with (String c (take n s +:+ x)).
    by rewrite IH.
Qed.

Lemma drop_append n s t :
  Py.drop n (s +:+ t) = Py.drop n s +:+ Py.drop (n - String.length s) t.
Proof.
  revert n. induction s as [|c s IH]; intros n.
  - change (EmptyString +:+ t) with t. rewrite drop_nil. simpl.
    by rewrite Nat.sub_0_r.
  - change (String c s +:+ t) with (String c (s +:+ t)).
    destruct n as [|n]; [reflexivity|]. simpl. apply IH.
Qed.

Lemma blank_take n s : blank s = true -> blank (take n s) = true.
Proof.
  revert n. induction s as [|c s IH]; intros [|n]; try done.
  simpl. intros [-> Hs]%andb_true_iff. by apply IH.
Qed.

Lemma blank_drop n s : blank s = true -> blank (Py.drop n s) = true.
Proof.
  revert n. induction s as [|c s IH]; intros [|n]; try done.
  simpl. intros [_ Hs]%andb_true_iff. by apply IH.
Qed.

Lemma rstrip_blank s : blank s = true -> rstrip s = EmptyString.
Proof.
  induction s as [|c s IH]; [done|]. simpl.
  intros [Hc Hs]%andb_true_iff. by rewrite (IH Hs), Hc.
Qed.

Lemma lstrip_blank s : blank s = true -> lstrip s = EmptyString.
Proof.
  induction s as [|c s IH]; [done|]. simpl.
  intros [Hc Hs]%andb_true_iff. rewrite Hc. by apply IH.
Qed.

Lemma rstrip_append_blank s w : blank w = true -> rstrip (s +:+ w) = rstrip s.
Proof.
  intros Hw. induction s as [|c s IH].
  - change (EmptyString +:+ w) with w. by apply rstrip_blank.
  - change (String c s +:+ w) with (String c (s +:+ w)). simpl. by rewrite IH.
Qed.

Lemma lstrip_append_blank s w :
  blank w = true ->
  lstrip (s +:+ w) = if blank s then EmptyString else lstrip s +:+ w.
Proof.
  intros Hw. induction s as [|c s IH].
  - change (EmptyString +:+ w) with w. by apply lstrip_blank.
  - change (String c s +:+ w) with (String c (s +:+ w)). simpl.
    destruct (is_space c); [exact IH | reflexivity].
Qed.

(** White space after a text does not survive [strip]. *)
Lemma strip_append_blank s w : blank w = true -> strip (s +:+ w) = strip s.
Proof.
  intros Hw. unfold strip. rewrite lstrip_append_blank by done.
  destruct (blank s) eqn:Hs.
  - by rewrite (lstrip_blank s Hs).
  - by apply rstrip_append_blank.
Qed.

(** A text is what [rstrip] leaves of it, followed by white space. *)
Lemma rstrip_split s : exists w, blank w = true /\ s = rstrip s +:+ w.
Proof.
  induction s as [|c s (w & Hw & IH)]; [by exists EmptyString|].
  simpl. destruct (rstrip s) as [|d r] eqn:Hr.
  - destruct (is_space c) eqn:Hc.
    + exists (String c s). split; [|reflexivity].
      simpl. rewrite Hc. rewrite IH. exact Hw.
    + exists w. split; [done|].
      change (String c EmptyString +:+ w) with (String c (EmptyString +:+ w)).
      by rewrite <- IH.
  - exists w. split; [done|].
    change (String c (String d r) +:+ w) with (String c (String d r +:+ w)).
    by rewrite <- IH.
Qed.

(** The slice of a text and the slice of the text without its trailing
    white space are the same once stripped. *)
Lemma strip_slice_rstrip s (a b : Z) :
  (0 <= a <= b)%Z ->
  strip (slice (rstrip s) a b) = strip (slice s a b).
Proof.
  intros Hab. destruct (rstrip_split s) as (w & Hw & Hs).
  rewrite !slice_nonneg by done.
  rewrite Hs at 2. rewrite drop_append, take_append.
  symmetry. apply strip_append_blank. by apply blank_take, blank_drop.
Qed.

(** A document that starts with white space is indexed from its stripped
    content but sliced as it is at retrieval: its first indexed chunk is
    not the first retrieved snippet, stripped. *)
Lemma leading_space_shifts_chunks :
  let raw := " " +:+ string_of_list_ascii (repeat "a"%char 500) in
  match index_document 2 "a.txt" raw with
  | Some ((chunk, _) :: _) =>
      chunk <> strip (get_chunk_text raw 0 CHUNK_SIZE OVERLAP)
  | _ => False
  end.
Proof.
  vm_compute. intros H. apply (f_equal String.length) in H.
  vm_compute in H. discriminate H.
Qed.

Lemma chunk_count_le len chunk_size overlap :
  (overlap < chunk_size)%Z -> chunk_count len chunk_size overlap <= len.
Proof.
  intros Hstep. unfold chunk_count.
  set (step := (chunk_size - overlap)%Z) in *.
  assert (0 < step)%Z by (subst step; lia).
  set (q := ((Z.of_nat len + step - 1) / step)%Z).
  assert (q <= Z.of_nat len)%Z; [|lia]. subst q.
  destruct len as [|len].
  - rewrite Z.div_small; lia.
  - apply Z.div_le_upper_bound; [lia|]. nia.
Qed.

(** ** The retrieval loop *)

Lemma collect_app R metadata hits1 hits2 acc :
  collect R metadata (hits1 ++ hits2) acc =
    match collect R metadata hits1 acc with
    | inr acc' => collect R metadata hits2 acc'
    | inl e => inl e
    end.
Proof.
  revert acc. induction hits1 as [|idx hits1 IH]; intros acc; [reflexivity|].
  simpl. destruct (idx <? _)%Z; [|apply IH].
  destruct (py_index metadata idx) as [meta|]; [|reflexivity].
  destruct (snippet_block R meta); [reflexivity | apply IH].
Qed.

Lemma py_index_last {A} (init : list A) (last : A) :
  py_index (init ++ [last]) (-1) = Some last.
Proof.
  unfold py_index. change (0 <=? -1)%Z with false. cbv iota.
  rewrite length_app. simpl List.length.
  rewrite (proj2 (Z.leb_le _ _)) by lia.
  replace (Z.to_nat (Z.of_nat (List.length init + 1) + -1)) with (List.length init) by lia.
  by apply list_lookup_middle.
Qed.

Lemma py_index_in_range {A} (l : list A) (i : Z) :
  (- Z.of_nat (List.length l) <= i < Z.of_nat (List.length l))%Z ->
  is_Some (py_index l i).
Proof.
  intros Hi. unfold py_index. destruct (Z.leb_spec 0 i).
  - apply lookup_lt_is_Some. lia.
  - rewrite (proj2 (Z.leb_le _ _)) by lia. apply lookup_lt_is_Some. lia.
Qed.

End RetrievalFacts.

Module RetrievalProperties.
Import Py PyFacts Retrieval RetrievalFacts.

(** X15: when [overlap] is smaller than [chunk_size], [chunk_text] returns
    after one iteration per chunk, and a text of [len] characters gives
    [ceil(len / (chunk_size - overlap))] chunks, which is at most [len]:
    fuel [len] is always enough. *)
Theorem chunk_text_returns text chunk_size overlap fuel :
  let n := chunk_count (String.length text) chunk_size overlap in
  (overlap < chunk_size)%Z ->
  n <= fuel ->
  n <= String.length text /\
  exists chunks,
    chunk_text fuel text chunk_size overlap = Some chunks /\
    List.length chunks = n.
Proof.
  intros n Hstep Hfuel. split; [by apply chunk_count_le|].
  rewrite chunk_text_run by done. fold n.
  rewrite bool_decide_eq_true_2 by done.
  eexists. split; [reflexivity|]. by rewrite length_map, length_seq.
Qed.

Lemma chunk_text_returns_witness :
  exists chunks,
    chunk_text 10 "abcdefghij" 4 1 = Some chunks /\ List.length chunks = 4.
Proof.
  destruct (chunk_text_returns "abcdefghij" 4 1 10) as [_ H];
    [lia | vm_compute; lia | exact H].
Defined.

(** X16: indexing and retrieval agree on the chunks of a document that
    does not start with white space.  The [i]-th chunk that
    build_index.py indexes for it, from the stripped content, carries the
    metadata (file name, [i]) and is the stripped snippet that
    [get_chunk_text] cuts from the file as it is for chunk index [i]. *)
Theorem indexed_chunk_is_retrieved_chunk fuel fname raw entries (i : nat) chunk meta :
  lstrip raw = raw ->
  index_document fuel fname raw = Some entries ->
  entries !! i = Some (chunk, meta) ->
  meta = (fname, Z.of_nat i) /\
  chunk = strip (get_chunk_text raw (Z.of_nat i) CHUNK_SIZE OVERLAP).
Proof.
  intros Hraw Hindex Hentry. unfold index_document in Hindex.
  destruct (negb (truthy (strip raw))).
  { injection Hindex as <-. by rewrite lookup_nil in Hentry. }
  destruct (chunk_text fuel (strip raw) 500 100) as [chunks|] eqn:Hchunks;
    [|discriminate].
  injection Hindex as <-. rewrite list_lookup_imap in Hentry.
  destruct (chunks !! i) as [c|] eqn:Hc; [|discriminate].
  injection Hentry as <- <-. split; [reflexivity|].
  rewrite (chunk_text_lookup (strip raw) 500 100 fuel chunks i) in Hc;
    [|lia|done|by eapply lookup_lt_Some].
  injection Hc as <-. unfold strip at 2. rewrite Hraw.
  unfold get_chunk_text, CHUNK_SIZE, OVERLAP. apply strip_slice_rstrip. lia.
Qed.

Lemma indexed_chunk_is_retrieved_chunk_witness :
  index_document 1 "a.txt" ("alpha beta  " +:+ nl) =
    Some [("alpha beta", ("a.txt", 0%Z))] /\
  "alpha beta" = strip (get_chunk_text ("alpha beta  " +:+ nl) 0 CHUNK_SIZE OVERLAP).
Proof.
  split; [reflexivity|].
  apply (indexed_chunk_is_retrieved_chunk 1 "a.txt" ("alpha beta  " +:+ nl)
           [("alpha beta", ("a.txt", 0%Z))] 0 "alpha beta" ("a.txt", 0%Z));
    reflexivity.
Defined.

(** X17: when [chunk_size] does not exceed [overlap], the loop of
    [chunk_text] never ends on a non-empty text: [start] does not advance,
    so no amount of fuel gives a result. *)
Theorem chunk_text_diverges text chunk_size overlap fuel :
  (chunk_size <= overlap)%Z ->
  text <> EmptyString ->
  chunk_text fuel text chunk_size overlap = None.
Proof.
  intros Hstep Htext. unfold chunk_text.
  assert (Hlen : 0 < String.length text) by (destruct text; simpl; [done|lia]).
  assert (Hgen : forall start,
             (0 <= start < Z.of_nat (String.length text))%Z ->
             chunk_text_from fuel text chunk_size overlap start = None).
  { induction fuel as [|fuel IH]; intros start Hstart; simpl;
      rewrite (proj2 (Z.ltb_lt _ _)) by lia; [reflexivity|].
    rewrite IH; [reflexivity|].
    destruct (Z.ltb_spec (start + chunk_size - overlap) 0); lia. }
  apply Hgen. lia.
Qed.

Lemma chunk_text_diverges_witness :
  chunk_text 1000 "abc" 100 100 = None.
Proof.
  apply (chunk_text_diverges "abc" 100 100 1000); [lia | discriminate].
Defined.

(** X18: for a non-negative [chunk_size] a snippet is never longer than
    [chunk_size], and it is empty when the chunk starts at or after the end
    of the text. *)
Theorem snippet_is_bounded full_text chunk_idx chunk_size overlap :
  (0 <= chunk_size)%Z ->
  String.length (get_chunk_text full_text chunk_idx chunk_size overlap)
    <= Z.to_nat chunk_size /\
  ((Z.of_nat (String.length full_text) <= chunk_idx * chunk_size - chunk_idx * overlap)%Z ->
   get_chunk_text full_text chunk_idx chunk_size overlap = EmptyString).
Proof.
  intros Hsize. unfold get_chunk_text. cbv zeta.
  set (start := Z.max 0 (chunk_idx * chunk_size - chunk_idx * overlap)).
  rewrite slice_nonneg by lia.
  replace (start + chunk_size - start)%Z with chunk_size by lia.
  split.
  - rewrite length_string_take. lia.
  - intros Hend. rewrite drop_all by lia. apply take_nil.
Qed.

Lemma snippet_is_bounded_witness :
  String.length (get_chunk_text "abcdefghij" 1 4 1) <= 4 /\
  get_chunk_text "abcdefghij" 4 4 1 = EmptyString.
Proof.
  destruct (snippet_is_bounded "abcdefghij" 1 4 1) as [H1 _]; [lia|].
  destruct (snippet_is_bounded "abcdefghij" 4 4 1) as [_ H2]; [lia|].
  split; [exact H1 | apply H2; simpl; lia].
Defined.

(** X19: consecutive snippets overlap by [overlap] characters.  For
    [0 <= overlap <= chunk_size], what is left of snippet [i] after its
    first [chunk_size - overlap] characters is the first [overlap]
    characters of snippet [i + 1]. *)
Theorem consecutive_snippets_overlap full_text (i : nat) chunk_size overlap :
  (0 <= overlap <= chunk_size)%Z ->
  Py.drop (Z.to_nat (chunk_size - overlap))
    (get_chunk_text full_text (Z.of_nat i) chunk_size overlap) =
  take (Z.to_nat overlap)
    (get_chunk_text full_text (Z.of_nat i + 1) chunk_size overlap).
Proof.
  intros Hov. unfold get_chunk_text. cbv zeta.
  rewrite !slice_nonneg by lia.
  replace (Z.max 0 (Z.of_nat i * chunk_size - Z.of_nat i * overlap))
    with (Z.of_nat i * (chunk_size - overlap))%Z by nia.
  replace (Z.max 0 ((Z.of_nat i + 1) * chunk_size - (Z.of_nat i + 1) * overlap))
    with (Z.of_nat i * (chunk_size - overlap) + (chunk_size - overlap))%Z by nia.
  set (a := (Z.of_nat i * (chunk_size - overlap))%Z).
  replace (a + chunk_size - a)%Z with chunk_size by lia.
  replace (a + (chunk_size - overlap) + chunk_size - (a + (chunk_size - overlap)))%Z
    with chunk_size by lia.
  rewrite drop_take, drop_drop, take_take.
  f_equal; [lia|]. f_equal. subst a. nia.
Qed.

Lemma consecutive_snippets_overlap_witness :
  Py.drop 3 (get_chunk_text "abcdefghij" 0 4 1) =
  take 1 (get_chunk_text "abcdefghij" 1 4 1).
Proof.
  apply (consecutive_snippets_overlap "abcdefghij" 0 4 1). lia.
Defined.

(** X20: a hit of -1, which the search pads its result with when it finds
    fewer than [top_k] chunks, is not skipped: it is read as [metadata[-1]]
    and appends the snippet of the last indexed chunk to the context (or
    raises the error of reading that chunk's document). *)
Theorem padding_hit_selects_last_chunk R search init last query top_k hits text :
  loaded R = Some (search, init ++ [last]) ->
  search query top_k = inr (hits ++ [-1]%Z) ->
  collect R (init ++ [last]) hits EmptyString = inr text ->
  retrieve_context R query top_k =
    match snippet_block R last with
    | inr block => inr (text +:+ block)
    | inl e => inl e
    end.
Proof.
  intros Hloaded Hsearch Hhits. unfold retrieve_context.
  rewrite Hloaded, Hsearch, collect_app, Hhits. simpl collect.
  rewrite (proj2 (Z.ltb_lt _ _)) by lia.
  rewrite py_index_last. by destruct (snippet_block R last).
Qed.

Lemma padding_hit_selects_last_chunk_witness :
  let R := mkStore (Some (fun _ _ => inr [0; -1]%Z, [("a.txt", 0%Z); ("b.txt", 1%Z)]))
             {[ "data_1/documents/a.txt" := inr "alpha";
                "data_1/documents/b.txt" := inr "beta" ]} in
  retrieve_context R "query" 2 =
    inr (("Snippet from a.txt (chunk 0):" +:+ nl +:+ "alpha" +:+ nl +:+ nl) +:+
         ("Snippet from b.txt (chunk 1):" +:+ nl +:+ EmptyString +:+ nl +:+ nl)).
Proof.
  intros R.
  apply (padding_hit_selects_last_chunk R (fun _ _ => inr [0; -1]%Z)
           [("a.txt", 0%Z)] ("b.txt", 1%Z) "query" 2 [0%Z]
           ("Snippet from a.txt (chunk 0):" +:+ nl +:+ "alpha" +:+ nl +:+ nl));
    reflexivity.
Defined.

(** X21: hits at or beyond the number of metadata entries are ignored:
    [retrieve_context] returns what it returns for the hits that are below
    that number. *)
Theorem out_of_range_hits_are_ignored R search metadata query top_k hits :
  loaded R = Some (search, metadata) ->
  search query top_k = inr hits ->
  retrieve_context R query top_k =
    collect R metadata
      (filter (fun idx => (idx < Z.of_nat (List.length metadata))%Z) hits)
      EmptyString.
Proof.
  intros Hloaded Hsearch. unfold retrieve_context. rewrite Hloaded, Hsearch.
  clear Hsearch. generalize EmptyString as acc.
  induction hits as [|idx hits IH]; intros acc; [reflexivity|]. simpl collect.
  destruct (Z.ltb_spec idx (Z.of_nat (List.length metadata))) as [Hlt|Hge].
  - rewrite filter_cons_True by done. simpl collect.
    rewrite (proj2 (Z.ltb_lt _ _)) by done.
    destruct (py_index metadata idx) as [meta|]; [|reflexivity].
    destruct (snippet_block R meta); [reflexivity | apply IH].
  - rewrite filter_cons_False by lia. apply IH.
Qed.

Lemma out_of_range_hits_are_ignored_witness :
  let R := mkStore (Some (fun _ _ => inr [7; 0; 2]%Z, [("a.txt", 0%Z); ("b.txt", 1%Z)]))
             {[ "data_1/documents/a.txt" := inr "alpha" ]} in
  retrieve_context R "query" 3 =
    inr ("Snippet from a.txt (chunk 0):" +:+ nl +:+ "alpha" +:+ nl +:+ nl).
Proof.
  intros R.
  apply (out_of_range_hits_are_ignored R (fun _ _ => inr [7; 0; 2]%Z)
           [("a.txt", 0%Z); ("b.txt", 1%Z)] "query" 3 [7; 0; 2]%Z); reflexivity.
Defined.

(** X22: [retrieve_context] returns a text, and does not raise, whenever
    the search itself succeeds, no hit lies below minus the number of
    metadata entries and every document that exists can be read: a missing
    document, a hit past the end of the metadata and a negative hit that
    still indexes the metadata from its end all leave it returning. *)
Theorem retrieval_returns_text R search metadata query top_k hits :
  loaded R = Some (search, metadata) ->
  search query top_k = inr hits ->
  Forall (fun idx => (- Z.of_nat (List.length metadata) <= idx)%Z) hits ->
  readable R ->
  exists text, retrieve_context R query top_k = inr text.
Proof.
  intros Hloaded Hsearch Hhits Hread. unfold retrieve_context.
  rewrite Hloaded, Hsearch. clear Hsearch. generalize EmptyString as acc.
  induction Hhits as [|idx hits Hidx _ IH]; intros acc; simpl; [eauto|].
  destruct (Z.ltb_spec idx (Z.of_nat (List.length metadata))) as [Hlt|Hge]; [|apply IH].
  destruct (py_index_in_range metadata idx ltac:(lia)) as [meta ->].
  unfold snippet_block.
  destruct (documents R !! doc_path meta.1) as [[e|doc_text]|] eqn:Hdoc;
    [by apply Hread in Hdoc | apply IH | apply IH].
Qed.

Lemma retrieval_returns_text_witness :
  exists text,
    retrieve_context
      (mkStore (Some (fun _ _ => inr [5; -2; 1]%Z, [("a.txt", 0%Z); ("b.txt", 1%Z)]))
         {[ "data_1/documents/a.txt" := inr "alpha" ]}) "query" 3 = inr text.
Proof.
  apply (retrieval_returns_text _ (fun _ _ => inr [5; -2; 1]%Z)
           [("a.txt", 0%Z); ("b.txt", 1%Z)] "query" 3 [5; -2; 1]%Z);
    [reflexivity | reflexivity | repeat constructor; simpl; lia |].
  intros path e. simpl.
  destruct (decide (path = "data_1/documents/a.txt")) as [->|Hne].
  - by rewrite lookup_singleton_eq.
  - by rewrite lookup_singleton_ne.
Defined.

End RetrievalProperties.

(* ===================================================================== *)
(** * Properties of [convert_nan]                                         *)
(* ===================================================================== *)

Module OrchestratorRoutesFacts.
Import Py OrchestratorRoutes.

(** Induction on a value with the items of lists and dicts covered. *)
Lemma json_induction (P : json -> Prop) :
  P JNone ->
  (forall b, P (JBool b)) ->
  (forall n, P (JInt n)) ->
  (forall x, P (JFloat x)) ->
  (forall s, P (JStr s)) ->
  (forall items, Forall P items -> P (JList items)) ->
  (forall items, Forall (fun kv => P kv.2) items -> P (JDict items)) ->
  forall obj, P obj.
Proof.
  intros HNone HBool HInt HFloat HStr HList HDict.
  fix IH 1. intros [| b | n | x | s | items | items].
  - exact HNone.
  - apply HBool.
  - apply HInt.
  - apply HFloat.
  - apply HStr.
  - apply HList. induction items as [|item items IHitems]; constructor;
      [apply IH | exact IHitems].
  - apply HDict. induction items as [|[k v] items IHitems]; constructor;
      [apply IH | exact IHitems].
Qed.

Lemma has_nan_convert_nan obj : has_nan (convert_nan obj) = false.
Proof.
  induction obj as [| b | n | x | s | items IH | items IH] using json_induction;
    try reflexivity.
  - by destruct x.
  - simpl. induction IH as [|item items Hitem _ IHitems]; [done|].
    simpl. by rewrite Hitem, IHitems.
  - simpl. induction IH as [|[k v] items Hitem _ IHitems]; [done|].
    simpl in *. by rewrite Hitem, IHitems.
Qed.

Lemma convert_nan_fixed obj : has_nan obj = false -> convert_nan obj = obj.
Proof.
  induction obj as [| b | n | x | s | items IH | items IH] using json_induction;
    try reflexivity.
  - simpl. by intros ->.
  - simpl. intros Hnan. f_equal.
    induction IH as [|item items Hitem _ IHitems]; [done|].
    simpl in Hnan. apply orb_false_iff in Hnan as [H1 H2].
    simpl. by rewrite Hitem, IHitems.
  - simpl. intros Hnan. f_equal.
    induction IH as [|[k v] items Hitem _ IHitems]; [done|].
    simpl in *. apply orb_false_iff in Hnan as [H1 H2].
    by rewrite Hitem, IHitems.
Qed.

Lemma skeleton_convert_nan obj : skeleton (convert_nan obj) = skeleton obj.
Proof.
  induction obj as [| b | n | x | s | items IH | items IH] using json_induction;
    try reflexivity.
  - by destruct x.
  - simpl. f_equal. induction IH as [|item items Hitem _ IHitems]; [done|].
    simpl. by rewrite Hitem, IHitems.
  - simpl. f_equal. induction IH as [|[k v] items Hitem _ IHitems]; [done|].
    simpl in *. by rewrite Hitem, IHitems.
Qed.

Lemma leaves_convert_nan obj :
  leaves (convert_nan obj) = map none_for_nan (leaves obj).
Proof.
  induction obj as [| b | n | x | s | items IH | items IH] using json_induction;
    try reflexivity.
  - by destruct x.
  - simpl. induction IH as [|item items Hitem _ IHitems]; [done|].
    simpl. by rewrite map_app, Hitem, IHitems.
  - simpl. induction IH as [|[k v] items Hitem _ IHitems]; [done|].
    simpl in *. by rewrite map_app, Hitem, IHitems.
Qed.

(** The shape of a value fixes how many scalars it has. *)
Lemma skeleton_leaves_length a b :
  skeleton a = skeleton b -> List.length (leaves a) = List.length (leaves b).
Proof.
  revert b.
  induction a as [| x | n | x | s | items IH | items IH] using json_induction;
    intros [| y | m | y | t | items' | items']; try done.
  - simpl. intros [= Hitems]. revert items' Hitems.
    induction IH as [|item items Hitem _ IHitems]; intros [|item' items'];
      try done.
    simpl. intros [= H1 H2]. rewrite !length_app.
    by rewrite (Hitem _ H1), (IHitems _ H2).
  - simpl. intros [= Hitems]. revert items' Hitems.
    induction IH as [|[k v] items Hitem _ IHitems]; intros [|[k' v'] items'];
      try done.
    simpl in *. intros [= _ H1 H2]. rewrite !length_app.
    by rewrite (Hitem _ H1), (IHitems _ H2).
Qed.

(** A value is fixed by its shape and its scalars. *)
Lemma skeleton_leaves_inj a b :
  skeleton a = skeleton b -> leaves a = leaves b -> a = b.
Proof.
  revert b.
  induction a as [| x | n | x | s | items IH | items IH] using json_induction;
    intros [| y | m | y | t | items' | items']; try done;
    try (by intros _ [= ->]).
  - simpl. intros [= Hitems] Hleaves. f_equal. revert items' Hitems Hleaves.
    induction IH as [|item items Hitem _ IHitems]; intros [|item' items'];
      try done.
    simpl. intros [= H1 H2] Hleaves.
    apply app_inj_1 in Hleaves as [Hl1 Hl2]; [|by apply skeleton_leaves_length].
    f_equal; [by apply Hitem | by apply IHitems].
  - simpl. intros [= Hitems] Hleaves. f_equal. revert items' Hitems Hleaves.
    induction IH as [|[k v] items Hitem _ IHitems]; intros [|[k' v'] items'];
      try done.
    simpl in *. intros [= -> H1 H2] Hleaves.
    apply app_inj_1 in Hleaves as [Hl1 Hl2]; [|by apply skeleton_leaves_length].
    f_equal; [f_equal; by apply Hitem | by apply IHitems].
Qed.

End OrchestratorRoutesFacts.

Module OrchestratorRoutesProperties.
Import Py OrchestratorRoutes OrchestratorRoutesFacts.

(** X23: [convert_nan] replaces every NaN by [None], at any depth of
    lists and dicts, and changes nothing else.  The keys of every dict and
    the length of every list stay, and the scalars of the result are those
    of the argument in the same places, each NaN turned into [None] and
    every other scalar, infinities included, as it was; shape and scalars
    together fix the result.  So no NaN is left, and the values that come
    back unchanged are exactly those that hold no NaN. *)
Theorem convert_nan_removes_exactly_nan obj :
  skeleton (convert_nan obj) = skeleton obj /\
  leaves (convert_nan obj) = map none_for_nan (leaves obj) /\
  (forall result,
     skeleton result = skeleton obj ->
     leaves result = map none_for_nan (leaves obj) ->
     result = convert_nan obj) /\
  has_nan (convert_nan obj) = false /\
  (convert_nan obj = obj <-> has_nan obj = false).
Proof.
  split; [apply skeleton_convert_nan|].
  split; [apply leaves_convert_nan|].
  split.
  { intros result Hshape Hleaves. apply skeleton_leaves_inj.
    - by rewrite skeleton_convert_nan.
    - by rewrite leaves_convert_nan. }
  split; [apply has_nan_convert_nan|].
  split; [|apply convert_nan_fixed].
  intros Heq. rewrite <- Heq. apply has_nan_convert_nan.
Qed.

End OrchestratorRoutesProperties.

(* ===================================================================== *)
(** * Properties of the training agent                                    *)
(* ===================================================================== *)

Module TrainingFacts.
Import Py Frame Training EvaluationFacts.

Lemma elem_of_dict_keys seen l x :
  x ∈ dict_keys seen l <-> x ∈ l /\ x ∉ seen.
Proof.
  revert seen. induction l as [|k l IH]; intros seen; simpl.
  - split; [by intros ?%elem_of_nil | by intros [?%elem_of_nil _]].
  - case_bool_decide as Hk.
    + rewrite IH, elem_of_cons. split; [tauto|].
      intros [[->|?] ?]; tauto.
    + rewrite !elem_of_cons, IH, elem_of_cons. split.
      * intros [->|[? ?]]; [tauto|]. split; [tauto|]. tauto.
      * intros [[->|?] ?]; [tauto|].
        destruct (decide (x = k)) as [->|]; [tauto|]. right. tauto.
Qed.

Lemma NoDup_dict_keys seen l : NoDup (dict_keys seen l).
Proof.
  revert seen. induction l as [|k l IH]; intros seen; simpl; [constructor|].
  case_bool_decide; [apply IH|]. constructor; [|apply IH].
  rewrite elem_of_dict_keys, elem_of_cons. tauto.
Qed.

Lemma elem_of_known_selection d selected x :
  x ∈ known_selection d selected <-> x ∈ selected /\ x ∈ d.
Proof.
  unfold known_selection. rewrite elem_of_dict_keys, list_elem_of_filter.
  split; [tauto|]. intros [? ?]. split; [tauto|]. apply not_elem_of_nil.
Qed.

Lemma labels_take_rows rows (d : DataFrame) : labels (take_rows rows d) = labels d.
Proof.
  unfold labels, take_rows. induction d as [|col d IH]; [done|].
  simpl. f_equal. exact IH.
Qed.

Lemma labels_drop_columns cs (d : DataFrame) :
  labels (drop_columns cs d) = filter (fun c => c ∉ cs) (labels d).
Proof.
  unfold labels, drop_columns. induction d as [|col d IH]; [done|].
  rewrite fmap_cons, !filter_cons.
  destruct (decide (col.1 ∉ cs)); [rewrite fmap_cons; f_equal|]; exact IH.
Qed.

Lemma elem_of_labels_select cs (d : DataFrame) c :
  c ∈ labels (select cs d) <-> c ∈ cs /\ c ∈ labels d.
Proof.
  rewrite !elem_of_labels. split.
  - intros (col & [Hc Hcol]%elem_of_select & <-). eauto.
  - intros [Hc (col & Hcol & <-)]. exists col. by rewrite elem_of_select.
Qed.

Lemma evaluate_metrics_keys K metrics y_test y_pred row row' :
  evaluate_metrics K metrics y_test y_pred row = inr row' ->
  forall key, is_Some (row' !! key) <-> key ∈ metrics \/ is_Some (row !! key).
Proof.
  revert row. induction metrics as [|m metrics IH]; intros row; simpl.
  - intros [= <-] key. rewrite elem_of_nil. tauto.
  - destruct (metric K m y_test y_pred) as [e|val]; [done|].
    intros Hrest key. rewrite (IH _ Hrest), elem_of_cons.
    destruct (decide (key = m)) as [->|Hne].
    + rewrite lookup_insert_eq. split; [auto|]. intros _. right. eauto.
    + rewrite lookup_insert_ne by done. tauto.
Qed.

Lemma cross_validate_keys K a p model_name row key :
  (is_Some (row !! key) -> is_Some (cross_validate K a p model_name row !! key)) /\
  (is_Some (cross_validate K a p model_name row !! key) ->
   is_Some (row !! key) \/
   (enable_cross_validation a = true /\ (key = "CV_F1_Avg" \/ key = "CV_R2_Avg"))).
Proof.
  unfold cross_validate. destruct (enable_cross_validation a); [|tauto].
  repeat case_match; try tauto.
  all: match goal with |- context [<[?k := _]> _ !! ?key'] =>
         destruct (decide (key' = k)) as [->|?];
         [rewrite lookup_insert_eq | rewrite lookup_insert_ne by done] end.
  all: try tauto.
  all: split; eauto.
Qed.

Lemma train_one_run K a p n files :
  match train_one K a p n files with
  | (inr (f, row), files') =>
      f = model_filename n (time_now K n) /\
      Orchestrator.row_model row = n /\ row_keys a p row /\
      exists m, dumped a p m /\ files' = <[saved_path K (folder p) n := m]> files
  | (inl _, files') => files' = files
  end.
Proof.
  unfold train_one, bind, lift, ret, modify.
  destruct (hyperparameter_tuning a && _);
    [destruct (search_fit K n _ _ _) as [e|[]]; [done|] |].
  all: destruct (fit K n _ _ _) as [e|predict]; [done|].
  all: destruct (predict _) as [e|y_pred]; [done|].
  all: destruct (evaluate_metrics K _ _ _ _) as [e|row] eqn:Hrow; [done|].
  all: destruct (joblib_dump K _) as [e|[]]; [done|].
  all: split; [done|]; split; [done|]; split; [|eexists; split; [|reflexivity]; done].
  all: intros key; simpl; pose proof (evaluate_metrics_keys _ _ _ _ _ _ Hrow key) as Hk;
    pose proof (cross_validate_keys K a p n row key) as [Hc1 Hc2];
    rewrite lookup_singleton_is_Some in Hk.
  all: split; [intros Hor; apply Hc1, Hk; destruct Hor; auto | ].
  all: intros [Hin|?]%Hc2; [apply Hk in Hin as [?|?]; auto | auto].
Qed.

Lemma train_all_run K a p names out files :
  exists out' files' new,
    train_all K a p names out files = (inr out', files') /\
    results out' = (results out ++ new)%list /\
    trained_models out' = (trained_models out ++ map (saved_as K) new)%list /\
    sublist (map Orchestrator.row_model new) names /\
    Forall (row_keys a p) new /\
    (forall path,
        files' !! path = files !! path \/
        exists m n, files' !! path = Some m /\ dumped a p m /\
                    n ∈ map Orchestrator.row_model new /\
                    path = saved_path K (folder p) n) /\
    (forall n, n ∈ map Orchestrator.row_model new ->
               exists m, files' !! saved_path K (folder p) n = Some m /\ dumped a p m).
Proof.
  revert out files. induction names as [|n names IH]; intros out files.
  - exists out, files, []. simpl. rewrite !app_nil_r.
    repeat split; auto using sublist_nil. by intros n ?%elem_of_nil.
  - simpl. unfold bind at 1, attempt, try_except. unfold bind at 1, ret.
    pose proof (train_one_run K a p n files) as Hone.
    destruct (train_one K a p n files) as [[e|[f row]] files1].
    + subst files1.
      destruct (IH out files) as (out' & files' & new & Hrun & Hres & Htm & Hsub & Hkeys & Hpath & Hsaved).
      exists out', files', new. repeat split; auto. by apply sublist_cons.
    + destruct Hone as (-> & Hn & Hrow & m & Hm & ->). subst n.
      set (n := Orchestrator.row_model row) in *.
      destruct (IH (mkOutput (results out ++ [row]) (trained_models out ++ [(n, model_filename n (time_now K n))]))
                   (<[saved_path K (folder p) n := m]> files))
        as (out' & files' & new & Hrun & Hres & Htm & Hsub & Hkeys & Hpath & Hsaved).
      exists out', files', (row :: new). simpl in Hres, Htm.
      rewrite <- !app_assoc in Hres, Htm. simpl in Hres, Htm.
      split; [exact Hrun|]. split; [exact Hres|].
      split; [exact Htm|].
      split; [simpl; by apply sublist_skip|].
      split; [by constructor|]. simpl. fold n. split.
      * intros path. destruct (Hpath path) as [Heq|(m' & n' & H1 & H2 & H3 & H4)].
        -- destruct (decide (path = saved_path K (folder p) n)) as [->|Hne].
           ++ right. exists m, n. rewrite Heq, lookup_insert_eq.
              split; [done|]. split; [exact Hm|]. split; [apply list_elem_of_here | done].
           ++ left. by rewrite Heq, lookup_insert_ne.
        -- right. exists m', n'. split; [done|]. split; [done|].
           split; [by apply list_elem_of_further | done].
      * intros n0 [->|Hin]%elem_of_cons; [|by apply Hsaved].
        destruct (Hpath (saved_path K (folder p) n)) as [Heq|(m' & n' & H1 & H2 & _)].
        -- exists m. by rewrite Heq, lookup_insert_eq.
        -- eauto.
Qed.

Lemma prepare_shape K a p :
  prepare K a = inr p ->
  folder p = target_folder a /\
  models_to_train p =
    known_selection (get_models (xgboost_available K) (task_type a)) (selected_models a) /\
  metrics_to_evaluate p =
    known_selection (get_metrics (task_type a)) (selected_metrics a) /\
  labels (X_train p) = labels (X p) /\
  target_col a ∉ labels (X p).
Proof.
  unfold prepare.
  destruct (makedirs K _) as [e|[]]; [done|].
  destruct (empty (df a)); [done|].
  destruct (negb _); [done|].
  destruct (if apply_encoding a || apply_scaling a then _ else _) as [e|d1]; [done|].
  destruct (select_features a d1) as [e|d2]; [done|].
  destruct (sample_rows K a d2) as [e|d3]; [done|].
  unfold split_target. case_bool_decide as Ht; [|done].
  destruct (encode_target K a _) as [e|y1]; [done|].
  destruct (train_test_split K _) as [e|[train test]]; [done|].
  intros [= <-]. simpl. repeat split; try done.
  - apply labels_take_rows.
  - rewrite labels_drop_columns. intros [Hout _]%list_elem_of_filter.
    apply Hout, list_elem_of_here.
Qed.

(** Without encoding and scaling the features are columns of the
    dataset. *)
Lemma prepare_features K a p c :
  apply_encoding a = false ->
  apply_scaling a = false ->
  prepare K a = inr p ->
  c ∈ labels (X p) -> c ∈ labels (df a).
Proof.
  unfold prepare. intros -> ->.
  destruct (makedirs K _) as [e|[]]; [done|].
  destruct (empty (df a)); [done|].
  destruct (negb _); [done|]. cbv beta iota. simpl orb. cbv iota.
  destruct (select_features a (df a)) as [e|d2] eqn:Hsel; [done|].
  destruct (sample_rows K a d2) as [e|d3] eqn:Hsample; [done|].
  unfold split_target. case_bool_decide as Ht; [|done].
  destruct (encode_target K a _) as [e|y1]; [done|].
  destruct (train_test_split K _) as [e|[train test]]; [done|].
  intros [= <-]. simpl. rewrite labels_drop_columns.
  intros [_ Hc]%list_elem_of_filter.
  assert (Hd3 : labels d3 = labels d2).
  { unfold sample_rows in Hsample. destruct (_ && _); [|congruence].
    destruct (sample K _ _); [done|]. injection Hsample as <-.
    apply labels_take_rows. }
  rewrite Hd3 in Hc. unfold select_features in Hsel.
  destruct (selected_features a) as [[|f fs]|]; try congruence.
  destruct (Evaluation.nonempty _); [done|]. injection Hsel as <-.
  by apply (elem_of_labels_select ((f :: fs) ++ [target_col a])%list (df a) c)
    in Hc as [_ Hc].
Qed.

Lemma train_and_evaluate_models_run K a files :
  train_and_evaluate_models K a files =
    match prepare K a with
    | inl e => (inl e, files)
    | inr p => train_all K a p (models_to_train p) (mkOutput [] []) files
    end.
Proof.
  unfold train_and_evaluate_models, bind, lift. by destruct (prepare K a).
Qed.

(** Every file the call writes or replaces is the file of a model that
    [get_models] knows, in the model folder. *)
Lemma training_writes K a files path :
  snd (train_and_evaluate_models K a files) !! path = files !! path \/
  exists n, n ∈ get_models (xgboost_available K) (task_type a) /\
            path = Routes.path_join (target_folder a) (model_filename n (time_now K n)).
Proof.
  rewrite train_and_evaluate_models_run.
  destruct (prepare K a) as [e|p] eqn:Hp; [by left|].
  destruct (prepare_shape K a p Hp) as (Hfolder & Hmodels & _).
  destruct (train_all_run K a p (models_to_train p) (mkOutput [] []) files)
    as (out' & files' & new & -> & _ & _ & Hsub & _ & Hpath & _).
  simpl. destruct (Hpath path) as [?|(m & n & _ & _ & Hn & ->)]; [by left|].
  right. exists n. rewrite <- Hfolder. split; [|done].
  apply (elem_of_sublist _ _ _ Hn) in Hsub. rewrite Hmodels in Hsub.
  by apply elem_of_known_selection in Hsub as [_ ?].
Qed.

(** A reported model is a known one and its file is in the model folder. *)
Lemma training_saves K a files out n f :
  fst (train_and_evaluate_models K a files) = inr out ->
  (n, f) ∈ trained_models out ->
  n ∈ get_models (xgboost_available K) (task_type a) /\
  f = model_filename n (time_now K n) /\
  is_Some (snd (train_and_evaluate_models K a files)
             !! Routes.path_join (target_folder a) f).
Proof.
  rewrite train_and_evaluate_models_run.
  destruct (prepare K a) as [e|p] eqn:Hp; [done|].
  destruct (prepare_shape K a p Hp) as (Hfolder & Hmodels & _).
  destruct (train_all_run K a p (models_to_train p) (mkOutput [] []) files)
    as (out' & files' & new & -> & _ & Htm & Hsub & _ & _ & Hsaved).
  simpl in *. intros [= ->]. rewrite Htm.
  intros (r & [= -> ->] & Hr)%list_elem_of_fmap.
  assert (Hn : Orchestrator.row_model r ∈ map Orchestrator.row_model new)
    by (apply list_elem_of_fmap; eauto).
  split.
  { apply (elem_of_sublist _ _ _ Hn) in Hsub. rewrite Hmodels in Hsub.
    by apply elem_of_known_selection in Hsub as [_ ?]. }
  split; [done|]. destruct (Hsaved _ Hn) as (m & Hm & _).
  rewrite <- Hfolder. exists m. exact Hm.
Qed.
End TrainingFacts.

Module TrainingProperties.
Import Py Frame Training EvaluationFacts TrainingFacts Examples MoreExamples.

(** X24: a failure inside the loop over the models (search, fit, predict,
    a metric, the dump) never reaches the caller of
    [train_and_evaluate_models]: the call raises exactly when the
    preparation of lines 134-161 raises, with that exception and without
    having saved a model; and whether it returns or raises, no model file
    that was on disk is removed. *)
Theorem training_fails_only_in_preparation K a files :
  let out := train_and_evaluate_models K a files in
  (forall e, fst out = inl e <-> prepare K a = inl e) /\
  (forall e, fst out = inl e -> snd out = files) /\
  (forall path, is_Some (files !! path) -> is_Some (snd out !! path)).
Proof.
  cbv zeta. rewrite train_and_evaluate_models_run.
  destruct (prepare K a) as [e|p]; [simpl; naive_solver|].
  destruct (train_all_run K a p (models_to_train p) (mkOutput [] []) files)
    as (out & files' & new & -> & _ & _ & _ & _ & Hpath & _).
  simpl. split; [by split|]. split; [done|].
  intros path Hsome. destruct (Hpath path) as [->|(m & _ & -> & _)]; eauto.
Qed.

(** X25: when [train_and_evaluate_models] returns, [results] and
    [trained_models] list the same models in the same order, each at most
    once; each is a selected model that [get_models] knows for the task;
    its file name is [<name>_<timestamp>.pkl] and that model file is in the
    model folder; and every model file the call has saved or replaced is
    one of these.  (The training report of lines 209-221 is a csv file and
    no model file; the disk of model files does not hold it.) *)
Theorem results_match_trained_models K a files out :
  let files' := snd (train_and_evaluate_models K a files) in
  fst (train_and_evaluate_models K a files) = inr out ->
  map Orchestrator.row_model (results out) = (trained_models out).*1 /\
  NoDup (trained_models out).*1 /\
  (forall n f, (n, f) ∈ trained_models out ->
     n ∈ selected_models a /\
     n ∈ get_models (xgboost_available K) (task_type a) /\
     f = model_filename n (time_now K n) /\
     is_Some (files' !! Routes.path_join (target_folder a) f)) /\
  (forall path, files' !! path <> files !! path ->
     exists n f, (n, f) ∈ trained_models out /\
                 path = Routes.path_join (target_folder a) f).
Proof.
  cbv zeta. rewrite train_and_evaluate_models_run.
  destruct (prepare K a) as [e|p] eqn:Hp; [done|].
  destruct (prepare_shape K a p Hp) as (Hfolder & Hmodels & _).
  destruct (train_all_run K a p (models_to_train p) (mkOutput [] []) files)
    as (out' & files' & new & -> & Hres & Htm & Hsub & _ & Hpath & Hsaved).
  simpl in Hres, Htm. cbn [fst snd]. intros [= ->].
  rewrite Hres, Htm, <- Hfolder. clear Hres Htm.
  assert (Hnames : (map (saved_as K) new).*1 = map Orchestrator.row_model new).
  { clear. induction new as [|r new IH]; [done|].
    simpl. f_equal. exact IH. }
  split; [by rewrite Hnames|]. split.
  { rewrite Hnames. apply (sublist_NoDup _ (models_to_train p)); [|exact Hsub].
    rewrite Hmodels. apply NoDup_dict_keys. }
  split.
  - intros n f (r & [= -> ->] & Hr)%list_elem_of_fmap.
    assert (Hn : Orchestrator.row_model r ∈ map Orchestrator.row_model new)
      by (apply list_elem_of_fmap; eauto).
    assert (Hin : Orchestrator.row_model r ∈ models_to_train p)
      by (eapply elem_of_sublist; eauto).
    rewrite Hmodels in Hin. apply elem_of_known_selection in Hin as [? ?].
    repeat split; try done.
    destruct (Hsaved _ Hn) as (m & Hm & _). exists m. exact Hm.
  - intros path Hne. destruct (Hpath path) as [?|(m & n & _ & _ & Hn & ->)]; [done|].
    apply list_elem_of_fmap in Hn as (r & -> & Hr).
    exists (Orchestrator.row_model r), (saved_as K r).2. split; [|done].
    apply list_elem_of_fmap. exists r. split; [|done]. reflexivity.
Qed.

Lemma results_match_trained_models_witness :
  let out := Training.mkOutput
               [Orchestrator.mkRow "LinearRegression"
                  (<["R2" := FNum 0.9]> (<["RMSE" := FNum 0.1]>
                     {[ "Training_Time_sec" := FNum 0.012 ]}))]
               [("LinearRegression", "LinearRegression_1700000000.pkl")] in
  map Orchestrator.row_model (results out) = (trained_models out).*1 /\
  is_Some (snd (train_and_evaluate_models toy_library toy_args ∅)
             !! "models/LinearRegression_1700000000.pkl").
Proof.
  intros out.
  destruct (results_match_trained_models toy_library toy_args ∅ out)
    as (H1 & _ & H2 & _); [by vm_compute|].
  split; [exact H1|].
  apply (H2 "LinearRegression" "LinearRegression_1700000000.pkl").
  apply list_elem_of_here.
Defined.

(** X26: every result row carries, besides the model name, the training
    time and one value for each selected metric that [get_metrics] knows
    for the task, and nothing else but, with cross validation enabled, the
    cross-validation averages: a selected metric of the other task type is
    silently left out, and a known one is never missing from a row. *)
Theorem result_rows_carry_selected_metrics K a files out row key :
  fst (train_and_evaluate_models K a files) = inr out ->
  row ∈ results out ->
  (key = "Training_Time_sec" \/
   (key ∈ selected_metrics a /\ key ∈ get_metrics (task_type a)) ->
   is_Some (Orchestrator.row_fields row !! key)) /\
  (is_Some (Orchestrator.row_fields row !! key) ->
   key = "Training_Time_sec" \/
   (key ∈ selected_metrics a /\ key ∈ get_metrics (task_type a)) \/
   (enable_cross_validation a = true /\ (key = "CV_F1_Avg" \/ key = "CV_R2_Avg"))).
Proof.
  rewrite train_and_evaluate_models_run.
  destruct (prepare K a) as [e|p] eqn:Hp; [done|].
  destruct (prepare_shape K a p Hp) as (_ & _ & Hmetrics & _).
  destruct (train_all_run K a p (models_to_train p) (mkOutput [] []) files)
    as (out' & files' & new & -> & Hres & _ & _ & Hkeys & _).
  simpl in *. intros [= ->] Hrow. rewrite Hres in Hrow.
  rewrite Forall_forall in Hkeys. destruct (Hkeys row Hrow key) as [H1 H2].
  rewrite Hmetrics, elem_of_known_selection in H1, H2. tauto.
Qed.

Lemma result_rows_carry_selected_metrics_witness :
  let out := Training.mkOutput
               [Orchestrator.mkRow "LinearRegression"
                  (<["R2" := FNum 0.9]> (<["RMSE" := FNum 0.1]>
                     {[ "Training_Time_sec" := FNum 0.012 ]}))]
               [("LinearRegression", "LinearRegression_1700000000.pkl")] in
  fst (train_and_evaluate_models toy_library toy_args ∅) = inr out /\
  forall row, row ∈ results out -> is_Some (Orchestrator.row_fields row !! "R2").
Proof.
  intros out. split; [by vm_compute|]. intros row Hrow.
  apply (proj1 (result_rows_carry_selected_metrics toy_library toy_args ∅ out
                  row "R2" ltac:(by vm_compute) Hrow)).
  right. split; apply (bool_decide_unpack _); by vm_compute.
Defined.

End TrainingProperties.

(* ===================================================================== *)
(** * Training followed by evaluation or by the orchestrator's decision    *)
(* ===================================================================== *)

Module PipelineProperties.
Import Py World Frame Evaluation EvaluationFacts TrainingFacts OrchestratorFacts.
Import Examples MoreExamples.

(** X27: a model saved by a training run without encoding and scaling can
    be evaluated on the dataset it was trained on, with the training
    target or with none.  The artifact is found under its reported file
    name in the model folder, its training columns are columns of the
    dataset other than the target, so [evaluate_model] never raises its
    missing-columns error and no [missing_target] is noted: the outcome is
    the prediction on the training columns, the columns the training left
    out being dropped. *)
Theorem trained_model_accepts_its_training_data
        K a files out n f KE new_df target (h : heap) :
  let files' := snd (Training.train_and_evaluate_models K a files) in
  let path := Routes.path_join (Training.target_folder a) f in
  let feats := features (Training.df a) target in
  Training.apply_encoding a = false ->
  Training.apply_scaling a = false ->
  fst (Training.train_and_evaluate_models K a files) = inr out ->
  (n, f) ∈ Training.trained_models out ->
  (forall p, joblib_load KE p = Training.load_from files' p) ->
  h !! new_df = Some (Training.df a) ->
  target = None \/ target = Some (Training.target_col a) ->
  exists m training,
    files' !! path = Some m /\
    training_columns m = Some training /\
    kind m = Training.kind_of (Training.task_type a) /\
    (forall c, c ∈ training -> c ∈ labels (Training.df a) /\ c <> Training.target_col a) /\
    missing_columns training feats = [] /\
    evaluate_model KE new_df path target h =
      let extras := extra_columns training feats in
      let h2 := ((h ++ [drop_columns extras feats]) ++ [aligned training feats])%list in
      match predict m (aligned training feats) with
      | inl e => (inl e, h2)
      | inr preds =>
          (report KE m preds (ground_truth (Training.df a) target)
             (mkColInfo None (if nonempty extras then Some extras else None)
                (Some training)), h2)
      end.
Proof.
  intros files' path feats Henc Hscale Hout Hnf Hload Hh Htarget.
  subst files'. rewrite train_and_evaluate_models_run in *.
  destruct (Training.prepare K a) as [e|p] eqn:Hp; [done|].
  destruct (prepare_shape K a p Hp) as (Hfolder & _ & _ & Htrain & Hnot).
  pose proof (fun c => prepare_features K a p c Henc Hscale Hp) as Hfeat.
  destruct (train_all_run K a p (Training.models_to_train p)
              (Training.mkOutput [] []) files)
    as (out' & files' & new & Hrun & _ & Htm & _ & _ & _ & Hsaved).
  rewrite Hrun in *. simpl in Hout, Htm, Hload. injection Hout as ->.
  rewrite Htm in Hnf. apply list_elem_of_fmap in Hnf as (r & [= -> ->] & Hr).
  destruct (Hsaved (Orchestrator.row_model r)) as (m & Hm & Hcols & Hkind).
  { apply list_elem_of_fmap. eauto. }
  unfold Training.saved_path in Hm. rewrite Hfolder in Hm.
  assert (Hin : forall c, c ∈ labels (Training.X_train p) ->
                  c ∈ labels (Training.df a) /\ c <> Training.target_col a).
  { intros c Hc. rewrite Htrain in Hc. split; [by apply Hfeat|].
    intros ->. by apply Hnot. }
  assert (Hmissing : missing_columns (labels (Training.X_train p)) feats = []).
  { destruct (missing_columns (labels (Training.X_train p)) feats) as [|c l] eqn:Hmiss;
      [done|]. exfalso.
    assert (Hc : c ∈ missing_columns (labels (Training.X_train p)) feats)
      by (rewrite Hmiss; apply list_elem_of_here).
    apply elem_of_missing_columns in Hc as [Hc Hout]. apply Hout.
    destruct (Hin c Hc) as [Hd Hne]. subst feats. unfold features, target_present.
    destruct Htarget as [->| ->]; [done|].
    destruct (truthy _ && _); [|done].
    rewrite labels_drop_columns. apply list_elem_of_filter. split; [|done].
    by intros ->%list_elem_of_singleton. }
  exists m, (labels (Training.X_train p)).
  split; [exact Hm|]. split; [exact Hcols|]. split; [exact Hkind|].
  split; [exact Hin|]. split; [exact Hmissing|].
  assert (Habsent : target_absent (Training.df a) target = None).
  { unfold target_absent. destruct Htarget as [->| ->]; [done|].
    assert (Ht : Training.target_col a ∈ labels (Training.df a)).
    { revert Hp. unfold Training.prepare.
      destruct (Training.makedirs K _) as [?|[]]; [done|].
      destruct (Training.empty _); [done|].
      case_bool_decide; [done|]. by simpl. }
    rewrite bool_decide_eq_true_2 by done. simpl. by rewrite andb_false_r. }
  rewrite (evaluate_model_run KE new_df _ target h (Training.df a) m Hh);
    [|rewrite Hload; unfold Training.load_from; subst path; by rewrite Hm].
  cbv zeta. fold feats. rewrite Hcols, Hmissing, Habsent. reflexivity.
Qed.

Lemma trained_model_accepts_its_training_data_witness :
  let files' := snd (Training.train_and_evaluate_models toy_library toy_args ∅) in
  exists m training,
    files' !! "models/LinearRegression_1700000000.pkl" = Some m /\
    training_columns m = Some training /\
    missing_columns training (features frame_aby (Some "y")) = [].
Proof.
  intros files'.
  destruct (trained_model_accepts_its_training_data toy_library toy_args ∅
              (Training.mkOutput
                 [Orchestrator.mkRow "LinearRegression"
                    (<["R2" := FNum 0.9]> (<["RMSE" := FNum 0.1]>
                       {[ "Training_Time_sec" := FNum 0.012 ]}))]
                 [("LinearRegression", "LinearRegression_1700000000.pkl")])
              "LinearRegression" "LinearRegression_1700000000.pkl"
              (mkSklearn (Training.load_from files')
                 (fun _ _ => inr (FNum 1)) (fun _ _ => inr (FNum 1))
                 (fun _ _ => inr (FNum 0)) (fun _ _ => inr (FNum 1)))
              0 (Some "y") [frame_aby])
    as (m & training & Hm & Hcols & _ & _ & Hmissing & _);
    [reflexivity | reflexivity | by vm_compute | apply list_elem_of_here
     | reflexivity | reflexivity | by right |].
  exists m, training. split; [exact Hm|]. split; [exact Hcols | exact Hmissing].
Defined.

(** X28: behind the orchestrator, training needs the target column.  When
    the EDA succeeds and the quality gate is passed, a dataset that is
    empty or has no column of the target name (the orchestrate route always
    asks for "target") ends the decision as a training failure whose
    details are the training agent's message, for any library and disk. *)
Theorem orchestration_needs_the_target_column
        self eda retrieval K files E data target w report :
  let S := Orchestrator.mkStages eda (Training.training_stage K files) retrieval in
  eda data = inr report ->
  (Orchestrator.eda_quality_threshold self <= 0.85)%Q ->
  Training.makedirs K "models" = inr tt ->
  Training.empty data = true \/ target ∉ labels data ->
  fst (Orchestrator.decide_next_steps self S E data target w) =
    inr {[ "error" := Orchestrator.DStr "Model training failed";
           "details" := Orchestrator.DStr
             (if Training.empty data then "Dataset is empty. Cannot train models."
              else "Target column '" +:+ target +:+ "' not found.") ]}.
Proof.
  intros S Heda Hgate%Qltb_false Hdirs Hdata.
  assert (Hstage : Training.training_stage K files data target =
            inl (ValueError
                   (if Training.empty data then "Dataset is empty. Cannot train models."
                    else "Target column '" +:+ target +:+ "' not found."))).
  { unfold Training.training_stage. rewrite train_and_evaluate_models_run.
    unfold Training.prepare, Training.target_folder. simpl. rewrite Hdirs.
    destruct (Training.empty data); [reflexivity|].
    destruct Hdata as [?|Hdata]; [done|].
    by rewrite bool_decide_eq_false_2. }
  unfold Orchestrator.decide_next_steps, Orchestrator.attempt, Orchestrator.call_stage,
    try_except, bind, modify, lift, ret.
  subst S. cbn [Orchestrator.generate_eda Orchestrator.train_and_evaluate_models].
  rewrite Heda. cbv beta iota. rewrite Hgate. cbv beta iota.
  by rewrite Hstage.
Qed.

Lemma orchestration_needs_the_target_column_witness :
  fst (Orchestrator.decide_next_steps Orchestrator.init
         (Orchestrator.mkStages (fun _ => inr "report")
            (Training.training_stage toy_library ∅) (fun _ _ => inr EmptyString))
         backend_down frame_aby "target" empty_world) =
    inr {[ "error" := Orchestrator.DStr "Model training failed";
           "details" := Orchestrator.DStr "Target column 'target' not found." ]}.
Proof.
  apply (orchestration_needs_the_target_column Orchestrator.init
           (fun _ => inr "report") (fun _ _ => inr EmptyString) toy_library ∅
           backend_down frame_aby "target" empty_world "report");
    [reflexivity | by vm_compute | reflexivity |].
  right. intros Hin. by apply (bool_decide_pack _) in Hin.
Defined.

End PipelineProperties.

(* ===================================================================== *)
(** * Properties of the evaluation and training routes                    *)
(* ===================================================================== *)

Module HandlersFacts.
Import Py Frame Routes Handlers TrainingFacts.

Lemma has_slash_app s t : has_slash (s +:+ t) = has_slash s || has_slash t.
Proof.
  induction s as [|c s IH]; [done|].
  change (String c s +:+ t) with (String c (s +:+ t)). simpl.
  by rewrite IH, orb_assoc.
Qed.

Lemma ends_with_slash_has_slash s : ends_with_slash s = true -> has_slash s = true.
Proof.
  induction s as [|c s IH]; [done|]. simpl.
  destruct s as [|d s]; [intros ->; done|].
  intros H. rewrite (IH H). apply orb_true_r.
Qed.

Lemma has_slash_pretty_N_go x s : has_slash s = false -> has_slash (pretty_N_go x s) = false.
Proof.
  revert s. induction (N.lt_wf_0 x) as [x _ IH]; intros s Hs.
  destruct (decide (x = 0)%N) as [->|Hx]; [by rewrite pretty_N_go_0|].
  rewrite pretty_N_go_step by lia. apply IH; [apply N.div_lt; lia|].
  simpl. rewrite Hs, orb_false_r. unfold pretty_N_char. by repeat case_match.
Qed.

Lemma has_slash_pretty_Z (z : Z) : has_slash (pretty z) = false.
Proof.
  assert (HN : forall n : N, has_slash (pretty n) = false).
  { intros n. unfold pretty, pretty_N. case_decide; [done|].
    by apply has_slash_pretty_N_go. }
  destruct z as [|p|p]; [done | apply HN |].
  unfold pretty, pretty_Z. rewrite has_slash_app. simpl. apply HN.
Qed.

Lemma prefix_slash_cons c r : String.prefix "/" (String c r) = true <-> c = "/"%char.
Proof.
  change (String.prefix "/" (String c r))
    with (if ascii_dec "/" c then String.prefix EmptyString r else false).
  destruct (ascii_dec "/" c) as [<-|]; [rewrite PyFacts.prefix_nil|];
    split; congruence.
Qed.

(** A model file name has no separator and is not an absolute path. *)
Lemma model_filename_plain xgb task n t :
  n ∈ Training.get_models xgb task ->
  has_slash (Training.model_filename n t) = false /\
  String.prefix "/" (Training.model_filename n t) = false.
Proof.
  intros Hn. unfold Training.model_filename.
  assert (Hplain : has_slash n = false /\ exists c r, n = String c r /\ c <> "/"%char).
  { unfold Training.get_models in Hn.
    destruct (Training.is_regression task), xgb; simpl in Hn;
      repeat (apply elem_of_cons in Hn as [->|Hn];
              [split; [reflexivity | eexists _, _; split; [reflexivity | done]]|]);
      by apply elem_of_nil in Hn. }
  destruct Hplain as [Hs (c & r & -> & Hc)]. split.
  - rewrite !has_slash_app, Hs, has_slash_pretty_Z. reflexivity.
  - change (String c r +:+ "_" +:+ pretty t +:+ ".pkl")
      with (String c (r +:+ "_" +:+ pretty t +:+ ".pkl")).
    apply not_true_is_false. by intros ?%prefix_slash_cons.
Qed.

(** A path inside a session folder is not a path directly inside
    [models]. *)
Lemma session_path_differs session_id model_file f :
  truthy session_id = true ->
  has_slash f = false ->
  model_path (Some session_id) model_file <> "models/" +:+ f.
Proof.
  intros Hs Hf. unfold model_path, model_dir, given. rewrite Hs.
  assert (Hno : forall rest, has_slash rest = true -> "models/" +:+ rest <> "models/" +:+ f).
  { intros rest Hrest Heq. assert (Hr : rest = f); [|congruence].
    injection Heq as Heq. exact Heq. }
  assert (Habs : forall p, String.prefix "/" p = true -> p <> "models/" +:+ f).
  { intros [|c p]; [done|]. by intros ->%prefix_slash_cons. }
  assert (Hdir : String.prefix "/" (path_join "models" session_id) = true \/
                 path_join "models" session_id = "models/" +:+ session_id).
  { unfold path_join. destruct (String.prefix "/" session_id) eqn:Hp; [by left | by right]. }
  set (dir := path_join "models" session_id) in *. clearbody dir.
  unfold path_join.
  destruct (String.prefix "/" model_file) eqn:Hm; [by apply Habs|].
  destruct Hdir as [Hd| ->].
  - destruct (negb (truthy dir) || ends_with_slash dir); apply Habs;
      by apply PyFacts.prefix_app_r.
  - destruct session_id as [|c s]; [done|].
    change (truthy ("models/" +:+ String c s)) with true.
    change (negb true || ?b) with b.
    destruct (ends_with_slash ("models/" +:+ String c s)) eqn:He.
    + change (("models/" +:+ String c s) +:+ model_file)
        with ("models/" +:+ (String c s +:+ model_file)).
      apply Hno. rewrite has_slash_app, (ends_with_slash_has_slash (String c s)); [done|].
      exact He.
    + change (("models/" +:+ String c s) +:+ "/" +:+ model_file)
        with ("models/" +:+ (String c s +:+ "/" +:+ model_file)).
      apply Hno. rewrite !has_slash_app. apply orb_true_r.
Qed.

End HandlersFacts.

Module HandlersProperties.
Import Py Frame Routes Handlers TrainingFacts HandlersFacts Examples MoreExamples.

(** X29: the evaluate route answers every failure with status 500 and a
    detail that starts with "Evaluation failed: ".  This includes the two
    errors the route itself raises with status 400 (no processed file for
    the dataset id; neither file nor dataset id): they are caught by the
    route's own handler, so the client never sees a 400, and nothing has
    been loaded or evaluated by then. *)
Theorem evaluation_errors_are_all_500
        Y KE file dataset_id model_file has_target target_col session_id h :
  let out := evaluate Y KE file dataset_id model_file has_target target_col
               session_id h in
  (forall e, fst out = inl e ->
     exists cause, e = HTTPException "500" ("Evaluation failed: " +:+ str Y cause)) /\
  (forall cause, Routes.evaluate (paths Y) (uploaded file) dataset_id = inl cause ->
     exn_type cause = "HTTPException 400" /\
     out = (inl (HTTPException "500" ("Evaluation failed: " +:+ str Y cause)), h)).
Proof.
  cbv zeta. split.
  - unfold evaluate, try_except.
    destruct (bind _ _ h) as [[e|res] h']; simpl; [|done].
    intros ? [= <-]. eauto.
  - intros cause Hcause. split.
    + revert Hcause. unfold Routes.evaluate.
      destruct (given dataset_id); [destruct (negb _) | destruct (negb _)];
        by intros [= <-].
    + unfold evaluate, try_except, bind, lift, evaluation_data.
      by rewrite Hcause.
Qed.

(** X30: the train route never saves into a session folder.  For a
    session id that names a folder of its own (non-empty, no separator,
    not "." or "..") and a plain file name, the file the evaluate route
    looks at for that session is after the call what it was before,
    whatever the request and the outcome; every model the route reports is
    on disk where the evaluate route looks when no session id is given. *)
Theorem train_route_saves_outside_session_folders
        Y K r files session_id model_file :
  let out := train_models Y K r files in
  truthy session_id = true ->
  has_slash session_id = false ->
  session_id <> "." ->
  session_id <> ".." ->
  has_slash model_file = false ->
  snd out !! model_path (Some session_id) model_file =
    files !! model_path (Some session_id) model_file /\
  (forall res n f,
     fst out = inr res ->
     (n, f) ∈ Training.trained_models res ->
     is_Some (snd out !! model_path None f)).
Proof.
  cbv zeta. intros Hs _ _ _ _. unfold train_models, try_except, bind, lift.
  destruct (training_data Y r) as [e|df]; [by split|].
  unfold checked_training, raise.
  destruct (Training.empty df); [by split|].
  destruct (selected_models r) as [[|m ms]|]; [by split| |by split].
  destruct (selected_metrics r) as [[|x xs]|]; [by split| |by split].
  set (a := training_args r df (m :: ms) (x :: xs)).
  pose proof (training_writes K a files) as Hwrites.
  pose proof (training_saves K a files) as Hsaves.
  assert (Hkept : snd (Training.train_and_evaluate_models K a files)
                    !! model_path (Some session_id) model_file =
                  files !! model_path (Some session_id) model_file).
  { destruct (Hwrites (model_path (Some session_id) model_file))
      as [?|(n & Hn & Hpath)]; [done|]. exfalso.
    destruct (model_filename_plain _ _ n (Training.time_now K n) Hn) as [Hslash Habs].
    revert Hpath. change (Training.target_folder a) with "models".
    unfold path_join at 1. rewrite Habs. by apply session_path_differs. }
  destruct (Training.train_and_evaluate_models K a files) as [[e|res] files'];
    cbn [fst snd] in *; split; try done.
  intros res' n f [= <-] Hnf. by destruct (Hsaves res n f eq_refl Hnf) as (_ & _ & ?).
Qed.

Lemma train_route_saves_outside_session_folders_witness :
  let out := train_models toy_system toy_library toy_request ∅ in
  snd out !! "models/s1/LinearRegression_1700000000.pkl" = None /\
  is_Some (snd out !! "models/LinearRegression_1700000000.pkl").
Proof.
  intros out.
  destruct (train_route_saves_outside_session_folders toy_system toy_library
              toy_request ∅ "s1" "LinearRegression_1700000000.pkl")
    as [Hkept Hsaved]; [reflexivity | reflexivity | done | done | reflexivity |].
  split; [exact Hkept|].
  apply (Hsaved (Training.mkOutput
                   [Orchestrator.mkRow "LinearRegression"
                      (<["R2" := FNum 0.9]> {[ "Training_Time_sec" := FNum 0.012 ]})]
                   [("LinearRegression", "LinearRegression_1700000000.pkl")])
           "LinearRegression" "LinearRegression_1700000000.pkl");
    [by vm_compute | apply list_elem_of_here].
Defined.

End HandlersProperties.
